(** * The iCloud hide-my-email generator ([main.py]), embedded in Rocq

    The program is a thin asynchronous driver around a remote client
    ([icloud.HideMyEmail]).  Its behaviour is decided by the JSON values the
    remote operations answer with, so the embedding consists of

    - the JSON values of Python ([pyval]) with the handful of operations
      [main.py] applies to them (truthiness, [in], subscripting, [type(..) ==]);
    - a writer-with-exceptions monad [M]: a computation yields the events it
      caused, in order, and either a value or the exception it raised;
    - what the code takes from its libraries and from the operating system
      ([re], [datetime], [rich], the file system), as a [platform];
    - the methods of [RichHideMyEmail], transcribed statement by statement. *)

From Stdlib Require Import ZArith QArith String List Lia.
From stdpp Require Import base gmap strings list.

Set Warnings "-register-all".
Local Open Scope string_scope.
Local Open Scope list_scope.
Local Open Scope Z_scope.

(** ** Python values *)

(** What [json] decoding can produce; a [dict] is a finite map on strings. *)
Inductive pyval :=
| PNone
| PBool (b : bool)
| PInt (z : Z)
| PFloat (q : Q)
| PStr (s : string)
| PList (l : list pyval)
| PDict (d : gmap string pyval).

(** The exceptions that go through [main.py].  [ValueError cls] is an
    exception of the class [cls] that is a [ValueError]: that class itself or
    a class derived from it, such as [UnicodeEncodeError]; [OtherError name]
    is an exception of a class [name] that is none of the others and no
    [ValueError]. *)
Inductive exn :=
| KeyError (key : string)
| TypeError
| IndexError
| NotRenderableError
| MarkupError
| ValueError (cls : string)
| OtherError (name : string).

Inductive outcome (A : Type) :=
| Ret (a : A)
| Raise (e : exn).
Arguments Ret {A} a.
Arguments Raise {A} e.

(** ** Events *)

(** The lines handed to [console.log], one constructor per format string of
    [main.py]; the interpolated values are kept as they are. *)
Inductive message :=
| WARN_no_cookie_file
| ERR_failed_to_generate (err_msg : pyval)
| generated_50 (email : pyval)
| ERR_failed_to_reserve (email err_msg : pyval)
| reserved_100 (email : pyval)
| generated_sleeping (generated : nat) (minutes : Z)
| written_to_emails_txt.

(** What the program does to the world, call by call.  [console_log] and
    [console_print_table] record that the call was made, whether or not rich
    then refuses what it is given; [file_open_w] that a file was opened for
    writing, and so emptied; [file_write] that a text was written to it. *)
Inductive event :=
| generate_email_call
| reserve_email_call (email : pyval)
| list_email_call
| console_rule
| console_status (text : string)
| console_log (m : message)
| console_print_table
| table_add_column (header : string)
| table_add_row (cells : list pyval)
| file_open_w (path : string)
| file_write (path content : string)
| asyncio_sleep (seconds : Z)
| asyncio_gather (tasks : list (list event)).

(** ** The monad of effects *)

Definition M (A : Type) : Type := (list event * outcome A)%type.

Definition ret {A} (a : A) : M A := ([], Ret a).
Definition raise {A} (e : exn) : M A := ([], Raise e).
Definition emit (e : event) : M unit := ([e], Ret tt).

Definition bind {A B} (m : M A) (k : A -> M B) : M B :=
  match m with
  | (t, Ret a) => let (t', r) := k a in (t ++ t', r)
  | (t, Raise e) => (t, Raise e)
  end.

Notation "'let*' x ':=' m 'in' k" := (bind m (fun x => k))
  (at level 10, x name, m at level 200, k at level 200).

(** A computation together with the events it caused. *)
Definition listen {A} (m : M A) : M (A * list event) :=
  match m with
  | (t, Ret a) => (t, Ret (a, t))
  | (t, Raise e) => (t, Raise e)
  end.

Definition trace {A} (m : M A) : list event := fst m.
Definition result {A} (m : M A) : outcome A := snd m.

(** ** The operations of Python that [main.py] uses *)

(** [bool(d)] of a [dict]. *)
Definition nonempty (d : gmap string pyval) : bool :=
  negb (Nat.eqb (size d) 0).
Arguments nonempty : simpl never.

(** [bool(v)], as taken by [if] and [not]. *)
Definition py_bool (v : pyval) : bool :=
  match v with
  | PNone => false
  | PBool b => b
  | PInt z => negb (z =? 0)
  | PFloat q => negb (Qeq_bool q 0%Q)
  | PStr s => negb (String.eqb s "")
  | PList l => match l with [] => false | _ => true end
  | PDict d => nonempty d
  end.

Fixpoint is_substring (p s : string) : bool :=
  String.prefix p s ||
  match s with
  | EmptyString => false
  | String _ s' => is_substring p s'
  end.

(** [item in container] for a string [item]. *)
Definition py_in (item : string) (container : pyval) : M bool :=
  match container with
  | PDict d => ret (match d !! item with Some _ => true | None => false end)
  | PStr s => ret (is_substring item s)
  | PList l =>
      ret (existsb (fun v => match v with
                             | PStr s => String.eqb s item
                             | _ => false
                             end) l)
  | PNone | PBool _ | PInt _ | PFloat _ => raise TypeError
  end.

(** [v[key]] for a string [key]. *)
Definition py_getitem (v : pyval) (key : string) : M pyval :=
  match v with
  | PDict d => match d !! key with
               | Some x => ret x
               | None => raise (KeyError key)
               end
  | _ => raise TypeError
  end.

(** [type(v) == int]: a [bool] is not of that type. *)
Definition type_is_int (v : pyval) : bool :=
  match v with PInt _ => true | _ => false end.

(** [type(v) == dict]. *)
Definition type_is_dict (v : pyval) : bool :=
  match v with PDict _ => true | _ => false end.

(** [v is not None]. *)
Definition is_not_None (v : pyval) : bool :=
  match v with PNone => false | _ => true end.

(** ** Waves of tasks *)

(** A task of a wave is a computation together with the times the answers
    it awaits take to come in, one per remote call it makes, in the order of
    the calls.  A task runs from one answer to its next call, or to its end,
    without giving way to another task. *)
Definition task (A : Type) : Type := (M A * list nat)%type.

Definition is_call (e : event) : bool :=
  match e with
  | generate_email_call | reserve_email_call _ | list_email_call => true
  | _ => false
  end.

(** What a task has done once [n] answers are in: the events up to its
    call number [n + 1], or all of them when it makes fewer calls. *)
Fixpoint upto (calls : nat) (t : list event) : list event :=
  match calls, t with
  | O, _ => []
  | _, [] => []
  | S n, e :: t' => e :: upto (if is_call e then n else calls) t'
  end.

(** The moments at which the answers of a task come in, from its latencies
    and the moment it starts. *)
Fixpoint arrivals (clock : nat) (times : list nat) : list nat :=
  match times with
  | [] => []
  | d :: times' => (clock + d)%nat :: arrivals (clock + d)%nat times'
  end.

(** The moment a task ends: when the last answer it awaits comes in. *)
Definition ends_at {A} (x : task A) : nat :=
  List.last (firstn (length (List.filter is_call (trace (fst x))))
          (arrivals 0 (snd x))) 0%nat.

(** An answer that comes in at moment [t] to the task submitted [j]-th is
    handled before the task submitted [i]-th ends at moment [T]: answers that
    come in at the same moment are handled in the order of submission. *)
Definition earlier (T i t j : nat) : bool :=
  (t <? T)%nat || ((t =? T)%nat && (j <=? i)%nat).

(** The task that raises first in time, if one raises: the moment it ends,
    its place in the wave and its exception.  [j] is the place of the first
    task of the list. *)
Fixpoint first_raised {A} (j : nat) (tasks : list (task A))
  : option (nat * nat * exn) :=
  match tasks with
  | [] => None
  | x :: tasks' =>
      let later := first_raised (S j) tasks' in
      match result (fst x) with
      | Ret _ => later
      | Raise e =>
          match later with
          | Some (T, _, _) =>
              if (T <? ends_at x)%nat then later else Some (ends_at x, j, e)
          | None => Some (ends_at x, j, e)
          end
      end
  end.

(** What the task submitted [j]-th has done when the wave is over: all of
    it when no task raises, and otherwise what it did before the first
    exception. *)
Definition ran {A} (stop : option (nat * nat * exn)) (j : nat) (x : task A)
  : list event :=
  match stop with
  | None => trace (fst x)
  | Some (T, i, _) =>
      upto (S (length (List.filter (fun t => earlier T i t j)
                         (arrivals 0 (snd x)))))
        (trace (fst x))
  end.

(** The values of the tasks in the order of the arguments, when every task
    returns. *)
Fixpoint gather_results {A} (rs : list (outcome A)) : outcome (list A) :=
  match rs with
  | [] => Ret []
  | Raise e :: _ => Raise e
  | Ret a :: rs' =>
      match gather_results rs' with
      | Ret l => Ret (a :: l)
      | Raise e => Raise e
      end
  end.

(** [await asyncio.gather] over the tasks.  Every task is started when the
    wave is awaited, in the order of submission, and runs to its first call.  When
    every task returns, the values come back in the order of the arguments.
    When a task raises, the awaiter gets the exception that is raised first
    in time and no value; the other tasks are left where they are, and what
    they would still do is no part of the wave.  The tasks of a wave share
    nothing but the console, so the event of the wave keeps one trace per
    task. *)
Definition gather {A} (tasks : list (task A)) : M (list A) :=
  let stop := first_raised 0 tasks in
  ([asyncio_gather (imap (ran stop) tasks)],
   match stop with
   | Some (_, _, e) => Raise e
   | None => gather_results (map (fun x => result (fst x)) tasks)
   end).

(** ** The remote client *)

(** Modelled from the spec: the remote client [icloud.HideMyEmail], whose
    module is not among the sources.  It offers the three operations
    [generate_email], [reserve_email] and [list_email]; each answers with a
    decoded JSON value (an envelope) or with nothing.  An inhabitant fixes what
    the service answers to one caller, and how long the answers to its create
    call and to its reserve call take. *)
Record HideMyEmail := {
  generate_email : pyval;
  reserve_email : pyval -> pyval;
  list_email : pyval;
  generate_email_time : nat;
  reserve_email_time : nat;
}.

Definition await_generate_email (self : HideMyEmail) : M pyval :=
  ([generate_email_call], Ret (generate_email self)).

Definition await_reserve_email (self : HideMyEmail) (email : pyval) : M pyval :=
  ([reserve_email_call email], Ret (reserve_email self email)).

Definition await_list_email (self : HideMyEmail) : M pyval :=
  ([list_email_call], Ret (list_email self)).

(** ** The constants of [main.py] *)

(** The three constants at the head of [main.py]. *)
Record settings := {
  MAX_CONCURRENT_TASKS : Z;
  SLEEP_INTERVAL : Z;
  COUNT_TO_GENERATE : Z;
}.

(** The values [main.py] ships with. *)
Definition main_py : settings :=
  {| MAX_CONCURRENT_TASKS := 5;
     SLEEP_INTERVAL := 30 * 60;
     COUNT_TO_GENERATE := 20 |}.

(** [round(a / b)] for a positive [b]: to the nearest integer, a tie to the
    even one.  Python rounds the quotient it has computed as a float; for
    [b = 60] that is the integer below as long as [a] is smaller than 2^53 in
    absolute value. *)
Definition py_round_div (a b : Z) : Z :=
  let q := a / b in
  let r := a mod b in
  if 2 * r <? b then q
  else if b <? 2 * r then q + 1
  else if Z.even q then q else q + 1.

(** ** The suspension points of [generate] *)

(** [generate] is a coroutine that does not end by itself, so it is embedded
    as a machine over its suspension points: it rests either in
    [await self._generate(..)] (line 114), holding [count] and [emails], or in
    [await asyncio.sleep(..)] (line 118); it has left the loop when it has
    returned (line 120) or when an exception other than [KeyboardInterrupt]
    went through it.  A schedule is the list of the resumptions the event
    loop grants it; when the event loop stops, the schedule ends and
    [generate] stays where it is. *)
Inductive generate_state :=
| at_generate (count : Z) (emails : list pyval)
| at_sleep
| returned (value : list pyval)
| raised (e : exn).

(** How a suspended [generate] is resumed: what it awaits completes (a wave,
    with the answers of the service to each of its tasks, or the sleep), and
    [generate] runs on to its next suspension.  With [KeyboardInterrupt] the
    same happens, and a [KeyboardInterrupt] is raised in [generate] at the
    statement where it runs on (line 115 after a wave that came back, line
    111 after the sleep), which lines 119-120 catch.

    This is the only interrupt that reaches lines 119-120.  An interrupt of
    the operator that comes while [generate] is suspended is not raised in
    [generate]: under [loop.run_until_complete] (line 184) it is raised in
    the event loop, stops it and reaches line 185, and [generate] is never
    resumed.  In a schedule that is the end of the list. *)
Inductive resumption :=
| completes (remote : nat -> HideMyEmail)
| KeyboardInterrupt (remote : nat -> HideMyEmail).

(** ** Libraries and operating system *)

(** What the code takes from its libraries and from the operating system. *)
Record platform := {
  (** [re]: a pattern compiles to a search over strings, or is refused *)
  re_compile : string -> outcome (string -> bool);
  (** [datetime.datetime.fromtimestamp(t).strftime("%Y-%m-%d %H:%M")], in the
      local time zone; refused out of the range of the platform *)
  fromtimestamp_strftime : Q -> outcome string;
  (** [str(v)] of a value that is not a string *)
  str_of : pyval -> string;
  (** [os.linesep] *)
  os_linesep : string;
  (** [rich]: a logged line is parsed as markup when it is logged; it is
      rendered, or refused with an exception ([MarkupError] for a closing tag
      that closes nothing) *)
  console_renders : message -> outcome unit;
  (** [rich]: likewise the text of a cell, when the table is printed *)
  cell_renders : string -> outcome unit;
  (** [open(path, "w")]: the file is opened and emptied, or the opening is
      refused *)
  os_open_w : string -> outcome unit;
  (** [f.write(text)] and the closing of the file: the text is encoded and
      written, or refused before any of it is written ([UnicodeEncodeError],
      a [ValueError], for a text that the encoding of the platform cannot
      hold) *)
  os_write : string -> outcome unit;
}.

Definition lift {A} (o : outcome A) : M A := ([], o).

(** [re.search(pattern, subject)], reduced to whether there is a match. *)
Definition re_search (P : platform) (pattern : string) (subject : pyval)
  : M bool :=
  match re_compile P pattern with
  | Raise e => raise e
  | Ret found =>
      match subject with
      | PStr s => ret (found s)
      | _ => raise TypeError
      end
  end.

(** [v / 1000]. *)
Definition py_truediv_1000 (v : pyval) : M Q :=
  match v with
  | PInt z => ret (inject_Z z / 1000)%Q
  | PBool b => ret (inject_Z (Z.b2z b) / 1000)%Q
  | PFloat q => ret (q / 1000)%Q
  | _ => raise TypeError
  end.

(** [v == b] for a boolean [b]: [True] equals [1] and [1.0]. *)
Definition py_eq_bool (v : pyval) (b : bool) : bool :=
  match v with
  | PBool b' => Bool.eqb b' b
  | PInt z => z =? Z.b2z b
  | PFloat q => Qeq_bool q (inject_Z (Z.b2z b))
  | _ => false
  end.

(** A value as an f-string interpolates it. *)
Definition py_str (P : platform) (v : pyval) : string :=
  match v with
  | PStr s => s
  | _ => str_of P v
  end.

Fixpoint chars (s : string) : list pyval :=
  match s with
  | EmptyString => []
  | String a s' => PStr (String a EmptyString) :: chars s'
  end.

(** What [for .. in v] goes through. *)
Definition py_iter (v : pyval) : M (list pyval) :=
  match v with
  | PList l => ret l
  | PStr s => ret (chars s)
  | PDict d => ret (map (fun kv => PStr (fst kv)) (map_to_list d))
  | _ => raise TypeError
  end.

(** [Table.add_row]: a cell is a string or [None]. *)
Definition renderable (v : pyval) : bool :=
  match v with PStr _ | PNone => true | _ => false end.

Definition add_row (cells : list pyval) : M unit :=
  if forallb renderable cells then emit (table_add_row cells)
  else raise NotRenderableError.

(** [self.console.log(..)] of a line that carries a text of the service: the
    call is made, and raises when rich refuses the line.  The lines without
    such a text (the warning of [__init__], the two lines of the poll loop
    and of the Lister when they are done) are fixed, well-formed markup and
    are logged as plain events. *)
Definition log (P : platform) (m : message) : M unit :=
  ([console_log m], console_renders P m).

(** The cells of a table as rich renders them, the first refusal ending the
    rendering; [None] is an empty cell. *)
Fixpoint render_cells (P : platform) (cells : list pyval) : outcome unit :=
  match cells with
  | [] => Ret tt
  | PStr s :: cells' =>
      match cell_renders P s with
      | Ret _ => render_cells P cells'
      | Raise e => Raise e
      end
  | _ :: cells' => render_cells P cells'
  end.

(** [self.console.print(self.table)] for a table that holds [rows] under its
    four fixed headers. *)
Definition console_print (P : platform) (rows : list (list pyval)) : M unit :=
  ([console_print_table], render_cells P (concat rows)).

(** The rows a run added to the table, in order. *)
Definition rows_added (t : list event) : list (list pyval) :=
  flat_map (fun e => match e with table_add_row cells => [cells] | _ => [] end) t.

(** ** The menu *)

(** What [Prompt.ask(..).strip()] evaluates to (lines 89-95): the text the
    operator typed, stripped, or the interrupt of the operator raised at the
    prompt.  The text of the prompt is not kept in the trace. *)
Inductive prompt_answer :=
| answers (s : string)
| interrupts.

(** Where [ask_action] is: awaiting [self.generate()] (line 98), which is
    itself in some state, or done. *)
Inductive ask_state :=
| awaiting_generate (s : generate_state)
| ask_done (o : outcome pyval).

(** [except ValueError] (line 103): the clause takes an exception of that
    class or of a class derived from it.  [KeyError], [TypeError] and
    [IndexError] are not derived from it, nor are the two exceptions of
    rich. *)
Definition is_ValueError (e : exn) : bool :=
  match e with
  | ValueError _ => true
  | _ => false
  end.

(** Lines 103-104 around an exception that reaches them. *)
Definition except_ValueError (e : exn) : ask_state :=
  if is_ValueError e then ask_done (Ret PNone) else ask_done (Raise e).

(** ** The class [RichHideMyEmail] *)

Module RichHideMyEmail.

(** Lines 23-35.  [cookie_file] is the file ["cookie.txt"]: its lines when it
    exists.  The value is what [self.cookies] is set to, if it is set. *)
Definition __init__ (cookie_file : option (list string)) : M (option string) :=
  match cookie_file with
  | Some f =>
      match List.filter (fun line => negb (String.prefix "//" line)) f with
      | line :: _ => ret (Some line)
      | [] => raise IndexError
      end
  | None =>
      let* _ := emit (console_log WARN_no_cookie_file) in
      ret None
  end.

(** Lines 37-76. *)
Definition _generate_one (P : platform) (self : HideMyEmail) : M pyval :=
  let* gen_res := await_generate_email self in
  if negb (py_bool gen_res) then ret PNone
  else
    let* has_success := py_in "success" gen_res in
    let* failed :=
      (if negb has_success then ret true
       else let* s := py_getitem gen_res "success" in ret (negb (py_bool s))) in
    if failed then
      let* has_error := py_in "error" gen_res in
      let* error :=
        (if has_error then py_getitem gen_res "error" else ret (PDict ∅)) in
      let err_msg := PStr "Unknown" in
      let* is_code :=
        (if type_is_int error then py_in "reason" gen_res else ret false) in
      let* err_msg :=
        (if is_code then py_getitem gen_res "reason"
         else
           let* is_object :=
             (if type_is_dict error then py_in "errorMessage" error
              else ret false) in
           if is_object then py_getitem error "errorMessage" else ret err_msg) in
      let* _ := log P (ERR_failed_to_generate err_msg) in
      ret PNone
    else
      let* res := py_getitem gen_res "result" in
      let* email := py_getitem res "hme" in
      let* _ := log P (generated_50 email) in
      let* reserve_res := await_reserve_email self email in
      if negb (py_bool reserve_res) then ret PNone
      else
        let* has_success := py_in "success" reserve_res in
        let* failed :=
          (if negb has_success then ret true
           else let* s := py_getitem reserve_res "success" in
                ret (negb (py_bool s))) in
        if failed then
          let* has_error := py_in "error" reserve_res in
          let* error :=
            (if has_error then py_getitem reserve_res "error"
             else ret (PDict ∅)) in
          let err_msg := PStr "Unknown" in
          let* is_code :=
            (if type_is_int error then py_in "reason" reserve_res
             else ret false) in
          let* err_msg :=
            (if is_code then py_getitem reserve_res "reason"
             else
               let* is_object :=
                 (if type_is_dict error then py_in "errorMessage" error
                  else ret false) in
               if is_object then py_getitem error "errorMessage"
               else ret err_msg) in
          let* _ := log P (ERR_failed_to_reserve email err_msg) in
          ret PNone
        else
          let* _ := log P (reserved_100 email) in
          ret email.

(** Lines 78-84.  [remote i] is what the service answers to the task
    submitted [i]-th, and after how long. *)
Definition _generate (P : platform) (remote : nat -> HideMyEmail) (num : Z)
  : M (list pyval) :=
  let tasks :=
    map (fun i => (_generate_one P (remote i),
                   [generate_email_time (remote i);
                    reserve_email_time (remote i)]))
      (seq 0 (Z.to_nat num)) in
  let* results := gather tasks in
  ret (List.filter is_not_None results).

(** Lines 113 and 117-118: the test of [while count > 0], and what follows
    the loop when the test fails. *)
Definition while_count (c : settings) (count : Z) (emails : list pyval)
  : list event * generate_state :=
  if count >? 0 then ([], at_generate count emails)
  else ([console_log (generated_sleeping (length emails)
                        (py_round_div (SLEEP_INTERVAL c) 60));
         asyncio_sleep (SLEEP_INTERVAL c)],
        at_sleep).

(** Lines 110-112: one turn of [while True]. *)
Definition while_True (c : settings) : list event * generate_state :=
  let count := COUNT_TO_GENERATE c in
  let emails := [] in
  while_count c count emails.

(** Lines 107-109: from the call to the first suspension. *)
Definition generate_enter (c : settings) : list event * generate_state :=
  ([console_rule; console_status "Generating iCloud emails..."]
     ++ fst (while_True c),
   snd (while_True c)).

(** From one suspension to the next (lines 114-116, 118 and 119-120).  An
    exception of the wave that is no [KeyboardInterrupt] goes through the
    handler of line 119. *)
Definition generate_resume (P : platform) (c : settings) (s : generate_state)
    (r : resumption) : list event * generate_state :=
  match s, r with
  | at_generate count emails, completes remote =>
      match _generate P remote (MAX_CONCURRENT_TASKS c) with
      | (t, Ret batch) =>
          let emails := emails ++ batch in
          let count := count - MAX_CONCURRENT_TASKS c in
          (t ++ fst (while_count c count emails),
           snd (while_count c count emails))
      | (t, Raise e) => (t, raised e)
      end
  | at_sleep, completes _ => while_True c
  | at_generate _ _, KeyboardInterrupt remote =>
      match _generate P remote (MAX_CONCURRENT_TASKS c) with
      | (t, Ret _) => (t, returned [])
      | (t, Raise e) => (t, raised e)
      end
  | at_sleep, KeyboardInterrupt _ => ([], returned [])
  | returned v, _ => ([], returned v)
  | raised e, _ => ([], raised e)
  end.

Fixpoint generate_run (P : platform) (c : settings) (s : generate_state)
    (rs : list resumption) : list event * generate_state :=
  match rs with
  | [] => ([], s)
  | r :: rs' =>
      let step := generate_resume P c s r in
      let rest := generate_run P c (snd step) rs' in
      (fst step ++ fst rest, snd rest)
  end.

(** [generate] under a schedule of resumptions. *)
Definition generate (P : platform) (c : settings) (rs : list resumption)
  : list event * generate_state :=
  let rest := generate_run P c (snd (generate_enter c)) rs in
  (fst (generate_enter c) ++ fst rest, snd rest).

(** Lines 147-160: the loop over the fetched records. *)
Fixpoint list_for (P : platform) (active : bool) (search : option string)
    (records : list pyval) (email_strings : list string) : M (list string) :=
  match records with
  | [] => ret email_strings
  | email :: records' =>
      let* is_active := py_getitem email "isActive" in
      let status := if py_bool is_active then "Active" else "Inactive" in
      let* timestamp := py_getitem email "createTimestamp" in
      let* seconds := py_truediv_1000 timestamp in
      let* creation_time := lift (fromtimestamp_strftime P seconds) in
      let* label := py_getitem email "label" in
      let* hme := py_getitem email "hme" in
      let email_strings :=
        email_strings
          ++ [(py_str P label ++ ";" ++ py_str P hme ++ ";" ++ creation_time
                 ++ ";" ++ status)%string] in
      let* is_active := py_getitem email "isActive" in
      let* _ :=
        (if py_eq_bool is_active active then
           let* found :=
             match search with
             | None => ret true
             | Some pattern =>
                 let* label := py_getitem email "label" in
                 re_search P pattern label
             end in
           if found then
             let* label := py_getitem email "label" in
             let* hme := py_getitem email "hme" in
             add_row [label; hme; PStr creation_time; PStr status]
           else ret tt
         else ret tt) in
      list_for P active search records' email_strings
  end.

(** Lines 161-164: the table, which holds [rows], is printed, the export
    is written and the line that says so is logged. *)
Definition list_finish (P : platform) (rows : list (list pyval))
    (email_strings : list string) : M unit :=
  let* _ := console_print P rows in
  let* _ := lift (os_open_w P "emails.txt") in
  let* _ := emit (file_open_w "emails.txt") in
  let* _ :=
    lift (os_write P (String.concat (os_linesep P) email_strings)) in
  let* _ :=
    emit (file_write "emails.txt"
            (String.concat (os_linesep P) email_strings)) in
  let* _ := emit (console_log written_to_emails_txt) in
  ret tt.

(** Lines 122-164, for the table of an instance that has listed nothing
    yet (each function of the module builds an instance and calls one method
    of it): the table that is printed holds the rows the loop added. *)
Definition list (P : platform) (self : HideMyEmail)
    (active : bool) (search : option string) : M unit :=
  let* _ := emit console_rule in
  let* _ := emit (console_status "Getting iCloud emails...") in
  let* gen_res := await_list_email self in
  if negb (py_bool gen_res) then ret tt
  else
    let* has_success := py_in "success" gen_res in
    let* failed :=
      (if negb has_success then ret true
       else let* s := py_getitem gen_res "success" in ret (negb (py_bool s))) in
    if failed then
      let* has_error := py_in "error" gen_res in
      let* error :=
        (if has_error then py_getitem gen_res "error" else ret (PDict ∅)) in
      let err_msg := PStr "Unknown" in
      let* is_code :=
        (if type_is_int error then py_in "reason" gen_res else ret false) in
      let* err_msg :=
        (if is_code then py_getitem gen_res "reason"
         else
           let* is_object :=
             (if type_is_dict error then py_in "errorMessage" error
              else ret false) in
           if is_object then py_getitem error "errorMessage" else ret err_msg) in
      let* _ := log P (ERR_failed_to_generate err_msg) in
      ret tt
    else
      let* _ := emit (table_add_column "Label") in
      let* _ := emit (table_add_column "Hide my email") in
      let* _ := emit (table_add_column "Creation Time") in
      let* _ := emit (table_add_column "Status") in
      let email_strings := [] in
      let* res := py_getitem gen_res "result" in
      let* hmeEmails := py_getitem res "hmeEmails" in
      let* records := py_iter hmeEmails in
      let* looped :=
        listen (list_for P active search records email_strings) in
      list_finish P (rows_added (snd looped)) (fst looped).

(** Lines 86-104.  [rs] is the schedule under which [generate] runs when the
    operator chooses it. *)
Definition ask_action (P : platform) (self : HideMyEmail) (c : settings)
    (answer : prompt_answer) (rs : Datatypes.list resumption)
  : Datatypes.list event * ask_state :=
  match answer with
  | interrupts => ([console_rule], ask_done (Ret PNone))
  | answers s =>
      if String.eqb s "1" then
        (console_rule :: fst (generate P c rs),
         match snd (generate P c rs) with
         | returned value => ask_done (Ret (PList value))
         | raised e => except_ValueError e
         | s => awaiting_generate s
         end)
      else if String.eqb s "2" then
        match list P self true None with
        | (t, Ret _) => (console_rule :: t, ask_done (Ret PNone))
        | (t, Raise e) => (console_rule :: t, except_ValueError e)
        end
      else ([console_rule], ask_done (Ret PNone))
  end.

End RichHideMyEmail.

(** ** The functions of the module [main.py] *)

(** Lines 167-179: each builds a [RichHideMyEmail] and calls one method of
    it.  Entering and leaving the client ([async with]) is code of the
    module [icloud], which is not among the sources; it is taken to leave no
    trace.  [cookie_file] is the file ["cookie.txt"] as [__init__] finds it. *)
Module Main.

Definition generate (cookie_file : option (list string)) (P : platform)
    (c : settings) (rs : list resumption) : list event * generate_state :=
  match RichHideMyEmail.__init__ cookie_file with
  | (t, Ret _) =>
      (t ++ fst (RichHideMyEmail.generate P c rs),
       snd (RichHideMyEmail.generate P c rs))
  | (t, Raise e) => (t, raised e)
  end.

Definition ask_action (cookie_file : option (list string)) (P : platform)
    (self : HideMyEmail) (c : settings) (answer : prompt_answer)
    (rs : list resumption) : list event * ask_state :=
  match RichHideMyEmail.__init__ cookie_file with
  | (t, Ret _) =>
      (t ++ fst (RichHideMyEmail.ask_action P self c answer rs),
       snd (RichHideMyEmail.ask_action P self c answer rs))
  | (t, Raise e) => (t, ask_done (Raise e))
  end.

Definition list (cookie_file : option (list string)) (P : platform)
    (self : HideMyEmail) (active : bool) (search : option string) : M unit :=
  let* _ := RichHideMyEmail.__init__ cookie_file in
  RichHideMyEmail.list P self active search.

End Main.

(** The files after a run, from the files before it. *)
Definition files_after (t : list event) (files : gmap string string)
  : gmap string string :=
  fold_left (fun fs e => match e with
                         | file_open_w path => <[path := ""]> fs
                         | file_write path content => <[path := content]> fs
                         | _ => fs
                         end) t files.

(** The lines a run handed to [console.log], in order. *)
Definition logged (t : list event) : list message :=
  flat_map (fun e => match e with console_log m => [m] | _ => [] end) t.


(** ** Envelopes, in the words of the specification *)

(** An envelope reports success when its [success] field is there and true. *)
Definition succeeds (d : gmap string pyval) : bool :=
  match d !! "success" with
  | Some s => py_bool s
  | None => false
  end.

(** A remote call has failed when the response is empty, or is an envelope
    whose [success] is false or absent. *)
Definition response_failed (v : pyval) : bool :=
  match v with
  | PDict d => negb (succeeds d)
  | _ => negb (py_bool v)
  end.

(** The dual-shape rule of the specification: an integer [error] with a
    sibling [reason] gives the reason, an [error] object with an
    [errorMessage] gives that field, anything else gives ["Unknown"]. *)
Definition dual_shape_message (d : gmap string pyval) : pyval :=
  match d !! "error" with
  | Some (PInt _) =>
      match d !! "reason" with
      | Some reason => reason
      | None => PStr "Unknown"
      end
  | Some (PDict error) =>
      match error !! "errorMessage" with
      | Some errorMessage => errorMessage
      | None => PStr "Unknown"
      end
  | _ => PStr "Unknown"
  end.

(** The address a worker obtains from its create phase, if that phase goes
    through: a success envelope whose [result] carries [hme]. *)
Definition created (self : HideMyEmail) : option pyval :=
  match generate_email self with
  | PDict d =>
      if succeeds d then
        match d !! "result" with
        | Some (PDict res) => res !! "hme"
        | _ => None
        end
      else None
  | _ => None
  end.

(** The alias a worker provisions: created, then reserved with success. *)
Definition provisioned (self : HideMyEmail) : option pyval :=
  match created self with
  | Some email =>
      match reserve_email self email with
      | PDict d => if succeeds d then Some email else None
      | _ => None
      end
  | None => None
  end.

(** The typing of the remote interface in the specification: the create
    call answers with nothing or with an envelope whose [result], on success,
    carries the address [hme] as a string; the reserve call answers with
    nothing or with an envelope. *)
Definition conforms (self : HideMyEmail) : bool :=
  match generate_email self with
  | PNone => true
  | PDict d =>
      if succeeds d then
        match d !! "result" with
        | Some (PDict res) =>
            match res !! "hme" with
            | Some (PStr hme) =>
                match reserve_email self (PStr hme) with
                | PNone | PDict _ => true
                | _ => false
                end
            | _ => false
            end
        | _ => false
        end
      else true
  | _ => false
  end.

(** ** The console *)

(** The console renders a line. *)
Definition renders (P : platform) (m : message) : bool :=
  match console_renders P m with
  | Ret _ => true
  | Raise _ => false
  end.

(** The outcome of a call to the console followed by [r]. *)
Definition and_then {A} (o : outcome unit) (r : outcome A) : outcome A :=
  match o with
  | Ret _ => r
  | Raise e => Raise e
  end.

(** The outcome of handing [lines] to the console, one after the other,
    and then ending with [r]: the first refusal, if there is one. *)
Fixpoint after_lines {A} (P : platform) (lines : list message)
    (r : outcome A) : outcome A :=
  match lines with
  | [] => r
  | m :: lines' => and_then (console_renders P m) (after_lines P lines' r)
  end.

(** The lines a worker hands to the console, one after the other, as long
    as none is refused, when the answers it gets are typed as the interface
    says: the line of a failed create call, or the line of the address and
    then that of the reserve call, if the call is answered. *)
Definition worker_lines (self : HideMyEmail) : list message :=
  match generate_email self with
  | PDict d =>
      if succeeds d then
        match created self with
        | Some email =>
            generated_50 email
              :: match reserve_email self email with
                 | PDict r =>
                     if succeeds r then [reserved_100 email]
                     else if nonempty r then
                       [ERR_failed_to_reserve email (dual_shape_message r)]
                     else []
                 | _ => []
                 end
        | None => []
        end
      else if nonempty d then [ERR_failed_to_generate (dual_shape_message d)]
      else []
  | _ => []
  end.

(** The console renders every line of the worker. *)
Definition accepts (P : platform) (self : HideMyEmail) : bool :=
  forallb (renders P) (worker_lines self).

(** What a worker hands back: its alias, or [None]. *)
Definition handed_back (self : HideMyEmail) : pyval :=
  match provisioned self with
  | Some email => email
  | None => PNone
  end.

(** ** Aliases, in the words of the specification *)

(** A fetched record as the Lister reads it. *)
Record alias := {
  label : string;
  address : string;
  createdAt : string;
  active : bool;
}.

(** A record of the list answer that is typed as the interface says
    ([label] and [hme] strings, [createTimestamp] an integer of milliseconds
    that the platform can format, [isActive] a boolean). *)
Definition as_alias (P : platform) (email : pyval) : option alias :=
  match email with
  | PDict r =>
      match r !! "label", r !! "hme", r !! "createTimestamp", r !! "isActive" with
      | Some (PStr l), Some (PStr h), Some (PInt ms), Some (PBool a) =>
          match fromtimestamp_strftime P (inject_Z ms / 1000)%Q with
          | Ret t => Some {| label := l; address := h; createdAt := t; active := a |}
          | Raise _ => None
          end
      | _, _, _, _ => None
      end
  | _ => None
  end.

Definition status_of (a : alias) : string :=
  if active a then "Active" else "Inactive".

(** The line of the export file for an alias: [label;address;time;status]. *)
Definition export_row (a : alias) : string :=
  (label a ++ ";" ++ address a ++ ";" ++ createdAt a ++ ";" ++ status_of a)%string.

(** The row of the rendered table for an alias. *)
Definition table_row (a : alias) : list pyval :=
  [PStr (label a); PStr (address a); PStr (createdAt a); PStr (status_of a)].

(** The display filter: the active flag equals the filter, and the label
    matches when a pattern is given. *)
Definition shown (activeFilter : bool) (found : string -> bool) (a : alias) : bool :=
  Bool.eqb (active a) activeFilter && found (label a).

(** The search a label pattern stands for, when the pattern is a regular
    expression; no pattern lets every label through. *)
Definition compiled (P : platform) (search : option string)
  : option (string -> bool) :=
  match search with
  | None => Some (fun _ => true)
  | Some pattern =>
      match re_compile P pattern with
      | Ret found => Some found
      | Raise _ => None
      end
  end.

(** ** Reading traces *)

Definition is_generate_email_call (e : event) : bool :=
  match e with generate_email_call => true | _ => false end.

Definition is_reserve_email_call (e : event) : bool :=
  match e with reserve_email_call _ => true | _ => false end.

Definition create_attempts (t : list event) : nat :=
  length (List.filter is_generate_email_call t).

Definition reserve_attempts (t : list event) : nat :=
  length (List.filter is_reserve_email_call t).

(** The tasks of the waves of a run, one trace per task, in submission
    order. *)
Definition tasks_of (t : list event) : list (list event) :=
  flat_map (fun e => match e with asyncio_gather ts => ts | _ => [] end) t.

(** The tasks of a wave of [num] workers (lines 79-82). *)
Definition wave_tasks (P : platform) (remote : nat -> HideMyEmail) (num : Z)
  : list (task pyval) :=
  map (fun i => (RichHideMyEmail._generate_one P (remote i),
                 [generate_email_time (remote i);
                  reserve_email_time (remote i)]))
    (seq 0 (Z.to_nat num)).

(** The event of one wave of [c]: a task per slot of the concurrency bound,
    each with what it has done when the wave is over. *)
Definition wave_event (P : platform) (c : settings)
    (remote : nat -> HideMyEmail) : event :=
  let tasks := wave_tasks P remote (MAX_CONCURRENT_TASKS c) in
  asyncio_gather (imap (ran (first_raised 0 tasks)) tasks).

(** The answers of the service to a wave of [c] are typed as the interface
    says. *)
Definition conforming (c : settings) (remote : nat -> HideMyEmail) : Prop :=
  Forall (fun i => conforms (remote i) = true)
    (seq 0 (Z.to_nat (MAX_CONCURRENT_TASKS c))).

(** The console renders every line of the workers of a wave of [c]. *)
Definition accepted (P : platform) (c : settings)
    (remote : nat -> HideMyEmail) : Prop :=
  Forall (fun i => accepts P (remote i) = true)
    (seq 0 (Z.to_nat (MAX_CONCURRENT_TASKS c))).

(** The waves a cycle of [c] runs: the target over the bound, rounded up. *)
Definition waves_of_cycle (c : settings) : nat :=
  Z.to_nat ((COUNT_TO_GENERATE c + MAX_CONCURRENT_TASKS c - 1)
            / MAX_CONCURRENT_TASKS c).

(** The aliases the waves of a cycle provision, wave after wave. *)
Definition collected (c : settings) (remotes : list (nat -> HideMyEmail))
  : list pyval :=
  flat_map (fun remote =>
              omap (fun i => provisioned (remote i))
                (seq 0 (Z.to_nat (MAX_CONCURRENT_TASKS c)))) remotes.

(** The workers of the waves of a cycle that provision nothing. *)
Definition failures (c : settings) (remotes : list (nat -> HideMyEmail)) : nat :=
  length
    (flat_map (fun remote =>
                 List.filter (fun i => match provisioned (remote i) with
                                       | Some _ => false
                                       | None => true
                                       end)
                   (seq 0 (Z.to_nat (MAX_CONCURRENT_TASKS c)))) remotes).

(** A worker whose create phase went through and whose reserve call failed. *)
Definition reserve_failed (self : HideMyEmail) : bool :=
  match created self with
  | Some email => response_failed (reserve_email self email)
  | None => false
  end.

(** [generate] rests at a suspension point. *)
Definition suspended (s : generate_state) : bool :=
  match s with
  | at_generate _ _ | at_sleep => true
  | returned _ | raised _ => false
  end.

Definition is_completes (r : resumption) : bool :=
  match r with completes _ => true | KeyboardInterrupt _ => false end.

(** The size of the wave [generate] asks for when it is resumed in [s]. *)
Definition wave_size (P : platform) (c : settings) (s : generate_state)
    (remote : nat -> HideMyEmail) : nat :=
  length (tasks_of (fst (RichHideMyEmail.generate_resume P c s
                           (completes remote)))).

(** What a cycle of [c] does when its waves come back: the waves, the line
    that tells what was collected, and the sleep. *)
Definition cycle_events (P : platform) (c : settings)
    (remotes : list (nat -> HideMyEmail)) : list event :=
  map (wave_event P c) remotes
    ++ [console_log
          (generated_sleeping (length (collected c remotes))
             (py_round_div (SLEEP_INTERVAL c) 60));
        asyncio_sleep (SLEEP_INTERVAL c)].


(** The create and the reserve attempts of a trace. *)
Definition attempts (t : list event) : nat * nat :=
  (create_attempts t, reserve_attempts t).

(** What the Lister does before it looks at the answer. *)
Definition list_prologue : list event :=
  [console_rule; console_status "Getting iCloud emails..."; list_email_call].

(** Lines 141-144. *)
Definition list_columns : list event :=
  [table_add_column "Label"; table_add_column "Hide my email";
   table_add_column "Creation Time"; table_add_column "Status"].

(** ** The claims that fail, as they are stated *)

(** C1, as the specification states it for the cycle: a cycle in which
    every wave has workers that fail collects fewer aliases than the
    target. *)
Definition partial_failures_collect_less (P : platform) (c : settings) : Prop :=
  forall remotes,
    length remotes = waves_of_cycle c ->
    Forall (conforming c) remotes ->
    Forall (accepted P c) remotes ->
    Forall (fun remote => (0 < failures c [remote])%nat) remotes ->
    Z.of_nat (length (collected c remotes)) < COUNT_TO_GENERATE c.

(** C2, as the specification states it for the batch: with answers typed
    as the interface says, the scheduler returns the aliases of the workers
    whose reserve phase succeeded, in submission order. *)
Definition batch_is_the_reserved (P : platform) (remote : nat -> HideMyEmail)
    (n : Z) : Prop :=
  Forall (fun i => conforms (remote i) = true) (seq 0 (Z.to_nat n)) ->
  result (RichHideMyEmail._generate P remote n)
  = Ret (omap (fun i => provisioned (remote i)) (seq 0 (Z.to_nat n))).

(** C4, as the specification states it: a worker whose create phase went
    through and whose reserve phase fails returns nothing. *)
Definition reserve_failure_returns_None (P : platform) (self : HideMyEmail)
  : Prop :=
  forall email,
    created self = Some email ->
    response_failed (reserve_email self email) = true ->
    result (RichHideMyEmail._generate_one P self) = Ret PNone.

(** C5, as the specification states it: two runs of the Lister over the
    same answer leave the same files, whatever their filters are. *)
Definition export_is_independent_of_filter (P : platform) (self : HideMyEmail)
  : Prop :=
  forall active1 search1 active2 search2 files,
    files_after (trace (RichHideMyEmail.list P self active1 search1)) files
    = files_after (trace (RichHideMyEmail.list P self active2 search2)) files.


(** C7, as the specification states it: a wave asks for the smaller of the
    concurrency bound and the countdown. *)
Definition wave_is_min_of_bound_and_countdown (P : platform) (c : settings)
  : Prop :=
  forall rs count emails remote,
    snd (RichHideMyEmail.generate P c rs) = at_generate count emails ->
    Z.of_nat (wave_size P c (at_generate count emails) remote)
    = Z.min (MAX_CONCURRENT_TASKS c) count.

(** C8, as the specification states it for the log: a list fetch that
    fails has its error message logged. *)
Definition failed_fetch_is_logged (P : platform) (self : HideMyEmail)
    (activeFilter : bool) (search : option string) : Prop :=
  response_failed (list_email self) = true ->
  exists err_msg,
    In (ERR_failed_to_generate err_msg)
      (logged (trace (RichHideMyEmail.list P self activeFilter search))).

(** ** Sample answers of the service *)

Definition envelope (fields : list (string * pyval)) : pyval :=
  PDict (list_to_map fields).

Definition created_envelope (hme : string) : pyval :=
  envelope [("success", PBool true);
            ("result", envelope [("hme", PStr hme)])].

Definition reserved_envelope : pyval :=
  envelope [("success", PBool true)].

Definition refused_envelope : pyval :=
  envelope [("success", PBool false); ("error", PInt 1);
            ("reason", PStr "limit reached")].

(** A service that answers nothing. *)
Definition silent : HideMyEmail :=
  {| generate_email := PNone;
     reserve_email := fun _ => PNone;
     list_email := PNone;
     generate_email_time := 1;
     reserve_email_time := 1 |}.

(** A service that creates and reserves. *)
Definition obliging : HideMyEmail :=
  {| generate_email := created_envelope "a@icloud.com";
     reserve_email := fun _ => reserved_envelope;
     list_email := PNone;
     generate_email_time := 1;
     reserve_email_time := 1 |}.

(** A service that creates and then refuses to reserve. *)
Definition reluctant : HideMyEmail :=
  {| generate_email := created_envelope "b@icloud.com";
     reserve_email := fun _ => refused_envelope;
     list_email := PNone;
     generate_email_time := 1;
     reserve_email_time := 1 |}.

(** A wave whose first two reserve calls are refused. *)
Definition two_refused (i : nat) : HideMyEmail :=
  if (i <? 2)%nat then reluctant else obliging.

(** A wave whose first reserve call is refused. *)
Definition one_refused (i : nat) : HideMyEmail :=
  if (i <? 1)%nat then reluctant else obliging.

(** A success envelope without [result]. *)
Definition hollow : HideMyEmail :=
  {| generate_email := envelope [("success", PBool true)];
     reserve_email := fun _ => reserved_envelope;
     list_email := envelope [("success", PBool true)];
     generate_email_time := 1;
     reserve_email_time := 1 |}.

(** A refusal whose message has a closing tag that closes nothing. *)
Definition garbled_envelope : pyval :=
  envelope [("success", PBool false);
            ("error", envelope [("errorMessage", PStr "quota [/] exceeded")])].

(** A service that creates and then refuses to reserve, with that message. *)
Definition garbling : HideMyEmail :=
  {| generate_email := created_envelope "c@icloud.com";
     reserve_email := fun _ => garbled_envelope;
     list_email := garbled_envelope;
     generate_email_time := 1;
     reserve_email_time := 1 |}.

(** A wave whose first two reserve calls are refused with that message. *)
Definition two_garbled (i : nat) : HideMyEmail :=
  if (i <? 2)%nat then garbling else obliging.

Definition newline : string := String (Ascii.ascii_of_nat 10) EmptyString.

(** A text with a closing tag: rich refuses it when no tag is open before
    the closing one, as in a text that has no other tag. *)
Definition markup (s : string) : outcome unit :=
  if is_substring "[/" s then Raise MarkupError else Ret tt.

Definition markup_of (v : pyval) : outcome unit :=
  match v with
  | PStr s => markup s
  | _ => Ret tt
  end.

(** A platform whose patterns are literal texts, whose clock shows the
    thousands of seconds, whose console refuses the texts of the service
    that have a closing tag, and whose files take every text. *)
Definition sample_platform : platform :=
  {| re_compile := fun pattern => Ret (is_substring pattern);
     fromtimestamp_strftime :=
       fun t => Ret (if Qle_bool 1000 t then "2001-09-09 01:46"
                     else "1970-01-01 00:00");
     str_of := fun _ => "?";
     os_linesep := newline;
     console_renders :=
       fun m => match m with
                | ERR_failed_to_generate err_msg => markup_of err_msg
                | generated_50 email => markup_of email
                | ERR_failed_to_reserve email err_msg =>
                    match markup_of email with
                    | Ret _ => markup_of err_msg
                    | Raise e => Raise e
                    end
                | reserved_100 email => markup_of email
                | _ => Ret tt
                end;
     cell_renders := markup;
     os_open_w := fun _ => Ret tt;
     os_write := fun _ => Ret tt |}.

(** The same platform with a [re] that refuses every pattern. *)
Definition strict : platform :=
  {| re_compile := fun _ => Raise (OtherError "re.error");
     fromtimestamp_strftime := fromtimestamp_strftime sample_platform;
     str_of := str_of sample_platform;
     os_linesep := newline;
     console_renders := console_renders sample_platform;
     cell_renders := cell_renders sample_platform;
     os_open_w := os_open_w sample_platform;
     os_write := os_write sample_platform |}.



(** The same platform with a directory that cannot be written to. *)
Definition read_only : platform :=
  {| re_compile := re_compile sample_platform;
     fromtimestamp_strftime := fromtimestamp_strftime sample_platform;
     str_of := str_of sample_platform;
     os_linesep := newline;
     console_renders := console_renders sample_platform;
     cell_renders := cell_renders sample_platform;
     os_open_w := fun _ => Raise (OtherError "PermissionError");
     os_write := os_write sample_platform |}.

Definition record (l h : string) (ms : Z) (a : bool) : pyval :=
  envelope [("label", PStr l); ("hme", PStr h);
            ("createTimestamp", PInt ms); ("isActive", PBool a)].

Definition three_records : list pyval :=
  [record "shop" "s@icloud.com" 1000000000 true;
   record "bank" "b@icloud.com" 0 false;
   record "news" "n@icloud.com" 1000000000 false].

(** A service whose list call answers with [records]. *)
Definition lists (records : list pyval) : HideMyEmail :=
  {| generate_email := PNone;
     reserve_email := fun _ => PNone;
     list_email :=
       envelope [("success", PBool true);
                 ("result", envelope [("hmeEmails", PList records)])];
     generate_email_time := 1;
     reserve_email_time := 1 |}.

(** A service whose list call answers with three records. *)
Definition listing : HideMyEmail := lists three_records.

(** A service whose list call answers with one record, the label of which
    has a closing tag that closes nothing. *)
Definition tagged : HideMyEmail :=
  lists [record "shop [/sale]" "s@icloud.com" 1000000000 true].

(** A service whose list call is refused. *)
Definition refusing : HideMyEmail :=
  {| generate_email := PNone;
     reserve_email := fun _ => PNone;
     list_email := refused_envelope;
     generate_email_time := 1;
     reserve_email_time := 1 |}.

(** Constants under which the countdown ends below the bound. *)
Definition seven_by_five : settings :=
  {| MAX_CONCURRENT_TASKS := 5;
     SLEEP_INTERVAL := 30 * 60;
     COUNT_TO_GENERATE := 7 |}.

(** ** More readings of traces *)




(** A number or a boolean: a value with no [in] and no subscript. *)
Definition is_scalar (v : pyval) : bool :=
  match v with
  | PBool _ | PInt _ | PFloat _ => true
  | _ => false
  end.

(** A line of the cookie file that is commented out. *)
Definition commented (line : string) : Prop :=
  String.prefix "//" line = true.

(** ** Tactics *)

(** Runs the code of a method as far as the known fields of the envelopes
    decide it, splitting on the fields that are still open. *)
Ltac known_fields :=
  repeat match goal with
         | |- context [∅ !! _] => rewrite lookup_empty
         | H : ?d !! ?k = _ |- context [?d !! ?k] => rewrite H
         | H : console_renders ?P ?m = _ |- context [console_renders ?P ?m] =>
             rewrite H
         | H : py_bool ?v = _ |- context [py_bool ?v] => rewrite H
         | H : nonempty ?d = _ |- context [nonempty ?d] => rewrite H
         end.

Ltac run_method :=
  repeat (cbn; known_fields;
          match goal with
          | |- context [match ?d !! ?k with _ => _ end] =>
              destruct (d !! k) as [[]|] eqn:?
          | |- context [if py_bool ?v then _ else _] =>
              destruct (py_bool v) eqn:?
          | |- _ => idtac
          end);
  cbn; try reflexivity.

(** Splits on whatever the code of a worker inspects next. *)
Ltac inspect :=
  repeat first
    [ progress (cbn; unfold py_in, py_getitem, type_is_int, type_is_dict, log;
                cbn; known_fields)
    | match goal with
      | |- context [console_renders ?P ?m] =>
          destruct (console_renders P m) eqn:?
      | |- context [match ?d !! ?k with _ => _ end] => destruct (d !! k) eqn:?
      | |- context [if py_bool ?v then _ else _] => destruct (py_bool v) eqn:?
      | |- context [nonempty ?d] => destruct (nonempty d) eqn:?
      | |- context [match ?x with _ => _ end] => is_var x; destruct x
      | |- context [if ?c then _ else _] => destruct c eqn:?
      end ].

Ltac machine :=
  cbn -[RichHideMyEmail._generate RichHideMyEmail.while_count
        RichHideMyEmail.while_True].

(** * Proofs *)

Lemma py_bool_dict_false (d : gmap string pyval) :
  py_bool (PDict d) = false -> d = ∅.
Proof.
  unfold py_bool, nonempty. intros H. apply map_size_empty_iff.
  destruct (size d); [reflexivity | discriminate].
Qed.

Lemma py_bool_dict_lookup (d : gmap string pyval) (k : string) (v : pyval) :
  d !! k = Some v -> py_bool (PDict d) = true.
Proof.
  intros H. destruct (py_bool (PDict d)) eqn:E; [reflexivity|].
  apply py_bool_dict_false in E. subst d. rewrite lookup_empty in H.
  discriminate.
Qed.

Lemma succeeds_truthy (d : gmap string pyval) :
  succeeds d = true -> py_bool (PDict d) = true.
Proof.
  unfold succeeds. destruct (d !! "success") eqn:E; [|discriminate].
  intros _. eapply py_bool_dict_lookup; eassumption.
Qed.

Lemma renders_Ret (P : platform) (m : message) :
  renders P m = true -> console_renders P m = Ret tt.
Proof.
  unfold renders. destruct (console_renders P m) as [[]|]; [reflexivity|].
  discriminate.
Qed.

(** *** The worker *)

Lemma generate_one_empty (P : platform) (self : HideMyEmail) :
  py_bool (generate_email self) = false ->
  RichHideMyEmail._generate_one P self = ([generate_email_call], Ret PNone).
Proof.
  intros H. unfold RichHideMyEmail._generate_one, await_generate_email.
  cbn. rewrite H. reflexivity.
Qed.

Lemma generate_one_create_failed (P : platform) (self : HideMyEmail)
    (d : gmap string pyval) :
  generate_email self = PDict d ->
  py_bool (PDict d) = true ->
  succeeds d = false ->
  RichHideMyEmail._generate_one P self =
    ([generate_email_call;
      console_log (ERR_failed_to_generate (dual_shape_message d))],
     and_then (console_renders P
                 (ERR_failed_to_generate (dual_shape_message d)))
       (Ret PNone)).
Proof.
  intros Hg Ht Hs.
  unfold RichHideMyEmail._generate_one, await_generate_email.
  rewrite Hg. unfold bind at 1. cbv beta iota. rewrite Ht.
  unfold succeeds in Hs. unfold dual_shape_message, py_in, py_getitem, log.
  destruct (d !! "success") as [s|] eqn:Es; run_method;
    match goal with
    | |- context [console_renders ?P ?m] => destruct (console_renders P m)
    end; reflexivity.
Qed.

(** The create phase of a worker that obtains [email]: what the worker does
    up to the reserve call. *)
Lemma created_inv (self : HideMyEmail) (email : pyval) :
  created self = Some email ->
  exists d res,
    generate_email self = PDict d /\ succeeds d = true
    /\ d !! "result" = Some (PDict res) /\ res !! "hme" = Some email.
Proof.
  unfold created. destruct (generate_email self) as [| | | | | |d]; try discriminate.
  destruct (succeeds d) eqn:Hs; [|discriminate].
  destruct (d !! "result") as [[| | | | | |res]|] eqn:Hr; try discriminate.
  intros Hh. exists d, res. auto.
Qed.

(** Runs a worker whose create phase obtains an address up to the line that
    shows it. *)
Ltac create_phase Hc :=
  let d := fresh "d" in
  let res := fresh "res" in
  let Hg := fresh "Hg" in
  let Hs := fresh "Hs" in
  let Hres := fresh "Hres" in
  let Hh := fresh "Hh" in
  let Ht := fresh "Ht" in
  let s := fresh "s" in
  let Es := fresh "Es" in
  destruct (created_inv _ _ Hc) as (d & res & Hg & Hs & Hres & Hh);
  pose proof (succeeds_truthy _ Hs) as Ht;
  unfold RichHideMyEmail._generate_one, await_generate_email,
    await_reserve_email;
  rewrite Hg; unfold bind at 1; cbv beta iota; rewrite Ht;
  unfold succeeds in Hs; unfold py_in at 1, py_getitem at 1;
  destruct (d !! "success") as [s|] eqn:Es; [|discriminate Hs];
  cbn; rewrite Hs; cbn; rewrite Hres; cbn; rewrite Hh; cbn.

Lemma generate_one_unshown (P : platform) (self : HideMyEmail)
    (email : pyval) (e : exn) :
  created self = Some email ->
  console_renders P (generated_50 email) = Raise e ->
  RichHideMyEmail._generate_one P self =
    ([generate_email_call; console_log (generated_50 email)], Raise e).
Proof.
  intros Hc Hlog. create_phase Hc. rewrite Hlog. reflexivity.
Qed.

Lemma generate_one_reserve_empty (P : platform) (self : HideMyEmail)
    (email : pyval) :
  created self = Some email ->
  console_renders P (generated_50 email) = Ret tt ->
  py_bool (reserve_email self email) = false ->
  RichHideMyEmail._generate_one P self =
    ([generate_email_call; console_log (generated_50 email);
      reserve_email_call email], Ret PNone).
Proof.
  intros Hc Hlog Hr. create_phase Hc. rewrite Hlog. cbn.
  rewrite Hr. reflexivity.
Qed.

Lemma generate_one_reserve_failed (P : platform) (self : HideMyEmail)
    (email : pyval) (d' : gmap string pyval) :
  created self = Some email ->
  console_renders P (generated_50 email) = Ret tt ->
  reserve_email self email = PDict d' ->
  py_bool (PDict d') = true ->
  succeeds d' = false ->
  RichHideMyEmail._generate_one P self =
    ([generate_email_call; console_log (generated_50 email);
      reserve_email_call email;
      console_log (ERR_failed_to_reserve email (dual_shape_message d'))],
     and_then (console_renders P
                 (ERR_failed_to_reserve email (dual_shape_message d')))
       (Ret PNone)).
Proof.
  intros Hc Hlog Hr Ht' Hs'. create_phase Hc. rewrite Hlog. cbn.
  rewrite Hr, Ht'. unfold succeeds in Hs'.
  unfold dual_shape_message, py_in, py_getitem, log.
  destruct (d' !! "success") as [s'|] eqn:Es'; run_method;
    match goal with
    | |- context [console_renders ?P ?m] => destruct (console_renders P m)
    end; reflexivity.
Qed.

Lemma generate_one_reserved (P : platform) (self : HideMyEmail)
    (email : pyval) (d' : gmap string pyval) :
  created self = Some email ->
  console_renders P (generated_50 email) = Ret tt ->
  reserve_email self email = PDict d' ->
  succeeds d' = true ->
  RichHideMyEmail._generate_one P self =
    ([generate_email_call; console_log (generated_50 email);
      reserve_email_call email; console_log (reserved_100 email)],
     and_then (console_renders P (reserved_100 email)) (Ret email)).
Proof.
  intros Hc Hlog Hr Hs'. pose proof (succeeds_truthy _ Hs') as Ht'.
  create_phase Hc. rewrite Hlog. cbn.
  rewrite Hr, Ht'. unfold succeeds in Hs'. unfold py_in, py_getitem.
  destruct (d' !! "success") as [s'|] eqn:Es'; [|discriminate].
  cbn. rewrite Hs'. cbn.
  destruct (console_renders P (reserved_100 email)); reflexivity.
Qed.

Lemma generate_one_no_result (P : platform) (self : HideMyEmail)
    (d : gmap string pyval) :
  generate_email self = PDict d ->
  succeeds d = true ->
  d !! "result" = None ->
  RichHideMyEmail._generate_one P self =
    ([generate_email_call], Raise (KeyError "result")).
Proof.
  intros Hg Hs Hres. pose proof (succeeds_truthy _ Hs) as Ht.
  unfold RichHideMyEmail._generate_one, await_generate_email.
  rewrite Hg. unfold bind at 1. cbv beta iota. rewrite Ht.
  unfold succeeds in Hs. unfold py_in at 1, py_getitem at 1.
  destruct (d !! "success") as [s|] eqn:Es; [|discriminate].
  cbn. rewrite Hs. cbn. rewrite Hres. reflexivity.
Qed.

Lemma generate_one_no_hme (P : platform) (self : HideMyEmail)
    (d res : gmap string pyval) :
  generate_email self = PDict d ->
  succeeds d = true ->
  d !! "result" = Some (PDict res) ->
  res !! "hme" = None ->
  RichHideMyEmail._generate_one P self =
    ([generate_email_call], Raise (KeyError "hme")).
Proof.
  intros Hg Hs Hres Hh. pose proof (succeeds_truthy _ Hs) as Ht.
  unfold RichHideMyEmail._generate_one, await_generate_email.
  rewrite Hg. unfold bind at 1. cbv beta iota. rewrite Ht.
  unfold succeeds in Hs. unfold py_in at 1, py_getitem at 1.
  destruct (d !! "success") as [s|] eqn:Es; [|discriminate].
  cbn. rewrite Hs. cbn. rewrite Hres. cbn. rewrite Hh. reflexivity.
Qed.

Lemma generate_one_attempts (P : platform) (self : HideMyEmail) :
  attempts (trace (RichHideMyEmail._generate_one P self))
  = (1%nat,
     match created self with
     | Some email => if renders P (generated_50 email) then 1%nat else 0%nat
     | None => 0%nat
     end).
Proof.
  destruct (py_bool (generate_email self)) eqn:Ht.
  2:{ rewrite generate_one_empty by assumption. unfold created.
      destruct (generate_email self) as [| | | | | |d]; try reflexivity.
      apply py_bool_dict_false in Ht. subst d. reflexivity. }
  destruct (created self) as [email|] eqn:Hc.
  - unfold renders.
    destruct (console_renders P (generated_50 email)) as [[]|e] eqn:Hlog.
    2:{ rewrite (generate_one_unshown _ _ _ _ Hc Hlog). reflexivity. }
    create_phase Hc. rewrite Hlog. cbn.
    generalize (reserve_email self email). intros r.
    destruct r; inspect; reflexivity.
  - unfold created in Hc.
    unfold RichHideMyEmail._generate_one, await_generate_email, await_reserve_email.
    destruct (generate_email self) as [| | | | | |d]; try discriminate Ht.
    1-5: inspect; reflexivity.
    unfold bind at 1. cbv beta iota. rewrite Ht. unfold succeeds in Hc.
    unfold bind at 1. unfold py_in at 1. cbv beta iota.
    destruct (d !! "success") as [s|] eqn:Es.
    + cbn. destruct (py_bool s) eqn:Hs.
      * destruct (d !! "result") as [[| | | | | |res]|] eqn:Hr;
          inspect; reflexivity.
      * inspect; reflexivity.
    + inspect; reflexivity.
Qed.

Lemma worker_lines_created (self : HideMyEmail) (email : pyval) :
  created self = Some email ->
  worker_lines self
  = generated_50 email
      :: match reserve_email self email with
         | PDict r =>
             if succeeds r then [reserved_100 email]
             else if nonempty r then
               [ERR_failed_to_reserve email (dual_shape_message r)]
             else []
         | _ => []
         end.
Proof.
  intros Hc. destruct (created_inv _ _ Hc) as (d & res & Hg & Hs & _ & _).
  unfold worker_lines. rewrite Hg, Hs, Hc. reflexivity.
Qed.

(** Under the typing of the interface, and with a console that renders its
    lines, a worker raises nothing: it hands back the alias it provisioned,
    which is a string, or [None]. *)
Lemma generate_one_conforms (P : platform) (self : HideMyEmail) :
  conforms self = true ->
  (accepts P self = true ->
   result (RichHideMyEmail._generate_one P self) = Ret (handed_back self))
  /\ (forall email, provisioned self = Some email -> is_not_None email = true).
Proof.
  unfold conforms, handed_back, provisioned, accepts. intros H.
  destruct (generate_email self) as [| | | | | |d] eqn:Hg; try discriminate.
  { rewrite generate_one_empty by (rewrite Hg; reflexivity).
    unfold created. rewrite Hg. split; [reflexivity | discriminate]. }
  destruct (succeeds d) eqn:Hs.
  2:{ assert (created self = None) as ->
        by (unfold created; rewrite Hg, Hs; reflexivity).
      split; [|discriminate].
      unfold worker_lines. rewrite Hg, Hs.
      destruct (py_bool (PDict d)) eqn:Ht.
      - erewrite generate_one_create_failed by eassumption.
        cbn in Ht. rewrite Ht. cbn [forallb]. rewrite andb_true_r. intros Hr.
        rewrite (renders_Ret _ _ Hr). reflexivity.
      - rewrite generate_one_empty by (rewrite Hg; assumption). reflexivity. }
  destruct (d !! "result") as [[| | | | | |res]|] eqn:Hr; try discriminate.
  destruct (res !! "hme") as [[| | | |hme| |]|] eqn:Hh; try discriminate.
  assert (created self = Some (PStr hme)) as Hc
    by (unfold created; rewrite Hg, Hs, Hr; assumption).
  rewrite Hc, (worker_lines_created _ _ Hc).
  destruct (reserve_email self (PStr hme)) as [| | | | | |d'] eqn:Hres;
    try discriminate.
  { split; [|discriminate]. cbn [forallb]. rewrite andb_true_r. intros Hlog.
    rewrite (generate_one_reserve_empty _ _ _ Hc (renders_Ret _ _ Hlog))
      by (rewrite Hres; reflexivity).
    reflexivity. }
  destruct (succeeds d') eqn:Hs'.
  - split; [|intros email [= <-]; reflexivity].
    cbn [forallb]. rewrite andb_true_r. intros [Hlog Hlog']%andb_true_iff.
    rewrite (generate_one_reserved _ _ _ _ Hc (renders_Ret _ _ Hlog) Hres Hs').
    rewrite (renders_Ret _ _ Hlog'). reflexivity.
  - split; [|discriminate].
    destruct (py_bool (PDict d')) eqn:Ht'.
    + cbn in Ht'. rewrite Ht'. cbn [forallb]. rewrite andb_true_r.
      intros [Hlog Hlog']%andb_true_iff.
      rewrite (generate_one_reserve_failed _ _ _ _ Hc (renders_Ret _ _ Hlog)
                 Hres Ht' Hs').
      rewrite (renders_Ret _ _ Hlog'). reflexivity.
    + cbn in Ht'. rewrite Ht'. cbn [forallb]. rewrite andb_true_r. intros Hlog.
      rewrite (generate_one_reserve_empty _ _ _ Hc (renders_Ret _ _ Hlog))
        by (rewrite Hres; assumption).
      reflexivity.
Qed.

(** *** The wave *)

Lemma imap_ran_None {A} (tasks : list (task A)) :
  imap (ran None) tasks = map (fun x => trace (fst x)) tasks.
Proof.
  change (imap (fun _ x => trace (fst x)) tasks
          = map (fun x : task A => trace (fst x)) tasks).
  apply imap_const.
Qed.

Lemma Forall_imap {A B} (Q : B -> Prop) (l : list A) :
  forall f : nat -> A -> B,
    (forall j x, In x l -> Q (f j x)) -> Forall Q (imap f l).
Proof.
  induction l as [|a l IH]; intros f H; cbn; constructor.
  - apply H. left. reflexivity.
  - apply IH. intros j x Hx. apply H. right. exact Hx.
Qed.

Lemma Forall2_imap_map {A B C} (R : A -> C -> Prop) (g : A -> B)
    (l : list A) :
  forall f : nat -> B -> C,
    (forall j a, R a (f j (g a))) -> Forall2 R l (imap f (map g l)).
Proof.
  induction l as [|a l IH]; intros f H; cbn; constructor.
  - apply H.
  - apply IH. intros j a'. apply H.
Qed.

Lemma gather_results_inv {A} (rs : list (outcome A)) (l : list A) :
  gather_results rs = Ret l -> rs = map Ret l.
Proof.
  revert l. induction rs as [|[a|e] rs IH]; intros l; cbn.
  - intros [= <-]. reflexivity.
  - destruct (gather_results rs) as [l'|]; [|discriminate].
    intros [= <-]. cbn. f_equal. apply IH. reflexivity.
  - discriminate.
Qed.

Lemma first_raised_None {A} (tasks : list (task A)) :
  forall j,
    first_raised j tasks = None
    <-> exists l, gather_results (map (fun x => result (fst x)) tasks) = Ret l.
Proof.
  induction tasks as [|x tasks IH]; intros j; cbn [first_raised map gather_results].
  - split; [intros _; exists []; reflexivity | reflexivity].
  - destruct (result (fst x)) as [a|e].
    + rewrite (IH (S j)). split.
      * intros [l ->]. eexists. reflexivity.
      * destruct (gather_results _) as [l|]; [intros _; eexists; reflexivity|].
        intros [l' [=]].
    + split.
      * destruct (first_raised (S j) tasks) as [[[T i] e']|]; [|discriminate].
        destruct (T <? ends_at x)%nat; discriminate.
      * intros [l [=]].
Qed.

Lemma gather_returns {A} (tasks : list (task A)) (l : list A) :
  gather_results (map (fun x => result (fst x)) tasks) = Ret l ->
  gather tasks = ([asyncio_gather (map (fun x => trace (fst x)) tasks)], Ret l).
Proof.
  intros H. unfold gather.
  assert (first_raised 0 tasks = None) as ->
    by (apply first_raised_None; exists l; exact H).
  cbv zeta. rewrite imap_ran_None, H. reflexivity.
Qed.

Lemma gather_raises {A} (tasks : list (task A)) (x : task A) (e : exn) :
  In x tasks -> result (fst x) = Raise e ->
  exists e', result (gather tasks) = Raise e'.
Proof.
  intros Hx He. unfold gather, result at 1. cbn [snd].
  destruct (first_raised 0 tasks) as [[[T i] e']|] eqn:Hf.
  - exists e'. reflexivity.
  - apply first_raised_None in Hf as [l Hl].
    apply gather_results_inv in Hl.
    assert (In (result (fst x)) (map (fun x => result (fst x)) tasks)) as Hin
      by (apply List.in_map_iff; exists x; auto).
    rewrite Hl, He in Hin. apply List.in_map_iff in Hin as (a & [=] & _).
Qed.

Lemma upto_count_le (f : event -> bool) (t : list event) :
  forall n, (length (List.filter f (upto n t)) <= length (List.filter f t))%nat.
Proof.
  induction t as [|e t IH]; intros [|n]; cbn; try lia.
  pose proof (IH (if is_call e then n else S n)) as H.
  destruct (f e); cbn; lia.
Qed.

Lemma generate_one_starts (P : platform) (self : HideMyEmail) :
  exists rest,
    trace (RichHideMyEmail._generate_one P self) = generate_email_call :: rest.
Proof.
  unfold RichHideMyEmail._generate_one, await_generate_email.
  unfold bind at 1. cbv beta iota.
  match goal with |- context [let (_, _) := ?k in _] => destruct k end.
  eexists. reflexivity.
Qed.

(** Whatever a task of a wave has done when the wave is over, it has made
    its create call, and no more reserve calls than if it had run to its
    end. *)
Lemma ran_attempts (P : platform) (self : HideMyEmail)
    (stop : option (nat * nat * exn)) (j : nat) (times : list nat) :
  let t := ran stop j (RichHideMyEmail._generate_one P self, times) in
  create_attempts t = 1%nat
  /\ (reserve_attempts t
      <= reserve_attempts (trace (RichHideMyEmail._generate_one P self)))%nat.
Proof.
  pose proof (generate_one_attempts P self) as Ha. unfold attempts in Ha.
  injection Ha as Hc Hr.
  destruct stop as [[[T i] e]|]; cbn [ran fst snd]; [|split; [assumption|lia]].
  destruct (generate_one_starts P self) as [rest Hrest].
  rewrite Hrest in *. cbn [upto is_call].
  unfold create_attempts, reserve_attempts in *. cbn in Hc |- *.
  match goal with
  | |- context [upto ?n rest] =>
      pose proof (upto_count_le is_generate_email_call rest n);
      pose proof (upto_count_le is_reserve_email_call rest n)
  end.
  split; lia.
Qed.

Lemma generate_of_gather (P : platform) (remote : nat -> HideMyEmail)
    (num : Z) :
  RichHideMyEmail._generate P remote num
  = ([asyncio_gather
        (imap (ran (first_raised 0 (wave_tasks P remote num)))
           (wave_tasks P remote num))],
     match result (gather (wave_tasks P remote num)) with
     | Ret results => Ret (List.filter is_not_None results)
     | Raise e => Raise e
     end).
Proof.
  unfold RichHideMyEmail._generate. fold (wave_tasks P remote num).
  unfold gather, bind, result, ret. cbn [snd].
  destruct (first_raised 0 (wave_tasks P remote num)) as [[[T i] e]|];
    [reflexivity|].
  destruct (gather_results _); reflexivity.
Qed.

Lemma generate_trace (P : platform) (c : settings)
    (remote : nat -> HideMyEmail) :
  trace (RichHideMyEmail._generate P remote (MAX_CONCURRENT_TASKS c))
  = [wave_event P c remote].
Proof. rewrite generate_of_gather. reflexivity. Qed.

Lemma tasks_of_generate (P : platform) (remote : nat -> HideMyEmail)
    (num : Z) :
  tasks_of (trace (RichHideMyEmail._generate P remote num))
  = imap (ran (first_raised 0 (wave_tasks P remote num)))
      (wave_tasks P remote num).
Proof. rewrite generate_of_gather. cbn. apply app_nil_r. Qed.

Lemma wave_results (P : platform) (remote : nat -> HideMyEmail) (num : Z) :
  map (fun x : task pyval => result (fst x)) (wave_tasks P remote num)
  = map (fun i => result (RichHideMyEmail._generate_one P (remote i)))
      (seq 0 (Z.to_nat num)).
Proof. unfold wave_tasks. rewrite List.map_map. reflexivity. Qed.

Lemma wave_traces (P : platform) (remote : nat -> HideMyEmail) (num : Z) :
  map (fun x : task pyval => trace (fst x)) (wave_tasks P remote num)
  = map (fun i => trace (RichHideMyEmail._generate_one P (remote i)))
      (seq 0 (Z.to_nat num)).
Proof. unfold wave_tasks. rewrite List.map_map. reflexivity. Qed.

(** A wave all of whose tasks return. *)
Lemma generate_returns (P : platform) (remote : nat -> HideMyEmail) (num : Z)
    (results : list pyval) :
  gather_results
    (map (fun i => result (RichHideMyEmail._generate_one P (remote i)))
       (seq 0 (Z.to_nat num)))
  = Ret results ->
  RichHideMyEmail._generate P remote num
  = ([asyncio_gather
        (map (fun i => trace (RichHideMyEmail._generate_one P (remote i)))
           (seq 0 (Z.to_nat num)))],
     Ret (List.filter is_not_None results)).
Proof.
  intros H. rewrite <- wave_results in H.
  rewrite generate_of_gather, (gather_returns _ _ H).
  assert (first_raised 0 (wave_tasks P remote num) = None) as ->
    by (apply first_raised_None; exists results; exact H).
  rewrite imap_ran_None, wave_traces. reflexivity.
Qed.

Lemma gather_results_conform (P : platform) (remote : nat -> HideMyEmail)
    (l : list nat) :
  Forall (fun i => conforms (remote i) = true) l ->
  Forall (fun i => accepts P (remote i) = true) l ->
  gather_results
    (map (fun i => result (RichHideMyEmail._generate_one P (remote i))) l)
  = Ret (map (fun i => handed_back (remote i)) l).
Proof.
  induction 1 as [|i l Hi _ IH]; intros Ha; [reflexivity|].
  apply Forall_cons in Ha as [Hai Ha].
  cbn [map gather_results].
  destruct (generate_one_conforms P _ Hi) as [Hr _].
  rewrite (Hr Hai), IH by assumption. reflexivity.
Qed.

Lemma filter_handed_back (remote : nat -> HideMyEmail) (l : list nat) :
  Forall (fun i => conforms (remote i) = true) l ->
  List.filter is_not_None (map (fun i => handed_back (remote i)) l)
  = omap (fun i => provisioned (remote i)) l.
Proof.
  induction 1 as [|i l Hi _ IH]; [reflexivity|].
  cbn [map List.filter omap list_omap].
  destruct (generate_one_conforms sample_platform _ Hi) as [_ Hnn].
  destruct (provisioned (remote i)) as [email|] eqn:Hp.
  - assert (handed_back (remote i) = email) as ->
      by (unfold handed_back; rewrite Hp; reflexivity).
    rewrite (Hnn _ eq_refl), IH. reflexivity.
  - assert (handed_back (remote i) = PNone) as ->
      by (unfold handed_back; rewrite Hp; reflexivity).
    cbn. exact IH.
Qed.

Lemma generate_conforms (P : platform) (remote : nat -> HideMyEmail)
    (num : Z) :
  Forall (fun i => conforms (remote i) = true) (seq 0 (Z.to_nat num)) ->
  Forall (fun i => accepts P (remote i) = true) (seq 0 (Z.to_nat num)) ->
  RichHideMyEmail._generate P remote num
  = ([asyncio_gather
        (map (fun i => trace (RichHideMyEmail._generate_one P (remote i)))
           (seq 0 (Z.to_nat num)))],
     Ret (omap (fun i => provisioned (remote i)) (seq 0 (Z.to_nat num)))).
Proof.
  intros H Ha.
  rewrite (generate_returns _ _ _ _ (gather_results_conform P _ _ H Ha)).
  rewrite filter_handed_back by assumption. reflexivity.
Qed.

(** *** The Lister *)

Lemma as_alias_inv (P : platform) (email : pyval) (a : alias) :
  as_alias P email = Some a ->
  exists r ms,
    email = PDict r
    /\ r !! "label" = Some (PStr (label a))
    /\ r !! "hme" = Some (PStr (address a))
    /\ r !! "createTimestamp" = Some (PInt ms)
    /\ r !! "isActive" = Some (PBool (active a))
    /\ fromtimestamp_strftime P (inject_Z ms / 1000)%Q = Ret (createdAt a).
Proof.
  unfold as_alias. destruct email as [| | | | | |r]; try discriminate.
  destruct (r !! "label") as [[| | | |l| |]|] eqn:Hl; try discriminate.
  destruct (r !! "hme") as [[| | | |h| |]|] eqn:Hh; try discriminate.
  destruct (r !! "createTimestamp") as [[| |ms| | | |]|] eqn:Hms;
    try discriminate.
  destruct (r !! "isActive") as [[|b| | | | |]|] eqn:Hb; try discriminate.
  destruct (fromtimestamp_strftime P _) as [t|] eqn:Ht; [|discriminate].
  intros [= <-]. exists r, ms. cbn. repeat split; assumption.
Qed.

#[local] Arguments Qdiv : simpl never.

Lemma list_for_typed (P : platform) (activeFilter : bool)
    (search : option string) (found : string -> bool) :
  compiled P search = Some found ->
  forall (records : list pyval) (aliases : list alias),
    Forall2 (fun email a => as_alias P email = Some a) records aliases ->
    forall email_strings,
      RichHideMyEmail.list_for P activeFilter search records email_strings
      = (map table_add_row
           (map table_row (List.filter (shown activeFilter found) aliases)),
         Ret (email_strings ++ map export_row aliases)).
Proof.
  intros Hsearch records aliases H.
  induction H as [|email a records aliases Ha _ IH]; intros email_strings.
  - cbn. rewrite app_nil_r. reflexivity.
  - destruct (as_alias_inv _ _ _ Ha) as (r & ms & -> & Hl & Hh & Hts & Hact & Ht).
    cbn [RichHideMyEmail.list_for].
    repeat (cbn -[RichHideMyEmail.list_for]; known_fields).
    unfold lift. rewrite Ht.
    repeat (cbn -[RichHideMyEmail.list_for]; known_fields).
    rewrite IH.
    assert (shown activeFilter found a
            = Bool.eqb (active a) activeFilter && found (label a)) as Hshown
      by reflexivity.
    destruct (Bool.eqb (active a) activeFilter) eqn:Hf; cbn in Hshown.
    + unfold compiled in Hsearch. destruct search as [pattern|].
      * unfold re_search.
        destruct (re_compile P pattern) as [found'|]; [|discriminate].
        injection Hsearch as ->.
        destruct (found (label a)) eqn:Hfound; rewrite Hshown; cbn;
          rewrite <- app_assoc; reflexivity.
      * injection Hsearch as <-. rewrite Hshown. cbn.
        rewrite <- app_assoc. reflexivity.
    + rewrite Hshown. cbn. rewrite <- app_assoc. reflexivity.
Qed.

Lemma list_empty (P : platform) (self : HideMyEmail) (activeFilter : bool)
    (search : option string) :
  py_bool (list_email self) = false ->
  RichHideMyEmail.list P self activeFilter search = (list_prologue, Ret tt).
Proof.
  intros H. unfold RichHideMyEmail.list, await_list_email. cbn.
  rewrite H. reflexivity.
Qed.

Lemma list_failed (P : platform) (self : HideMyEmail) (activeFilter : bool)
    (search : option string) (d : gmap string pyval) :
  list_email self = PDict d ->
  py_bool (PDict d) = true ->
  succeeds d = false ->
  RichHideMyEmail.list P self activeFilter search
  = (list_prologue
       ++ [console_log (ERR_failed_to_generate (dual_shape_message d))],
     and_then (console_renders P
                 (ERR_failed_to_generate (dual_shape_message d)))
       (Ret tt)).
Proof.
  intros Hg Ht Hs. unfold RichHideMyEmail.list, await_list_email.
  rewrite Hg. cbn in Ht. cbn. rewrite Ht. cbn.
  unfold succeeds in Hs. unfold dual_shape_message, py_in, py_getitem, log.
  destruct (d !! "success") as [s|] eqn:Es; run_method;
    match goal with
    | |- context [console_renders ?P ?m] =>
        destruct (console_renders P m) as [[]|]
    end; reflexivity.
Qed.

Lemma list_no_result (P : platform) (self : HideMyEmail) (activeFilter : bool)
    (search : option string) (d : gmap string pyval) :
  list_email self = PDict d ->
  succeeds d = true ->
  d !! "result" = None ->
  result (RichHideMyEmail.list P self activeFilter search)
  = Raise (KeyError "result").
Proof.
  intros Hg Hs Hres. pose proof (succeeds_truthy _ Hs) as Ht.
  unfold RichHideMyEmail.list, await_list_email.
  rewrite Hg. cbn in Ht. cbn. rewrite Ht. cbn.
  unfold succeeds in Hs.
  destruct (d !! "success") as [s|] eqn:Es; [|discriminate].
  cbn. rewrite Hs. cbn. rewrite Hres. reflexivity.
Qed.

Lemma list_no_hmeEmails (P : platform) (self : HideMyEmail)
    (activeFilter : bool) (search : option string)
    (d res : gmap string pyval) :
  list_email self = PDict d ->
  succeeds d = true ->
  d !! "result" = Some (PDict res) ->
  res !! "hmeEmails" = None ->
  result (RichHideMyEmail.list P self activeFilter search)
  = Raise (KeyError "hmeEmails").
Proof.
  intros Hg Hs Hres Hh. pose proof (succeeds_truthy _ Hs) as Ht.
  unfold RichHideMyEmail.list, await_list_email.
  rewrite Hg. cbn in Ht. cbn. rewrite Ht. cbn.
  unfold succeeds in Hs.
  destruct (d !! "success") as [s|] eqn:Es; [|discriminate].
  cbn. rewrite Hs. cbn. rewrite Hres. cbn. rewrite Hh. reflexivity.
Qed.

(** The end of the Lister, case by case. *)
Lemma list_finish_unprinted (P : platform) (rows : list (list pyval))
    (email_strings : list string) (e : exn) :
  render_cells P (concat rows) = Raise e ->
  RichHideMyEmail.list_finish P rows email_strings
  = ([console_print_table], Raise e).
Proof.
  intros H. unfold RichHideMyEmail.list_finish, console_print.
  rewrite H. reflexivity.
Qed.

Lemma list_finish_unopened (P : platform) (rows : list (list pyval))
    (email_strings : list string) (e : exn) :
  render_cells P (concat rows) = Ret tt ->
  os_open_w P "emails.txt" = Raise e ->
  RichHideMyEmail.list_finish P rows email_strings
  = ([console_print_table], Raise e).
Proof.
  intros H Ho. unfold RichHideMyEmail.list_finish, console_print, lift.
  rewrite H, Ho. reflexivity.
Qed.

Lemma list_finish_unwritten (P : platform) (rows : list (list pyval))
    (email_strings : list string) (e : exn) :
  render_cells P (concat rows) = Ret tt ->
  os_open_w P "emails.txt" = Ret tt ->
  os_write P (String.concat (os_linesep P) email_strings) = Raise e ->
  RichHideMyEmail.list_finish P rows email_strings
  = ([console_print_table; file_open_w "emails.txt"], Raise e).
Proof.
  intros H Ho Hw. unfold RichHideMyEmail.list_finish, console_print, lift.
  rewrite H, Ho. cbn. rewrite Hw. reflexivity.
Qed.

Lemma list_finish_written (P : platform) (rows : list (list pyval))
    (email_strings : list string) :
  render_cells P (concat rows) = Ret tt ->
  os_open_w P "emails.txt" = Ret tt ->
  os_write P (String.concat (os_linesep P) email_strings) = Ret tt ->
  RichHideMyEmail.list_finish P rows email_strings
  = ([console_print_table; file_open_w "emails.txt";
      file_write "emails.txt" (String.concat (os_linesep P) email_strings);
      console_log written_to_emails_txt], Ret tt).
Proof.
  intros H Ho Hw. unfold RichHideMyEmail.list_finish, console_print, lift.
  rewrite H, Ho. cbn. rewrite Hw. reflexivity.
Qed.

Lemma list_of_for (P : platform) (self : HideMyEmail) (activeFilter : bool)
    (search : option string) (d res : gmap string pyval) (hmeEmails : pyval)
    (records : list pyval) :
  list_email self = PDict d ->
  succeeds d = true ->
  d !! "result" = Some (PDict res) ->
  res !! "hmeEmails" = Some hmeEmails ->
  py_iter hmeEmails = ret records ->
  RichHideMyEmail.list P self activeFilter search
  = match RichHideMyEmail.list_for P activeFilter search records [] with
    | (t, Ret email_strings) =>
        (list_prologue ++ list_columns ++ t
           ++ trace (RichHideMyEmail.list_finish P (rows_added t) email_strings),
         result (RichHideMyEmail.list_finish P (rows_added t) email_strings))
    | (t, Raise e) => (list_prologue ++ list_columns ++ t, Raise e)
    end.
Proof.
  intros Hg Hs Hres Hh Hiter. pose proof (succeeds_truthy _ Hs) as Ht.
  unfold RichHideMyEmail.list, await_list_email.
  rewrite Hg. cbn in Ht.
  cbn -[RichHideMyEmail.list_for RichHideMyEmail.list_finish]. rewrite Ht.
  cbn -[RichHideMyEmail.list_for RichHideMyEmail.list_finish].
  unfold succeeds in Hs.
  destruct (d !! "success") as [s|] eqn:Es; [|discriminate].
  cbn -[RichHideMyEmail.list_for RichHideMyEmail.list_finish]. rewrite Hs.
  cbn -[RichHideMyEmail.list_for RichHideMyEmail.list_finish]. rewrite Hres.
  cbn -[RichHideMyEmail.list_for RichHideMyEmail.list_finish]. rewrite Hh.
  cbn -[RichHideMyEmail.list_for RichHideMyEmail.list_finish]. rewrite Hiter.
  cbn -[RichHideMyEmail.list_for RichHideMyEmail.list_finish].
  destruct (RichHideMyEmail.list_for P activeFilter search records [])
    as [t [email_strings|e]];
    cbn -[RichHideMyEmail.list_for RichHideMyEmail.list_finish];
    [|reflexivity].
  fold (rows_added t). unfold trace, result.
  destruct (RichHideMyEmail.list_finish P (rows_added t) email_strings).
  reflexivity.
Qed.

(** *** Reading the files and the table off a trace *)

Lemma files_after_app (t1 t2 : list event) (files : gmap string string) :
  files_after (t1 ++ t2) files = files_after t2 (files_after t1 files).
Proof. unfold files_after. apply fold_left_app. Qed.

Lemma files_after_rows (rows : list (list pyval)) (files : gmap string string) :
  files_after (map table_add_row rows) files = files.
Proof.
  induction rows as [|row rows IH]; [reflexivity|]. cbn. exact IH.
Qed.

Lemma rows_added_app (t1 t2 : list event) :
  rows_added (t1 ++ t2) = rows_added t1 ++ rows_added t2.
Proof. unfold rows_added. apply flat_map_app. Qed.

Lemma rows_added_rows (rows : list (list pyval)) :
  rows_added (map table_add_row rows) = rows.
Proof.
  induction rows as [|row rows IH]; [reflexivity|]. cbn. f_equal. exact IH.
Qed.

Lemma list_typed (P : platform) (self : HideMyEmail) (activeFilter : bool)
    (search : option string) (found : string -> bool)
    (d res : gmap string pyval) (records : list pyval) (aliases : list alias) :
  list_email self = PDict d ->
  succeeds d = true ->
  d !! "result" = Some (PDict res) ->
  res !! "hmeEmails" = Some (PList records) ->
  Forall2 (fun email a => as_alias P email = Some a) records aliases ->
  compiled P search = Some found ->
  let rows := map table_row (List.filter (shown activeFilter found) aliases) in
  let finish := RichHideMyEmail.list_finish P rows (map export_row aliases) in
  RichHideMyEmail.list P self activeFilter search
  = (list_prologue ++ list_columns ++ map table_add_row rows ++ trace finish,
     result finish).
Proof.
  intros Hg Hs Hres Hh Hrec Hsearch rows finish.
  rewrite (list_of_for P self activeFilter search d res (PList records) records
             Hg Hs Hres Hh eq_refl).
  rewrite (list_for_typed P activeFilter search found Hsearch records aliases
             Hrec).
  rewrite rows_added_rows. reflexivity.
Qed.

(** *** The poll loop *)

Lemma while_count_positive (c : settings) (count : Z) (emails : list pyval) :
  0 < count ->
  RichHideMyEmail.while_count c count emails = ([], at_generate count emails).
Proof.
  intros H. unfold RichHideMyEmail.while_count.
  destruct (Z.gtb_spec count 0); [reflexivity | lia].
Qed.

Lemma while_count_done (c : settings) (count : Z) (emails : list pyval) :
  count <= 0 ->
  RichHideMyEmail.while_count c count emails
  = ([console_log (generated_sleeping (length emails)
                     (py_round_div (SLEEP_INTERVAL c) 60));
      asyncio_sleep (SLEEP_INTERVAL c)], at_sleep).
Proof.
  intros H. unfold RichHideMyEmail.while_count.
  destruct (Z.gtb_spec count 0); [lia | reflexivity].
Qed.

Lemma resume_wave (P : platform) (c : settings) (count : Z)
    (emails : list pyval) (remote : nat -> HideMyEmail) (t : list event)
    (batch : list pyval) :
  RichHideMyEmail._generate P remote (MAX_CONCURRENT_TASKS c)
  = (t, Ret batch) ->
  RichHideMyEmail.generate_resume P c (at_generate count emails)
    (completes remote)
  = (t ++ fst (RichHideMyEmail.while_count c
                 (count - MAX_CONCURRENT_TASKS c) (emails ++ batch)),
     snd (RichHideMyEmail.while_count c
            (count - MAX_CONCURRENT_TASKS c) (emails ++ batch))).
Proof.
  intros H. unfold RichHideMyEmail.generate_resume. rewrite H. reflexivity.
Qed.

(** The event of a wave that comes back holds what every task did. *)
Lemma wave_event_returns (P : platform) (c : settings)
    (remote : nat -> HideMyEmail) :
  conforming c remote ->
  accepted P c remote ->
  wave_event P c remote
  = asyncio_gather
      (map (fun i => trace (RichHideMyEmail._generate_one P (remote i)))
         (seq 0 (Z.to_nat (MAX_CONCURRENT_TASKS c)))).
Proof.
  intros H Ha.
  pose proof (generate_trace P c remote) as Ht.
  rewrite (generate_conforms P remote _ H Ha) in Ht.
  injection Ht as Ht. unfold wave_event. rewrite <- Ht. reflexivity.
Qed.

Lemma generate_conforming (P : platform) (c : settings)
    (remote : nat -> HideMyEmail) :
  conforming c remote ->
  accepted P c remote ->
  RichHideMyEmail._generate P remote (MAX_CONCURRENT_TASKS c)
  = ([wave_event P c remote],
     Ret (omap (fun i => provisioned (remote i))
            (seq 0 (Z.to_nat (MAX_CONCURRENT_TASKS c))))).
Proof.
  intros H Ha. rewrite (wave_event_returns P c remote H Ha).
  apply generate_conforms; assumption.
Qed.

Lemma run_cycle_any (P : platform) (c : settings) :
  0 < MAX_CONCURRENT_TASKS c ->
  forall (rs : list (nat -> HideMyEmail)) (r : nat -> HideMyEmail)
         (count : Z) (emails : list pyval),
    MAX_CONCURRENT_TASKS c * Z.of_nat (length rs) < count
    <= MAX_CONCURRENT_TASKS c * Z.of_nat (S (length rs)) ->
    Forall (conforming c) (r :: rs) ->
    Forall (accepted P c) (r :: rs) ->
    RichHideMyEmail.generate_run P c (at_generate count emails)
      (map completes (r :: rs))
    = (map (wave_event P c) (r :: rs)
         ++ [console_log
               (generated_sleeping (length (emails ++ collected c (r :: rs)))
                  (py_round_div (SLEEP_INTERVAL c) 60));
             asyncio_sleep (SLEEP_INTERVAL c)],
       at_sleep).
Proof.
  intros HK rs.
  induction rs as [|r' rs IH]; intros r count emails Hcount Hconf Hacc.
  - apply Forall_cons in Hconf as [Hr _]. apply Forall_cons in Hacc as [Har _].
    cbn [map RichHideMyEmail.generate_run].
    rewrite (resume_wave _ _ _ _ _ _ _ (generate_conforming P c r Hr Har)).
    rewrite while_count_done by (cbn in Hcount; lia).
    cbn. unfold collected. cbn. rewrite !app_nil_r. reflexivity.
  - apply Forall_cons in Hconf as [Hr Hconf].
    apply Forall_cons in Hacc as [Har Hacc].
    change (map completes (r :: r' :: rs))
      with (completes r :: map completes (r' :: rs)).
    cbn [RichHideMyEmail.generate_run].
    rewrite (resume_wave _ _ _ _ _ _ _ (generate_conforming P c r Hr Har)).
    rewrite while_count_positive by (cbn [length] in Hcount; nia).
    cbn [fst snd].
    rewrite (IH r' (count - MAX_CONCURRENT_TASKS c)) by
      (try assumption; cbn [length] in *; lia).
    cbn [fst snd]. unfold collected. cbn [flat_map map app].
    rewrite <- !app_assoc. reflexivity.
Qed.

Lemma length_omap_filter {A B} (f : A -> option B) (l : list A) :
  (length (omap f l)
   + length (List.filter (fun a => match f a with
                                   | Some _ => false
                                   | None => true
                                   end) l)
   = length l)%nat.
Proof.
  induction l as [|a l IH]; cbn; [reflexivity|].
  destruct (f a); cbn; lia.
Qed.

Lemma collected_failures (c : settings) (remotes : list (nat -> HideMyEmail)) :
  (length (collected c remotes) + failures c remotes
   = Z.to_nat (MAX_CONCURRENT_TASKS c) * length remotes)%nat.
Proof.
  unfold collected, failures.
  induction remotes as [|r rs IH]; cbn [flat_map length]; [lia|].
  rewrite !length_app.
  pose proof (length_omap_filter (fun i => provisioned (r i))
                (seq 0 (Z.to_nat (MAX_CONCURRENT_TASKS c)))) as H.
  rewrite length_seq in H. lia.
Qed.

Lemma tasks_of_while_count (c : settings) (count : Z) (emails : list pyval) :
  tasks_of (fst (RichHideMyEmail.while_count c count emails)) = [].
Proof.
  unfold RichHideMyEmail.while_count. destruct (count >? 0); reflexivity.
Qed.

Lemma tasks_of_app (t1 t2 : list event) :
  tasks_of (t1 ++ t2) = tasks_of t1 ++ tasks_of t2.
Proof. unfold tasks_of. apply flat_map_app. Qed.

Lemma tasks_of_wave_event (P : platform) (c : settings)
    (remote : nat -> HideMyEmail) :
  length (tasks_of [wave_event P c remote])
  = Z.to_nat (MAX_CONCURRENT_TASKS c).
Proof.
  unfold wave_event. cbn [tasks_of flat_map]. rewrite app_nil_r.
  rewrite length_imap. unfold wave_tasks. rewrite length_map, length_seq.
  reflexivity.
Qed.

Lemma wave_size_bound (P : platform) (c : settings) (count : Z)
    (emails : list pyval) (remote : nat -> HideMyEmail) :
  wave_size P c (at_generate count emails) remote
  = Z.to_nat (MAX_CONCURRENT_TASKS c).
Proof.
  unfold wave_size, RichHideMyEmail.generate_resume.
  pose proof (generate_trace P c remote) as Ht. unfold trace in Ht.
  destruct (RichHideMyEmail._generate P remote (MAX_CONCURRENT_TASKS c))
    as [t [batch|e]]; cbn [fst] in *; subst t.
  - rewrite tasks_of_app, tasks_of_while_count, app_nil_r.
    apply tasks_of_wave_event.
  - apply tasks_of_wave_event.
Qed.

(** An invariant of the states of [generate] that every resumption of a kind
    keeps is kept by every schedule of such resumptions. *)
Lemma generate_run_invariant (P : platform) (c : settings)
    (Inv : generate_state -> Prop) (Ok : resumption -> Prop) :
  (forall s r, Inv s -> Ok r ->
               Inv (snd (RichHideMyEmail.generate_resume P c s r))) ->
  forall rs s, Inv s -> Forall Ok rs ->
               Inv (snd (RichHideMyEmail.generate_run P c s rs)).
Proof.
  intros Hstep rs. induction rs as [|r rs IH]; intros s Hs Hrs.
  - exact Hs.
  - apply Forall_cons in Hrs as [Hr Hrs]. cbn. apply IH; auto.
Qed.

Lemma while_count_suspended (c : settings) (count : Z) (emails : list pyval) :
  suspended (snd (RichHideMyEmail.while_count c count emails)) = true.
Proof.
  unfold RichHideMyEmail.while_count. destruct (count >? 0); reflexivity.
Qed.

Lemma enter_suspended (c : settings) :
  suspended (snd (RichHideMyEmail.generate_enter c)) = true.
Proof. apply while_count_suspended. Qed.


Lemma resume_suspended (P : platform) (c : settings) (s : generate_state)
    (r : resumption) :
  suspended s = true ->
  (exists remote, r = completes remote
                  /\ conforming c remote /\ accepted P c remote) ->
  suspended (snd (RichHideMyEmail.generate_resume P c s r)) = true.
Proof.
  intros Hs (remote & -> & Hconf & Hacc).
  destruct s as [count emails| |v'|e]; try discriminate.
  - rewrite (resume_wave _ _ _ _ _ _ _
               (generate_conforming P c remote Hconf Hacc)).
    apply while_count_suspended.
  - apply while_count_suspended.
Qed.



Lemma resume_divides (P : platform) (c : settings) (s : generate_state)
    (r : resumption) :
  (MAX_CONCURRENT_TASKS c | COUNT_TO_GENERATE c) ->
  (forall count emails, s = at_generate count emails ->
                        0 < count /\ (MAX_CONCURRENT_TASKS c | count)) ->
  forall count emails,
    snd (RichHideMyEmail.generate_resume P c s r) = at_generate count emails ->
    0 < count /\ (MAX_CONCURRENT_TASKS c | count).
Proof.
  intros Hdiv Hs count' emails'.
  assert (forall n l, snd (RichHideMyEmail.while_count c n l)
                      = at_generate count' emails' ->
                      (MAX_CONCURRENT_TASKS c | n) ->
                      0 < count' /\ (MAX_CONCURRENT_TASKS c | count')) as Hw.
  { intros n l. unfold RichHideMyEmail.while_count.
    destruct (Z.gtb_spec n 0); cbn; [|discriminate].
    intros [= <- <-] Hn. split; [lia | assumption]. }
  destruct s as [count emails| |v'|e]; destruct r as [remote|remote]; machine;
    try discriminate.
  - destruct (Hs count emails eq_refl) as [_ Hc].
    destruct (RichHideMyEmail._generate P remote (MAX_CONCURRENT_TASKS c))
      as [t [batch|e]]; machine; [|discriminate].
    intros E. apply (Hw _ _ E). apply Z.divide_sub_r; [assumption|].
    apply Z.divide_refl.
  - destruct (RichHideMyEmail._generate P remote (MAX_CONCURRENT_TASKS c))
      as [t [batch|e]]; machine; discriminate.
  - unfold RichHideMyEmail.while_True. intros E. apply (Hw _ _ E Hdiv).
Qed.

Lemma run_raised (P : platform) (c : settings) (e : exn)
    (rs : list resumption) :
  RichHideMyEmail.generate_run P c (raised e) rs = ([], raised e).
Proof.
  induction rs as [|r rs IH]; [reflexivity|].
  cbn [RichHideMyEmail.generate_run].
  assert (RichHideMyEmail.generate_resume P c (raised e) r = ([], raised e))
    as -> by (destruct r; reflexivity).
  cbn [fst snd]. rewrite IH. reflexivity.
Qed.

Lemma run_returned (P : platform) (c : settings) (v : list pyval)
    (rs : list resumption) :
  RichHideMyEmail.generate_run P c (returned v) rs = ([], returned v).
Proof.
  induction rs as [|r rs IH]; [reflexivity|].
  cbn [RichHideMyEmail.generate_run].
  assert (RichHideMyEmail.generate_resume P c (returned v) r
          = ([], returned v)) as -> by (destruct r; reflexivity).
  cbn [fst snd]. rewrite IH. reflexivity.
Qed.

Lemma run_app (P : platform) (c : settings) (rs1 rs2 : list resumption)
    (s : generate_state) :
  RichHideMyEmail.generate_run P c s (rs1 ++ rs2)
  = (fst (RichHideMyEmail.generate_run P c s rs1)
       ++ fst (RichHideMyEmail.generate_run P c
                 (snd (RichHideMyEmail.generate_run P c s rs1)) rs2),
     snd (RichHideMyEmail.generate_run P c
            (snd (RichHideMyEmail.generate_run P c s rs1)) rs2)).
Proof.
  revert s. induction rs1 as [|r rs1 IH]; intros s.
  - cbn. destruct (RichHideMyEmail.generate_run P c s rs2). reflexivity.
  - cbn [app RichHideMyEmail.generate_run fst snd]. rewrite IH.
    cbn [fst snd]. rewrite app_assoc. reflexivity.
Qed.

Lemma generate_state_of (P : platform) (c : settings) (rs : list resumption) :
  snd (RichHideMyEmail.generate P c rs)
  = snd (RichHideMyEmail.generate_run P c
           (snd (RichHideMyEmail.generate_enter c)) rs).
Proof. reflexivity. Qed.

Lemma length_filter_le {A} (f : A -> bool) (l : list A) :
  (length (List.filter f l) <= length l)%nat.
Proof.
  induction l as [|a l IH]; cbn; [lia|]. destruct (f a); cbn; lia.
Qed.

Lemma attempts_concat (tasks : list (list event)) :
  Forall (fun t => create_attempts t = 1%nat /\ (reserve_attempts t <= 1)%nat)
    tasks ->
  create_attempts (concat tasks) = length tasks
  /\ (reserve_attempts (concat tasks) <= length tasks)%nat.
Proof.
  unfold create_attempts, reserve_attempts.
  induction 1 as [|t tasks [Hc Hr] _ [IHc IHr]]; cbn; [split; lia|].
  rewrite !List.filter_app, !length_app. split; lia.
Qed.

(** Every task of a wave makes its create call and at most one reserve
    call, whether the wave comes back or raises. *)
Lemma wave_attempts (P : platform) (remote : nat -> HideMyEmail) (num : Z) :
  Forall (fun t => create_attempts t = 1%nat /\ (reserve_attempts t <= 1)%nat)
    (tasks_of (trace (RichHideMyEmail._generate P remote num))).
Proof.
  rewrite tasks_of_generate. apply Forall_imap. intros j x Hx.
  unfold wave_tasks in Hx. apply List.in_map_iff in Hx as (i & <- & _).
  destruct (ran_attempts P (remote i)
              (first_raised 0 (wave_tasks P remote num)) j
              [generate_email_time (remote i); reserve_email_time (remote i)])
    as [Hc Hr].
  split; [exact Hc|].
  pose proof (generate_one_attempts P (remote i)) as H.
  unfold attempts in H. injection H as _ H2.
  destruct (created (remote i)) as [email|];
    [destruct (renders P (generated_50 email))|]; lia.
Qed.

Lemma waves_of_cycle_bounds (c : settings) :
  0 < MAX_CONCURRENT_TASKS c ->
  0 < COUNT_TO_GENERATE c ->
  (0 < waves_of_cycle c)%nat
  /\ MAX_CONCURRENT_TASKS c * (Z.of_nat (waves_of_cycle c) - 1)
     < COUNT_TO_GENERATE c
     <= MAX_CONCURRENT_TASKS c * Z.of_nat (waves_of_cycle c).
Proof.
  intros HK HT. unfold waves_of_cycle.
  set (K := MAX_CONCURRENT_TASKS c) in *.
  set (T := COUNT_TO_GENERATE c) in *.
  pose proof (Z.div_mod (T + K - 1) K ltac:(lia)) as Hdm.
  pose proof (Z.mod_pos_bound (T + K - 1) K HK) as Hm.
  assert (1 <= (T + K - 1) / K) as Hq by nia.
  rewrite Z2Nat.id by lia. split; [lia | nia].
Qed.

(** *** The worker, whatever the console does *)

Lemma after_lines_raises {A} (P : platform) (lines : list message)
    (r : outcome A) (e : exn) :
  after_lines P lines r = Raise e ->
  r = Raise e \/ exists m, In m lines /\ console_renders P m = Raise e.
Proof.
  induction lines as [|m lines IH]; cbn [after_lines]; [auto|].
  destruct (console_renders P m) as [[]|e'] eqn:Hm; cbn.
  - intros H. destruct (IH H) as [Hr | (m' & Hin & Hm')]; [auto|].
    right. exists m'. split; [right; exact Hin | exact Hm'].
  - intros [= ->]. right. exists m. split; [left; reflexivity | exact Hm].
Qed.

(** Under the typing of the interface a worker hands its lines to the
    console and then hands back the alias it provisioned, or [None]; it
    raises nothing but what the console raises. *)
Lemma generate_one_typed (P : platform) (self : HideMyEmail) :
  conforms self = true ->
  result (RichHideMyEmail._generate_one P self)
  = after_lines P (worker_lines self) (Ret (handed_back self)).
Proof.
  unfold conforms, handed_back, provisioned. intros H.
  destruct (generate_email self) as [| | | | | |d] eqn:Hg; try discriminate.
  { rewrite generate_one_empty by (rewrite Hg; reflexivity).
    unfold created, worker_lines. rewrite Hg. reflexivity. }
  destruct (succeeds d) eqn:Hs.
  2:{ assert (created self = None) as ->
        by (unfold created; rewrite Hg, Hs; reflexivity).
      unfold worker_lines. rewrite Hg, Hs.
      destruct (py_bool (PDict d)) eqn:Ht.
      - erewrite generate_one_create_failed by eassumption.
        cbn in Ht. rewrite Ht. reflexivity.
      - rewrite generate_one_empty by (rewrite Hg; assumption).
        cbn in Ht. rewrite Ht. reflexivity. }
  destruct (d !! "result") as [[| | | | | |res]|] eqn:Hr; try discriminate.
  destruct (res !! "hme") as [[| | | |hme| |]|] eqn:Hh; try discriminate.
  assert (created self = Some (PStr hme)) as Hc
    by (unfold created; rewrite Hg, Hs, Hr; assumption).
  rewrite Hc, (worker_lines_created _ _ Hc). cbn [after_lines].
  destruct (console_renders P (generated_50 (PStr hme))) as [[]|e] eqn:Hlog.
  2:{ rewrite (generate_one_unshown _ _ _ _ Hc Hlog). reflexivity. }
  cbn [and_then].
  destruct (reserve_email self (PStr hme)) as [| | | | | |d'] eqn:Hres;
    try discriminate.
  { rewrite (generate_one_reserve_empty _ _ _ Hc Hlog)
      by (rewrite Hres; reflexivity).
    reflexivity. }
  destruct (succeeds d') eqn:Hs'.
  - rewrite (generate_one_reserved _ _ _ _ Hc Hlog Hres Hs'). reflexivity.
  - destruct (py_bool (PDict d')) eqn:Ht'.
    + rewrite (generate_one_reserve_failed _ _ _ _ Hc Hlog Hres Ht' Hs').
      cbn in Ht'. rewrite Ht'. reflexivity.
    + rewrite (generate_one_reserve_empty _ _ _ Hc Hlog)
        by (rewrite Hres; assumption).
      cbn in Ht'. rewrite Ht'. reflexivity.
Qed.

Lemma provisioned_inv (self : HideMyEmail) (email : pyval) :
  provisioned self = Some email ->
  created self = Some email
  /\ exists d', reserve_email self email = PDict d' /\ succeeds d' = true.
Proof.
  unfold provisioned. destruct (created self) as [email'|] eqn:Hc;
    [|discriminate].
  destruct (reserve_email self email') as [| | | | | |d'] eqn:Hr;
    try discriminate.
  destruct (succeeds d') eqn:Hs; [|discriminate].
  intros [= <-]. split; [reflexivity|]. exists d'. auto.
Qed.

(** A worker that provisioned an alias shows it twice and hands it back. *)
Lemma provisioned_result (P : platform) (self : HideMyEmail) (email : pyval) :
  provisioned self = Some email ->
  result (RichHideMyEmail._generate_one P self)
  = after_lines P [generated_50 email; reserved_100 email] (Ret email).
Proof.
  intros Hp. destruct (provisioned_inv _ _ Hp) as (Hc & d' & Hr & Hs).
  cbn [after_lines].
  destruct (console_renders P (generated_50 email)) as [[]|e] eqn:Hlog.
  - rewrite (generate_one_reserved _ _ _ _ Hc Hlog Hr Hs). reflexivity.
  - rewrite (generate_one_unshown _ _ _ _ Hc Hlog). reflexivity.
Qed.

Lemma provisioned_returned (P : platform) (self : HideMyEmail)
    (email v : pyval) :
  provisioned self = Some email ->
  result (RichHideMyEmail._generate_one P self) = Ret v ->
  v = email.
Proof.
  intros Hp. rewrite (provisioned_result P _ _ Hp). cbn [after_lines].
  destruct (console_renders P (generated_50 email)) as [[]|]; [|discriminate].
  destruct (console_renders P (reserved_100 email)) as [[]|]; [|discriminate].
  intros [= <-]. reflexivity.
Qed.

Lemma returns_provisioned (P : platform) (self : HideMyEmail) (v : pyval) :
  result (RichHideMyEmail._generate_one P self) = Ret v ->
  is_not_None v = true ->
  provisioned self = Some v.
Proof.
  destruct (py_bool (generate_email self)) eqn:Ht.
  2:{ rewrite generate_one_empty by assumption. intros [= <-]. discriminate. }
  unfold provisioned.
  destruct (created self) as [email|] eqn:Hc.
  - destruct (console_renders P (generated_50 email)) as [[]|e] eqn:Hlog.
    2:{ rewrite (generate_one_unshown _ _ _ _ Hc Hlog). discriminate. }
    destruct (reserve_email self email) as [| | | | | |d'] eqn:Hr.
    7:{ destruct (succeeds d') eqn:Hs.
        - rewrite (generate_one_reserved _ _ _ _ Hc Hlog Hr Hs).
          unfold result, and_then. cbn [snd].
          destruct (console_renders P (reserved_100 email)) as [[]|];
            [|discriminate].
          intros [= <-] _. reflexivity.
        - destruct (py_bool (PDict d')) eqn:Ht'.
          + rewrite (generate_one_reserve_failed _ _ _ _ Hc Hlog Hr Ht' Hs).
            unfold result, and_then. cbn [snd].
            destruct (console_renders P (ERR_failed_to_reserve _ _)) as [[]|];
              [|discriminate].
            intros [= <-]. discriminate.
          + rewrite (generate_one_reserve_empty _ _ _ Hc Hlog)
              by (rewrite Hr; assumption).
            intros [= <-]. discriminate. }
    all: create_phase Hc; rewrite Hlog; cbn; rewrite Hr; unfold result;
      inspect; first [discriminate | intros [= <-]; discriminate].
  - unfold created in Hc.
    unfold RichHideMyEmail._generate_one, await_generate_email,
      await_reserve_email, result.
    destruct (generate_email self) as [| | | | | |d]; try discriminate Ht.
    1-5: inspect; first [discriminate | intros [= <-]; discriminate].
    unfold bind at 1. cbv beta iota. rewrite Ht. unfold succeeds in Hc.
    unfold bind at 1. unfold py_in at 1. cbv beta iota.
    destruct (d !! "success") as [flag|] eqn:Es.
    + cbn. destruct (py_bool flag) eqn:Hs.
      * destruct (d !! "result") as [[| | | | | |res]|] eqn:Hr;
          inspect; first [discriminate | intros [= <-]; discriminate].
      * inspect; first [discriminate | intros [= <-]; discriminate].
    + inspect; first [discriminate | intros [= <-]; discriminate].
Qed.

(** * The claims *)

(** C3.  For a failing envelope (a response that is there, whose [success] is
    false or absent) the message that is extracted follows the dual-shape
    rule: the sibling [reason] when [error] is an integer, the [errorMessage]
    of [error] when [error] is an object that has one, and ["Unknown"] in
    every other case, a missing [error] included.  The create call of a
    worker, its reserve call and the list call of the Lister all hand that
    message to the console, and end with nothing unless the console
    raises. *)
Theorem error_message_dual_shape (d : gmap string pyval) :
  py_bool (PDict d) = true ->
  succeeds d = false ->
  (forall code reason,
      d !! "error" = Some (PInt code) -> d !! "reason" = Some reason ->
      dual_shape_message d = reason)
  /\ (forall error errorMessage,
         d !! "error" = Some (PDict error) ->
         error !! "errorMessage" = Some errorMessage ->
         dual_shape_message d = errorMessage)
  /\ ((forall code, d !! "error" = Some (PInt code) -> d !! "reason" = None) ->
      (forall error, d !! "error" = Some (PDict error) ->
                     error !! "errorMessage" = None) ->
      dual_shape_message d = PStr "Unknown")
  /\ (forall P self,
         generate_email self = PDict d ->
         RichHideMyEmail._generate_one P self
         = ([generate_email_call;
             console_log (ERR_failed_to_generate (dual_shape_message d))],
            and_then
              (console_renders P
                 (ERR_failed_to_generate (dual_shape_message d)))
              (Ret PNone)))
  /\ (forall P self email,
         created self = Some email ->
         reserve_email self email = PDict d ->
         RichHideMyEmail._generate_one P self
         = match console_renders P (generated_50 email) with
           | Ret _ =>
               ([generate_email_call; console_log (generated_50 email);
                 reserve_email_call email;
                 console_log
                   (ERR_failed_to_reserve email (dual_shape_message d))],
                and_then
                  (console_renders P
                     (ERR_failed_to_reserve email (dual_shape_message d)))
                  (Ret PNone))
           | Raise e =>
               ([generate_email_call; console_log (generated_50 email)],
                Raise e)
           end)
  /\ (forall P self activeFilter search,
         list_email self = PDict d ->
         RichHideMyEmail.list P self activeFilter search
         = (list_prologue
              ++ [console_log (ERR_failed_to_generate (dual_shape_message d))],
            and_then
              (console_renders P
                 (ERR_failed_to_generate (dual_shape_message d)))
              (Ret tt))).
Proof.
  intros Ht Hs. repeat split.
  - intros code reason He Hr. unfold dual_shape_message. rewrite He, Hr.
    reflexivity.
  - intros error errorMessage He Hm. unfold dual_shape_message.
    rewrite He, Hm. reflexivity.
  - intros Hcode Hobject. unfold dual_shape_message.
    destruct (d !! "error") as [[| |code| | | |error]|] eqn:He; try reflexivity.
    + rewrite (Hcode code eq_refl). reflexivity.
    + rewrite (Hobject error eq_refl). reflexivity.
  - intros P self Hg. apply generate_one_create_failed; assumption.
  - intros P self email Hc Hr.
    destruct (console_renders P (generated_50 email)) as [[]|e] eqn:Hlog.
    + apply generate_one_reserve_failed; assumption.
    + apply generate_one_unshown; assumption.
  - intros P self activeFilter search Hl. apply list_failed; assumption.
Qed.

Lemma error_message_dual_shape_witness :
  RichHideMyEmail._generate_one sample_platform
    {| generate_email := refused_envelope;
       reserve_email := fun _ => PNone;
       list_email := PNone;
       generate_email_time := 1;
       reserve_email_time := 1 |}
  = ([generate_email_call;
      console_log (ERR_failed_to_generate (PStr "limit reached"))],
     Ret PNone).
Proof.
  refine (proj1 (proj2 (proj2 (proj2
            (error_message_dual_shape
               (list_to_map [("success", PBool false); ("error", PInt 1);
                             ("reason", PStr "limit reached")])
               _ _)))) sample_platform _ _);
    reflexivity.
Defined.

(** C4 fails: a worker whose create phase went through and whose reserve
    call is refused with a message that the console refuses does not return
    nothing; it raises what the console raised. *)
Lemma reserve_failure_does_not_return :
  created garbling = Some (PStr "c@icloud.com")
  /\ response_failed (reserve_email garbling (PStr "c@icloud.com")) = true
  /\ RichHideMyEmail._generate_one sample_platform garbling
     = ([generate_email_call; console_log (generated_50 (PStr "c@icloud.com"));
         reserve_email_call (PStr "c@icloud.com");
         console_log (ERR_failed_to_reserve (PStr "c@icloud.com")
                        (PStr "quota [/] exceeded"))],
        Raise MarkupError)
  /\ ~ reserve_failure_returns_None sample_platform garbling.
Proof.
  assert (RichHideMyEmail._generate_one sample_platform garbling
          = ([generate_email_call;
              console_log (generated_50 (PStr "c@icloud.com"));
              reserve_email_call (PStr "c@icloud.com");
              console_log (ERR_failed_to_reserve (PStr "c@icloud.com")
                             (PStr "quota [/] exceeded"))],
             Raise MarkupError)) as Hrun by reflexivity.
  repeat split; try reflexivity.
  intros H. specialize (H (PStr "c@icloud.com") eq_refl eq_refl).
  rewrite Hrun in H. discriminate.
Qed.

(** C4, amended.  A worker whose create phase went through and whose reserve
    phase fails (the reserve answer is empty, or is an envelope whose
    [success] is false or absent) returns no alias: it returns [None], or it
    raises what the console raised on the line of the address or on the line
    of the failure.  It has made one create call and at most one reserve
    call, so that no phase is tried again; when the console renders both
    lines it returns [None] after exactly one call of each. *)
Theorem reserve_failure_returns_no_alias (P : platform) (self : HideMyEmail)
    (email : pyval) :
  created self = Some email ->
  response_failed (reserve_email self email) = true ->
  let run := RichHideMyEmail._generate_one P self in
  (forall v, result run = Ret v -> v = PNone)
  /\ (forall e, result run = Raise e ->
        console_renders P (generated_50 email) = Raise e
        \/ exists d, reserve_email self email = PDict d
                     /\ console_renders P
                          (ERR_failed_to_reserve email (dual_shape_message d))
                        = Raise e)
  /\ create_attempts (trace run) = 1%nat
  /\ (reserve_attempts (trace run) <= 1)%nat
  /\ (renders P (generated_50 email) = true ->
      (forall d, reserve_email self email = PDict d ->
                 renders P (ERR_failed_to_reserve email (dual_shape_message d))
                 = true) ->
      result run = Ret PNone
      /\ attempts (trace run) = (1%nat, 1%nat)
      /\ exists log,
          trace run
          = [generate_email_call; console_log (generated_50 email);
             reserve_email_call email] ++ map console_log log).
Proof.
  intros Hc Hf run. unfold run.
  assert (py_bool (reserve_email self email) = false
          \/ exists d, reserve_email self email = PDict d
                       /\ py_bool (PDict d) = true /\ succeeds d = false)
    as Hcases.
  { unfold response_failed in Hf.
    destruct (reserve_email self email) as [| | | | | |d] eqn:Hr;
      try (left; apply Bool.negb_true_iff; exact Hf).
    destruct (py_bool (PDict d)) eqn:Ht; auto.
    right. exists d. repeat split; try assumption.
    destruct (succeeds d); [discriminate | reflexivity]. }
  pose proof (generate_one_attempts P self) as Ha. unfold attempts in Ha.
  rewrite Hc in Ha. injection Ha as Hca Hra.
  assert (reserve_attempts
            (trace (RichHideMyEmail._generate_one P self)) <= 1)%nat as Hle
    by (rewrite Hra; destruct (renders P (generated_50 email)); lia).
  split; [|split; [|split; [exact Hca|split; [exact Hle|]]]].
  - intros v Hv. destruct (is_not_None v) eqn:Hnn; [|destruct v; auto; discriminate].
    pose proof (returns_provisioned P self v Hv Hnn) as Hp.
    destruct (provisioned_inv _ _ Hp) as (Hc' & d' & Hr' & Hs').
    rewrite Hc in Hc'. injection Hc' as ->.
    unfold response_failed in Hf. rewrite Hr', Hs' in Hf. discriminate.
  - intros e He.
    destruct (console_renders P (generated_50 email)) as [[]|e0] eqn:Hlog.
    2:{ rewrite (generate_one_unshown _ _ _ _ Hc Hlog) in He.
        injection He as ->. left. reflexivity. }
    destruct Hcases as [Hempty | (d & Hd & Ht & Hs)].
    + rewrite (generate_one_reserve_empty _ _ _ Hc Hlog Hempty) in He.
      discriminate.
    + rewrite (generate_one_reserve_failed _ _ _ _ Hc Hlog Hd Ht Hs) in He.
      unfold result, and_then in He. cbn [snd] in He.
      right. exists d. split; [assumption|].
      destruct (console_renders P
                  (ERR_failed_to_reserve email (dual_shape_message d)))
        as [[]|e1]; [discriminate|].
      injection He as ->. reflexivity.
  - intros Hlog Hall. apply renders_Ret in Hlog.
    destruct Hcases as [Hempty | (d & Hd & Ht & Hs)].
    + rewrite (generate_one_reserve_empty _ _ _ Hc Hlog Hempty).
      repeat split. exists []. reflexivity.
    + rewrite (generate_one_reserve_failed _ _ _ _ Hc Hlog Hd Ht Hs).
      rewrite (renders_Ret _ _ (Hall d Hd)).
      repeat split.
      exists [ERR_failed_to_reserve email (dual_shape_message d)]. reflexivity.
Qed.

Lemma reserve_failure_returns_no_alias_witness :
  result (RichHideMyEmail._generate_one sample_platform reluctant) = Ret PNone.
Proof.
  refine (proj1 (proj2 (proj2 (proj2 (proj2
            (reserve_failure_returns_no_alias sample_platform reluctant
               (PStr "b@icloud.com") _ _)))) _ _));
    try reflexivity.
  intros d [= <-]. reflexivity.
Defined.

(** C9.  A worker absorbs failures only as long as a create envelope that
    reports success carries a [result] with an [hme]: a success envelope
    without [result], or whose [result] has no [hme], makes the worker raise
    a [KeyError], and so does the Lister for a success envelope without
    [result] or without [hmeEmails] in it; whenever the create phase of such
    an envelope yields no address the worker raises.  Under the typing of
    the interface the worker raises nothing of its own: it ends as its lines
    on the console end, with what it provisioned. *)
Theorem success_envelope_is_read_unguarded (P : platform) (self : HideMyEmail)
    (d : gmap string pyval) :
  succeeds d = true ->
  (generate_email self = PDict d ->
   (d !! "result" = None ->
    result (RichHideMyEmail._generate_one P self) = Raise (KeyError "result"))
   /\ (forall res, d !! "result" = Some (PDict res) -> res !! "hme" = None ->
       result (RichHideMyEmail._generate_one P self) = Raise (KeyError "hme"))
   /\ (created self = None ->
       exists e, result (RichHideMyEmail._generate_one P self) = Raise e)
   /\ (conforms self = true ->
       result (RichHideMyEmail._generate_one P self)
       = after_lines P (worker_lines self) (Ret (handed_back self))))
  /\ (list_email self = PDict d ->
      forall activeFilter search,
        (d !! "result" = None ->
         result (RichHideMyEmail.list P self activeFilter search)
         = Raise (KeyError "result"))
        /\ (forall res, d !! "result" = Some (PDict res) ->
                        res !! "hmeEmails" = None ->
            result (RichHideMyEmail.list P self activeFilter search)
            = Raise (KeyError "hmeEmails"))).
Proof.
  intros Hs. split.
  - intros Hg. repeat split.
    + intros Hr. rewrite (generate_one_no_result _ _ _ Hg Hs Hr). reflexivity.
    + intros res Hr Hh. rewrite (generate_one_no_hme _ _ _ _ Hg Hs Hr Hh).
      reflexivity.
    + unfold created. rewrite Hg, Hs. intros Hc.
      destruct (d !! "result") as [[| | | | | |res]|] eqn:Hr.
      7:{ exists (KeyError "hme").
          rewrite (generate_one_no_hme _ _ _ _ Hg Hs Hr Hc). reflexivity. }
      7:{ exists (KeyError "result").
          rewrite (generate_one_no_result _ _ _ Hg Hs Hr). reflexivity. }
      all: exists TypeError; pose proof (succeeds_truthy _ Hs) as Ht;
        unfold RichHideMyEmail._generate_one, await_generate_email;
        rewrite Hg; cbn in Ht; cbn; rewrite Ht; cbn; unfold succeeds in Hs;
        destruct (d !! "success") as [flag|] eqn:Es; [|discriminate];
        cbn; rewrite Hs; cbn; rewrite Hr; reflexivity.
    + apply generate_one_typed.
  - intros Hl activeFilter search. split.
    + intros Hr. exact (list_no_result P self activeFilter search d Hl Hs Hr).
    + intros res Hr Hh.
      exact (list_no_hmeEmails P self activeFilter search d res Hl Hs Hr Hh).
Qed.

Lemma success_envelope_is_read_unguarded_witness :
  result (RichHideMyEmail._generate_one sample_platform hollow)
  = Raise (KeyError "result")
  /\ result (RichHideMyEmail.list sample_platform hollow true None)
     = Raise (KeyError "result").
Proof.
  pose proof (success_envelope_is_read_unguarded sample_platform hollow
                (list_to_map [("success", PBool true)]) eq_refl) as [Hw Hl].
  split.
  - exact (proj1 (Hw eq_refl) eq_refl).
  - exact (proj1 (Hl eq_refl true None) eq_refl).
Defined.

(** C10.  When the cookie file exists and every line of it (if any) starts
    with ["//"], construction raises an [IndexError] and logs no warning; the
    warning is logged, and construction goes on, exactly when the file is
    absent. *)
Theorem cookie_file_without_cookie (f : list string) :
  Forall (fun line => String.prefix "//" line = true) f ->
  RichHideMyEmail.__init__ (Some f) = ([], Raise IndexError)
  /\ (forall cookie_file,
         In (console_log WARN_no_cookie_file)
           (trace (RichHideMyEmail.__init__ cookie_file))
         <-> cookie_file = None)
  /\ RichHideMyEmail.__init__ None
     = ([console_log WARN_no_cookie_file], Ret None).
Proof.
  intros Hf. repeat split.
  - unfold RichHideMyEmail.__init__.
    assert (List.filter (fun line => negb (String.prefix "//" line)) f = [])
      as ->; [|reflexivity].
    induction Hf as [|line f Hline _ IH]; [reflexivity|].
    cbn. rewrite Hline. exact IH.
  - destruct cookie_file as [g|]; [|reflexivity].
    unfold RichHideMyEmail.__init__.
    destruct (List.filter _ g); cbn; intros [].
  - intros ->. cbn. auto.
Qed.
Lemma cookie_file_without_cookie_witness :
  RichHideMyEmail.__init__ (Some ["// cookies"; "//"]) = ([], Raise IndexError)
  /\ RichHideMyEmail.__init__ (Some []) = ([], Raise IndexError).
Proof.
  split.
  - apply (cookie_file_without_cookie ["// cookies"; "//"]).
    repeat constructor.
  - apply (cookie_file_without_cookie []). constructor.
Defined.

Lemma Forall2_map_In {A B} (R : A -> B -> Prop) (f : A -> B) (l : list A) :
  (forall a, In a l -> R a (f a)) -> Forall2 R l (map f l).
Proof.
  induction l as [|a l IH]; intros H; cbn; constructor.
  - apply H. left. reflexivity.
  - apply IH. intros a' Ha'. apply H. right. exact Ha'.
Qed.

Lemma first_raised_In {A} (tasks : list (task A)) :
  forall j T i e,
    first_raised j tasks = Some (T, i, e) ->
    exists x, In x tasks /\ result (fst x) = Raise e.
Proof.
  induction tasks as [|x tasks IH]; intros j T i e; cbn [first_raised];
    [discriminate|].
  destruct (result (fst x)) as [a|e0] eqn:Hx.
  - intros H. destruct (IH _ _ _ _ H) as (y & Hy & He).
    exists y. split; [right; exact Hy | exact He].
  - destruct (first_raised (S j) tasks) as [[[T' i'] e']|] eqn:Hl.
    + destruct (T' <? ends_at x)%nat.
      * intros [= <- <- <-]. destruct (IH _ _ _ _ Hl) as (y & Hy & He).
        exists y. split; [right; exact Hy | exact He].
      * intros [= <- <- <-]. exists x. split; [left; reflexivity | exact Hx].
    + intros [= <- <- <-]. exists x. split; [left; reflexivity | exact Hx].
Qed.

(** A wave that raises raises the exception of one of its tasks. *)
Lemma generate_raised (P : platform) (remote : nat -> HideMyEmail) (num : Z)
    (e : exn) :
  result (RichHideMyEmail._generate P remote num) = Raise e ->
  exists i, (i < Z.to_nat num)%nat
            /\ result (RichHideMyEmail._generate_one P (remote i)) = Raise e.
Proof.
  rewrite generate_of_gather. unfold result at 1. cbn [snd].
  unfold gather, result at 1. cbn [snd].
  destruct (first_raised 0 (wave_tasks P remote num)) as [[[T i] e']|] eqn:Hf.
  - intros [= <-]. destruct (first_raised_In _ _ _ _ _ Hf) as (x & Hx & He).
    unfold wave_tasks in Hx. apply List.in_map_iff in Hx as (k & <- & Hk).
    apply List.in_seq in Hk. exists k. split; [lia | exact He].
  - apply first_raised_None in Hf as [l Hl]. rewrite Hl. discriminate.
Qed.

(** A wave that comes back: every task has returned, and has done all it
    does. *)
Lemma generate_returned (P : platform) (remote : nat -> HideMyEmail) (num : Z)
    (batch : list pyval) :
  result (RichHideMyEmail._generate P remote num) = Ret batch ->
  exists results,
    map (fun i => result (RichHideMyEmail._generate_one P (remote i)))
      (seq 0 (Z.to_nat num))
    = map Ret results
    /\ batch = List.filter is_not_None results
    /\ tasks_of (trace (RichHideMyEmail._generate P remote num))
       = map (fun i => trace (RichHideMyEmail._generate_one P (remote i)))
           (seq 0 (Z.to_nat num)).
Proof.
  intros H.
  destruct (gather_results
              (map (fun i => result (RichHideMyEmail._generate_one P (remote i)))
                 (seq 0 (Z.to_nat num)))) as [results|e] eqn:Hg.
  - rewrite (generate_returns _ _ _ _ Hg) in H |- *.
    injection H as <-. exists results.
    repeat split; [apply gather_results_inv; exact Hg|].
    cbn. apply app_nil_r.
  - exfalso. rewrite generate_of_gather in H. unfold result at 1 in H.
    cbn [snd] in H. unfold gather, result at 1 in H. cbn [snd] in H.
    destruct (first_raised 0 (wave_tasks P remote num)) as [[[T i] e']|] eqn:Hf;
      [discriminate|].
    rewrite wave_results, Hg in H. discriminate.
Qed.

Lemma filter_returned (P : platform) (remote : nat -> HideMyEmail)
    (l : list nat) (results : list pyval) :
  map (fun i => result (RichHideMyEmail._generate_one P (remote i))) l
  = map Ret results ->
  List.filter is_not_None results
  = List.filter is_not_None (omap (fun i => provisioned (remote i)) l).
Proof.
  revert results. induction l as [|i l IH]; intros [|v results]; cbn [map];
    try discriminate; [reflexivity|].
  intros [= Hv Hrest]. specialize (IH _ Hrest).
  cbn [List.filter omap list_omap].
  destruct (is_not_None v) eqn:Hnn.
  - rewrite (returns_provisioned _ _ _ Hv Hnn). cbn [List.filter].
    rewrite Hnn, IH. reflexivity.
  - destruct (provisioned (remote i)) as [w|] eqn:Hp; [|exact IH].
    rewrite (provisioned_returned _ _ _ _ Hp Hv) in Hnn.
    cbn [List.filter]. rewrite Hnn. exact IH.
Qed.

Lemma returned_attempts (P : platform) (self : HideMyEmail) (v : pyval) :
  result (RichHideMyEmail._generate_one P self) = Ret v ->
  reserve_attempts (trace (RichHideMyEmail._generate_one P self))
  = match created self with Some _ => 1%nat | None => 0%nat end.
Proof.
  intros Hv. pose proof (generate_one_attempts P self) as H.
  unfold attempts in H. injection H as _ H. rewrite H.
  destruct (created self) as [email|] eqn:Hc; [|reflexivity].
  unfold renders.
  destruct (console_renders P (generated_50 email)) as [[]|e] eqn:Hlog;
    [reflexivity|].
  rewrite (generate_one_unshown _ _ _ _ Hc Hlog) in Hv. discriminate.
Qed.

(** C2 fails: a wave whose answers are typed as the interface says, but in
    which a refusal carries a message that the console refuses, returns no
    batch at all; it raises. *)
Lemma batch_is_not_the_reserved :
  Forall (fun i => conforms (two_garbled i) = true) (seq 0 (Z.to_nat 5))
  /\ result (RichHideMyEmail._generate sample_platform two_garbled 5)
     = Raise MarkupError
  /\ ~ batch_is_the_reserved sample_platform two_garbled 5.
Proof.
  assert (Forall (fun i => conforms (two_garbled i) = true)
            (seq 0 (Z.to_nat 5))) as Hconf by (repeat constructor).
  assert (result (RichHideMyEmail._generate sample_platform two_garbled 5)
          = Raise MarkupError) as Hrun by reflexivity.
  repeat split; try assumption.
  intros H. specialize (H Hconf). rewrite Hrun in H. discriminate.
Qed.

(** C2, amended.  One call of the batch scheduler for [n] workers runs [n]
    tasks, in submission order; every task makes exactly one create attempt,
    and at most one reserve attempt, none unless its create phase went
    through, so that the wave makes [n] create attempts and at most [n]
    reserve attempts.  When the call returns, every task whose create phase
    went through has made its reserve attempt, and the batch holds the
    aliases of the workers whose reserve phase succeeded, in submission
    order, between 0 and [n] of them.  With answers typed as the interface
    says the call returns when the console renders the lines of the workers,
    and otherwise raises what the console raised. *)
Theorem generate_batch_attempts (P : platform) (remote : nat -> HideMyEmail)
    (n : Z) :
  0 <= n ->
  let wave := RichHideMyEmail._generate P remote n in
  let slots := seq 0 (Z.to_nat n) in
  Forall2 (fun i task =>
             create_attempts task = 1%nat
             /\ (reserve_attempts task
                 <= match created (remote i) with
                    | Some _ => 1
                    | None => 0
                    end)%nat)
    slots (tasks_of (trace wave))
  /\ Z.of_nat (create_attempts (concat (tasks_of (trace wave)))) = n
  /\ Z.of_nat (reserve_attempts (concat (tasks_of (trace wave)))) <= n
  /\ (forall batch,
         result wave = Ret batch ->
         Forall2 (fun i task =>
                    reserve_attempts task
                    = match created (remote i) with
                      | Some _ => 1%nat
                      | None => 0%nat
                      end)
           slots (tasks_of (trace wave))
         /\ batch
            = List.filter is_not_None
                (omap (fun i => provisioned (remote i)) slots)
         /\ 0 <= Z.of_nat (length batch) <= n)
  /\ (Forall (fun i => conforms (remote i) = true) slots ->
      (Forall (fun i => accepts P (remote i) = true) slots ->
       result wave = Ret (omap (fun i => provisioned (remote i)) slots))
      /\ (forall e,
             result wave = Raise e ->
             exists i m,
               (i < Z.to_nat n)%nat
               /\ In m (worker_lines (remote i))
               /\ console_renders P m = Raise e)).
Proof.
  intros Hn wave slots. unfold wave, slots.
  destruct (attempts_concat _ (wave_attempts P remote n)) as [Hc Hr].
  assert (length (tasks_of (trace (RichHideMyEmail._generate P remote n)))
          = Z.to_nat n) as Hlen.
  { rewrite tasks_of_generate, length_imap. unfold wave_tasks.
    rewrite length_map, length_seq. reflexivity. }
  rewrite Hlen in Hc, Hr.
  split; [|split; [lia|split; [lia|split]]].
  - rewrite tasks_of_generate. unfold wave_tasks at 2.
    apply Forall2_imap_map. intros j i.
    destruct (ran_attempts P (remote i)
                (first_raised 0 (wave_tasks P remote n)) j
                [generate_email_time (remote i); reserve_email_time (remote i)])
      as [H1 H2].
    split; [exact H1|].
    pose proof (generate_one_attempts P (remote i)) as H.
    unfold attempts in H. injection H as _ H.
    destruct (created (remote i)) as [email|];
      [destruct (renders P (generated_50 email))|]; lia.
  - intros batch Hb.
    destruct (generate_returned _ _ _ _ Hb) as (results & Hres & -> & Ht).
    rewrite Ht. split; [|split].
    + apply Forall2_map_In. intros i Hi.
      assert (In (result (RichHideMyEmail._generate_one P (remote i)))
                (map Ret results)) as Hin
        by (rewrite <- Hres; apply List.in_map_iff; exists i; auto).
      apply List.in_map_iff in Hin as (v & Hv & _).
      apply (returned_attempts P (remote i) v). symmetry. exact Hv.
    + apply (filter_returned P remote _ _ Hres).
    + pose proof (length_filter_le is_not_None results) as Hle.
      assert (length results = Z.to_nat n) as Hlr.
      { rewrite <- (length_map Ret results), <- Hres, length_map, length_seq.
        reflexivity. }
      lia.
  - intros Hconf. split.
    + intros Hacc. rewrite (generate_conforms P remote n Hconf Hacc).
      reflexivity.
    + intros e He. destruct (generate_raised _ _ _ _ He) as (i & Hi & Hraise).
      assert (conforms (remote i) = true) as Hci.
      { apply (proj1 (List.Forall_forall _ _) Hconf). apply List.in_seq. lia. }
      rewrite (generate_one_typed P _ Hci) in Hraise.
      apply after_lines_raises in Hraise as [Habs | (m & Hm & Hrefuse)];
        [discriminate|].
      exists i, m. auto.
Qed.

Lemma generate_batch_attempts_witness :
  Z.of_nat
    (create_attempts
       (concat
          (tasks_of
             (trace (RichHideMyEmail._generate sample_platform two_refused 5)))))
  = 5
  /\ result (RichHideMyEmail._generate sample_platform two_refused 5)
     = Ret [PStr "a@icloud.com"; PStr "a@icloud.com"; PStr "a@icloud.com"].
Proof.
  pose proof (generate_batch_attempts sample_platform two_refused 5 ltac:(lia))
    as (_ & Hc & _ & _ & Hret).
  split; [exact Hc|].
  refine (proj1 (Hret _) _); repeat constructor.
Defined.

Lemma provisioned_or_failed (self : HideMyEmail) :
  conforms self = true ->
  created self <> None ->
  match provisioned self with Some _ => false | None => true end
  = reserve_failed self.
Proof.
  unfold conforms, provisioned, reserve_failed, response_failed.
  intros Hconf Hc. destruct (created self) as [email|] eqn:Hcreated;
    [clear Hc | contradiction].
  destruct (created_inv _ _ Hcreated) as (d & res & Hg & Hs & Hr & Hh).
  rewrite Hg, Hs, Hr, Hh in Hconf.
  destruct email as [| | | |hme| |]; try discriminate.
  destruct (reserve_email self (PStr hme)) as [| | | | | |d'];
    try discriminate; [reflexivity|].
  destruct (succeeds d'); reflexivity.
Qed.

Lemma wave_with_refusals (remote : nat -> HideMyEmail) (l : list nat) :
  Forall (fun i => conforms (remote i) = true) l ->
  Forall (fun i => created (remote i) <> None) l ->
  (length (omap (fun i => provisioned (remote i)) l)
   + length (List.filter (fun i => reserve_failed (remote i)) l)
   = length l)%nat.
Proof.
  intros Hconf Hcreated.
  rewrite <- (length_omap_filter (fun i => provisioned (remote i)) l).
  f_equal. f_equal.
  induction l as [|i l IH]; [reflexivity|].
  apply Forall_cons in Hconf as [Hi Hconf].
  apply Forall_cons in Hcreated as [Hc Hcreated].
  cbn. rewrite (provisioned_or_failed _ Hi Hc), (IH Hconf Hcreated).
  reflexivity.
Qed.

(** A cycle from its first wave on, when the waves come back. *)
Lemma run_cycle (P : platform) (c : settings)
    (remotes : list (nat -> HideMyEmail)) :
  0 < MAX_CONCURRENT_TASKS c ->
  0 < COUNT_TO_GENERATE c ->
  length remotes = waves_of_cycle c ->
  Forall (conforming c) remotes ->
  Forall (accepted P c) remotes ->
  RichHideMyEmail.generate_run P c (at_generate (COUNT_TO_GENERATE c) [])
    (map completes remotes)
  = (cycle_events P c remotes, at_sleep).
Proof.
  intros HK HT Hlen Hconf Hacc.
  destruct (waves_of_cycle_bounds c HK HT) as [Hpos Hbounds].
  rewrite <- Hlen in Hpos, Hbounds.
  destruct remotes as [|r rs]; [cbn in Hpos; lia|].
  rewrite (run_cycle_any P c HK rs r (COUNT_TO_GENERATE c) [])
    by (try assumption; cbn [length] in Hbounds; lia).
  reflexivity.
Qed.

Lemma waves_of_multiple (c : settings) (n : nat) :
  0 < MAX_CONCURRENT_TASKS c ->
  COUNT_TO_GENERATE c = MAX_CONCURRENT_TASKS c * Z.of_nat n ->
  waves_of_cycle c = n.
Proof.
  intros HK Hmult. unfold waves_of_cycle. rewrite Hmult.
  replace (MAX_CONCURRENT_TASKS c * Z.of_nat n + MAX_CONCURRENT_TASKS c - 1)
    with (Z.of_nat n * MAX_CONCURRENT_TASKS c + (MAX_CONCURRENT_TASKS c - 1))
    by ring.
  rewrite Z.div_add_l by lia.
  rewrite (Z.div_small (MAX_CONCURRENT_TASKS c - 1)) by lia.
  lia.
Qed.

(** C1 fails on two counts.  With a target of 7 and a bound of 5 a cycle
    runs two waves of five workers; when one worker fails in each wave the
    cycle still collects 8 aliases, which is more than its target.  And a
    wave of five workers of which two reserve calls fail, with a message
    that the console refuses, contributes no alias and does not lower the
    countdown: it ends the loop. *)
Lemma partial_failures_can_reach_the_target :
  RichHideMyEmail.generate_run sample_platform seven_by_five
    (snd (RichHideMyEmail.while_True seven_by_five))
    (map completes [one_refused; one_refused])
  = (map (wave_event sample_platform seven_by_five) [one_refused; one_refused]
       ++ [console_log (generated_sleeping 8 30); asyncio_sleep 1800],
     at_sleep)
  /\ failures seven_by_five [one_refused] = 1%nat
  /\ ~ partial_failures_collect_less sample_platform seven_by_five
  /\ length (List.filter (fun i => reserve_failed (two_garbled i)) (seq 0 5))
     = 2%nat
  /\ RichHideMyEmail.generate_resume sample_platform main_py
       (at_generate 20 []) (completes two_garbled)
     = ([wave_event sample_platform main_py two_garbled], raised MarkupError).
Proof.
  assert (Forall (conforming seven_by_five) [one_refused; one_refused])
    as Hconf by (repeat constructor).
  assert (Forall (accepted sample_platform seven_by_five)
            [one_refused; one_refused]) as Hacc by (repeat constructor).
  split; [|split; [reflexivity|split; [|split; [reflexivity|]]]].
  - exact (run_cycle sample_platform seven_by_five [one_refused; one_refused]
             eq_refl eq_refl eq_refl Hconf Hacc).
  - intros H.
    specialize (H [one_refused; one_refused] eq_refl Hconf Hacc).
    assert (Forall (fun remote => (0 < failures seven_by_five [remote])%nat)
              [one_refused; one_refused]) as Hfail
      by (repeat constructor).
    specialize (H Hfail). vm_compute in H. discriminate.
  - unfold RichHideMyEmail.generate_resume.
    pose proof (generate_trace sample_platform main_py two_garbled) as Ht.
    assert (result (RichHideMyEmail._generate sample_platform two_garbled
                      (MAX_CONCURRENT_TASKS main_py)) = Raise MarkupError)
      as Hr by reflexivity.
    unfold trace, result in Ht, Hr.
    destruct (RichHideMyEmail._generate sample_platform two_garbled
                (MAX_CONCURRENT_TASKS main_py)) as [t r].
    cbn [fst snd] in Ht, Hr. subst. reflexivity.
Qed.

(** C1, amended.  In a cycle every wave that comes back lowers the
    countdown by the concurrency bound, whatever the wave yields.  A wave of
    five workers whose create calls all go through and of which two reserve
    calls fail yields three aliases when the console renders the lines of
    the workers, and the countdown still drops by the bound.  So a cycle
    whose target is a multiple of the bound (as 20 is of 5) runs target/bound
    waves, whatever they yield, then logs and sleeps; it collects the target
    less the workers that provisioned nothing, hence fewer than the target
    as soon as one of them failed. *)
Theorem countdown_ignores_successes (P : platform) (c : settings)
    (remotes : list (nat -> HideMyEmail)) :
  0 < MAX_CONCURRENT_TASKS c ->
  0 < COUNT_TO_GENERATE c ->
  COUNT_TO_GENERATE c = MAX_CONCURRENT_TASKS c * Z.of_nat (length remotes) ->
  Forall (conforming c) remotes ->
  Forall (accepted P c) remotes ->
  (forall count emails remote t batch,
      RichHideMyEmail._generate P remote (MAX_CONCURRENT_TASKS c)
      = (t, Ret batch) ->
      snd (RichHideMyEmail.generate_resume P c (at_generate count emails)
             (completes remote))
      = snd (RichHideMyEmail.while_count c
               (count - MAX_CONCURRENT_TASKS c) (emails ++ batch)))
  /\ (forall remote,
         Forall (fun i => conforms (remote i) = true) (seq 0 5) ->
         Forall (fun i => accepts P (remote i) = true) (seq 0 5) ->
         Forall (fun i => created (remote i) <> None) (seq 0 5) ->
         length (List.filter (fun i => reserve_failed (remote i)) (seq 0 5))
         = 2%nat ->
         exists batch,
           result (RichHideMyEmail._generate P remote 5) = Ret batch
           /\ length batch = 3%nat)
  /\ RichHideMyEmail.generate_run P c (snd (RichHideMyEmail.while_True c))
       (map completes remotes)
     = (map (wave_event P c) remotes
          ++ [console_log
                (generated_sleeping (length (collected c remotes))
                   (py_round_div (SLEEP_INTERVAL c) 60));
              asyncio_sleep (SLEEP_INTERVAL c)],
        at_sleep)
  /\ Z.of_nat (length (collected c remotes))
     = COUNT_TO_GENERATE c - Z.of_nat (failures c remotes)
  /\ ((0 < failures c remotes)%nat ->
      Z.of_nat (length (collected c remotes)) < COUNT_TO_GENERATE c).
Proof.
  intros HK HT Hmult Hconf Hacc.
  assert (Z.of_nat (length (collected c remotes))
          = COUNT_TO_GENERATE c - Z.of_nat (failures c remotes)) as Hcount.
  { pose proof (collected_failures c remotes) as H.
    apply (f_equal Z.of_nat) in H.
    rewrite Nat2Z.inj_add, Nat2Z.inj_mul, Z2Nat.id in H by lia.
    rewrite Hmult, <- H. ring. }
  split; [|split; [|split; [|split]]].
  - intros count emails remote t batch Hwave.
    rewrite (resume_wave _ _ _ _ _ _ _ Hwave). reflexivity.
  - intros remote Hc Ha Hcreated Hfailed.
    exists (omap (fun i => provisioned (remote i)) (seq 0 5)). split.
    + rewrite (generate_conforms P remote 5 Hc Ha). reflexivity.
    + pose proof (wave_with_refusals remote (seq 0 5) Hc Hcreated) as H.
      rewrite Hfailed, length_seq in H. lia.
  - unfold RichHideMyEmail.while_True.
    rewrite while_count_positive by assumption. cbn [snd].
    apply run_cycle; try assumption.
    symmetry. apply waves_of_multiple; assumption.
  - exact Hcount.
  - intros Hf. lia.
Qed.

Lemma countdown_ignores_successes_witness :
  RichHideMyEmail.generate_run sample_platform main_py
    (snd (RichHideMyEmail.while_True main_py))
    (map completes [two_refused; two_refused; two_refused; two_refused])
  = (map (wave_event sample_platform main_py)
       [two_refused; two_refused; two_refused; two_refused]
       ++ [console_log (generated_sleeping 12 30); asyncio_sleep 1800],
     at_sleep)
  /\ (exists batch,
         result (RichHideMyEmail._generate sample_platform two_refused 5)
         = Ret batch
         /\ length batch = 3%nat).
Proof.
  pose proof (countdown_ignores_successes sample_platform main_py
                [two_refused; two_refused; two_refused; two_refused]
                ltac:(reflexivity) ltac:(reflexivity) ltac:(reflexivity)
                ltac:(repeat constructor) ltac:(repeat constructor))
    as (_ & Hwave & Hcycle & _).
  split.
  - exact Hcycle.
  - apply Hwave; repeat constructor; discriminate.
Defined.

Lemma files_after_listed (rows : list (list pyval)) (t : list event)
    (files : gmap string string) :
  files_after (list_prologue ++ list_columns ++ map table_add_row rows ++ t)
    files
  = files_after t files.
Proof.
  rewrite !files_after_app, files_after_rows. reflexivity.
Qed.

(** The end of the Lister by cases: the table is refused, the file cannot
    be opened, the text cannot be written, or all is done. *)
Lemma list_finish_cases (P : platform) (rows : list (list pyval))
    (email_strings : list string) :
  let content := String.concat (os_linesep P) email_strings in
  (exists e, render_cells P (concat rows) = Raise e
             /\ RichHideMyEmail.list_finish P rows email_strings
                = ([console_print_table], Raise e))
  \/ (exists e, render_cells P (concat rows) = Ret tt
                /\ os_open_w P "emails.txt" = Raise e
                /\ RichHideMyEmail.list_finish P rows email_strings
                   = ([console_print_table], Raise e))
  \/ (exists e, render_cells P (concat rows) = Ret tt
                /\ os_open_w P "emails.txt" = Ret tt
                /\ os_write P content = Raise e
                /\ RichHideMyEmail.list_finish P rows email_strings
                   = ([console_print_table; file_open_w "emails.txt"],
                      Raise e))
  \/ (render_cells P (concat rows) = Ret tt
      /\ os_open_w P "emails.txt" = Ret tt
      /\ os_write P content = Ret tt
      /\ RichHideMyEmail.list_finish P rows email_strings
         = ([console_print_table; file_open_w "emails.txt";
             file_write "emails.txt" content;
             console_log written_to_emails_txt], Ret tt)).
Proof.
  intros content.
  destruct (render_cells P (concat rows)) as [[]|e] eqn:Hp.
  2:{ left. exists e. split; [reflexivity|].
      apply list_finish_unprinted. exact Hp. }
  right. destruct (os_open_w P "emails.txt") as [[]|e] eqn:Ho.
  2:{ left. exists e. repeat split.
      apply list_finish_unopened; assumption. }
  right. destruct (os_write P content) as [[]|e] eqn:Hw.
  2:{ left. exists e. repeat split.
      apply list_finish_unwritten; assumption. }
  right. repeat split. apply list_finish_written; assumption.
Qed.

Lemma rows_added_finish (P : platform) (rows : list (list pyval))
    (email_strings : list string) :
  rows_added (trace (RichHideMyEmail.list_finish P rows email_strings)) = [].
Proof.
  destruct (list_finish_cases P rows email_strings)
    as [(e & _ & ->) | [(e & _ & _ & ->) | [(e & _ & _ & _ & ->)
                                            | (_ & _ & _ & ->)]]];
    reflexivity.
Qed.

(** C5 fails: with one record whose label has a closing tag that closes
    nothing, the run that shows the record raises when the table is printed
    and leaves the files as they were, while the run that does not show it
    writes the export. *)
Lemma export_depends_on_filter :
  RichHideMyEmail.list sample_platform tagged true None
  = (list_prologue ++ list_columns
       ++ [table_add_row [PStr "shop [/sale]"; PStr "s@icloud.com";
                          PStr "2001-09-09 01:46"; PStr "Active"];
           console_print_table],
     Raise MarkupError)
  /\ files_after
       (trace (RichHideMyEmail.list sample_platform tagged true None)) ∅
     = ∅
  /\ files_after
       (trace (RichHideMyEmail.list sample_platform tagged false None)) ∅
     !! "emails.txt"
     = Some "shop [/sale];s@icloud.com;2001-09-09 01:46;Active"
  /\ ~ export_is_independent_of_filter sample_platform tagged.
Proof.
  assert (files_after
            (trace (RichHideMyEmail.list sample_platform tagged true None)) ∅
          = ∅) as Hshown by (vm_compute; reflexivity).
  assert (files_after
            (trace (RichHideMyEmail.list sample_platform tagged false None)) ∅
          !! "emails.txt"
          = Some "shop [/sale];s@icloud.com;2001-09-09 01:46;Active")
    as Hhidden by (vm_compute; reflexivity).
  split; [vm_compute; reflexivity|].
  split; [exact Hshown|]. split; [exact Hhidden|].
  intros H. specialize (H true None false None ∅).
  rewrite <- H, Hshown in Hhidden. rewrite lookup_empty in Hhidden.
  discriminate Hhidden.
Qed.

(** C5, amended.  After a list fetch that succeeds, with records typed as
    the interface says and label patterns that are regular expressions, the
    table holds the records that pass the filter, and the run returns
    exactly when rich renders that table and the export file can be opened
    and written.  A run that returns leaves in the export file one row per
    fetched record, in the order of the fetch, whatever its filter was: two
    runs over the same records that both return leave the same files, and
    the number of rows is the number of records, while the table may show
    fewer.  A run whose table is refused raises and leaves the files as they
    were. *)
Theorem export_ignores_filter (P : platform) (self : HideMyEmail)
    (d res : gmap string pyval) (records : list pyval) (aliases : list alias) :
  list_email self = PDict d ->
  succeeds d = true ->
  d !! "result" = Some (PDict res) ->
  res !! "hmeEmails" = Some (PList records) ->
  Forall2 (fun email a => as_alias P email = Some a) records aliases ->
  forall active1 search1 found1 active2 search2 found2 files,
    compiled P search1 = Some found1 ->
    compiled P search2 = Some found2 ->
    let list1 := RichHideMyEmail.list P self active1 search1 in
    let list2 := RichHideMyEmail.list P self active2 search2 in
    let content := String.concat (os_linesep P) (map export_row aliases) in
    let rows1 :=
      map table_row (List.filter (shown active1 found1) aliases) in
    (result list1 = Ret tt
     <-> render_cells P (concat rows1) = Ret tt
         /\ os_open_w P "emails.txt" = Ret tt
         /\ os_write P content = Ret tt)
    /\ (result list1 = Ret tt ->
        files_after (trace list1) files = <["emails.txt" := content]> files)
    /\ (result list1 = Ret tt -> result list2 = Ret tt ->
        files_after (trace list1) files = files_after (trace list2) files)
    /\ (forall e,
           render_cells P (concat rows1) = Raise e ->
           result list1 = Raise e /\ files_after (trace list1) files = files)
    /\ length (map export_row aliases) = length records
    /\ rows_added (trace list1) = rows1
    /\ (length (rows_added (trace list1)) <= length records)%nat.
Proof.
  intros Hl Hs Hr Hh Hrec active1 search1 found1 active2 search2 found2 files
    H1 H2 list1 list2 content rows1.
  assert (forall activeFilter search found,
             compiled P search = Some found ->
             result (RichHideMyEmail.list P self activeFilter search) = Ret tt ->
             files_after
               (trace (RichHideMyEmail.list P self activeFilter search)) files
             = <["emails.txt" := content]> files) as Hfile.
  { intros activeFilter search found Hc.
    rewrite (list_typed P self activeFilter search found d res records aliases)
      by assumption.
    unfold trace, result. cbn [fst snd].
    rewrite files_after_listed.
    destruct (list_finish_cases P
                (map table_row (List.filter (shown activeFilter found) aliases))
                (map export_row aliases))
      as [(e & _ & ->) | [(e & _ & _ & ->) | [(e & _ & _ & _ & ->)
                                              | (_ & _ & _ & ->)]]];
      cbn [fst snd]; try discriminate.
    intros _. cbn. apply insert_insert_eq. }
  unfold list1, list2.
  pose proof (list_typed P self active1 search1 found1 d res records aliases
                Hl Hs Hr Hh Hrec H1) as Hrun.
  cbv zeta in Hrun. fold rows1 in Hrun.
  pose proof (Forall2_length _ _ _ Hrec) as Hlen.
  assert (rows_added (trace (RichHideMyEmail.list P self active1 search1))
          = rows1) as Hrows.
  { rewrite Hrun. unfold trace at 1. cbn [fst].
    rewrite !rows_added_app, rows_added_rows, rows_added_finish. cbn.
    apply app_nil_r. }
  split; [|split; [|split; [|split; [|split; [|split]]]]].
  - rewrite Hrun. unfold result. cbn [snd].
    destruct (list_finish_cases P rows1 (map export_row aliases))
      as [(e & Hp & ->) | [(e & Hp & Ho & ->) | [(e & Hp & Ho & Hw & ->)
                                                 | (Hp & Ho & Hw & ->)]]];
      unfold content; cbn [snd]; split; try discriminate; auto.
    + intros (Hp' & _). rewrite Hp in Hp'. discriminate.
    + intros (_ & Ho' & _). rewrite Ho in Ho'. discriminate.
    + intros (_ & _ & Hw'). rewrite Hw in Hw'. discriminate.
  - apply (Hfile active1 search1 found1 H1).
  - intros Hret1 Hret2.
    rewrite (Hfile active1 search1 found1 H1 Hret1).
    rewrite (Hfile active2 search2 found2 H2 Hret2). reflexivity.
  - intros e Hp. rewrite Hrun.
    rewrite (list_finish_unprinted _ _ _ _ Hp).
    unfold trace, result. cbn [fst snd]. split; [reflexivity|].
    rewrite files_after_listed. reflexivity.
  - rewrite length_map. symmetry. exact Hlen.
  - exact Hrows.
  - rewrite Hrows. unfold rows1. rewrite !length_map.
    pose proof (length_filter_le (shown active1 found1) aliases). lia.
Qed.

Lemma export_ignores_filter_witness :
  files_after
    (trace (RichHideMyEmail.list sample_platform listing true (Some "shop"))) ∅
  = files_after
      (trace (RichHideMyEmail.list sample_platform listing false None)) ∅
  /\ length
       (rows_added
          (trace (RichHideMyEmail.list sample_platform listing true
                    (Some "shop"))))
     = 1%nat
  /\ files_after
       (trace (RichHideMyEmail.list sample_platform listing true (Some "shop")))
       ∅ !! "emails.txt"
     = Some ("shop;s@icloud.com;2001-09-09 01:46;Active" ++ newline
             ++ "bank;b@icloud.com;1970-01-01 00:00;Inactive" ++ newline
             ++ "news;n@icloud.com;2001-09-09 01:46;Inactive")%string.
Proof.
  pose proof (export_ignores_filter sample_platform listing
                (list_to_map
                   [("success", PBool true);
                    ("result", envelope [("hmeEmails", PList three_records)])])
                (list_to_map [("hmeEmails", PList three_records)])
                three_records
                [ {| label := "shop"; address := "s@icloud.com";
                     createdAt := "2001-09-09 01:46"; active := true |};
                  {| label := "bank"; address := "b@icloud.com";
                     createdAt := "1970-01-01 00:00"; active := false |};
                  {| label := "news"; address := "n@icloud.com";
                     createdAt := "2001-09-09 01:46"; active := false |} ]
                eq_refl eq_refl eq_refl eq_refl
                ltac:(repeat constructor)
                true (Some "shop") (is_substring "shop")
                false None (fun _ => true) ∅ eq_refl eq_refl)
    as (_ & Hfile & Hsame & _ & _ & Hrows & _).
  assert (result (RichHideMyEmail.list sample_platform listing true
                    (Some "shop")) = Ret tt) as Hret1
    by (vm_compute; reflexivity).
  assert (result (RichHideMyEmail.list sample_platform listing false None)
          = Ret tt) as Hret2
    by (vm_compute; reflexivity).
  split; [exact (Hsame Hret1 Hret2)|]. split.
  - rewrite Hrows. reflexivity.
  - rewrite (Hfile Hret1). vm_compute. reflexivity.
Defined.






(** C7 fails: with a target of 7 and a bound of 5 the second wave starts at a
    countdown of 2 and still asks for 5 workers. *)
Lemma wave_is_not_min_of_bound_and_countdown :
  snd (RichHideMyEmail.generate sample_platform seven_by_five
         [completes (fun _ => silent)])
  = at_generate 2 []
  /\ wave_size sample_platform seven_by_five (at_generate 2 [])
       (fun _ => silent) = 5%nat
  /\ ~ wave_is_min_of_bound_and_countdown sample_platform seven_by_five.
Proof.
  split; [vm_compute; reflexivity|]. split; [vm_compute; reflexivity|].
  intros H.
  assert (snd (RichHideMyEmail.generate sample_platform seven_by_five
                 [completes (fun _ => silent)]) = at_generate 2 []) as Hs
    by (vm_compute; reflexivity).
  specialize (H [completes (fun _ => silent)] 2 [] (fun _ => silent) Hs).
  vm_compute in H. discriminate H.
Qed.

(** C7, amended.  Every wave asks for exactly the concurrency bound of
    workers, whatever the countdown is; when the target is a multiple of the
    bound (as 20 is of 5) the countdown of a wave is never below the bound,
    and the bound is then the smaller of the two. *)
Theorem wave_size_is_the_bound (P : platform) (c : settings)
    (rs : list resumption) (count : Z) (emails : list pyval)
    (remote : nat -> HideMyEmail) :
  0 <= MAX_CONCURRENT_TASKS c ->
  Z.of_nat (wave_size P c (at_generate count emails) remote)
  = MAX_CONCURRENT_TASKS c
  /\ ((MAX_CONCURRENT_TASKS c | COUNT_TO_GENERATE c) ->
      snd (RichHideMyEmail.generate P c rs) = at_generate count emails ->
      MAX_CONCURRENT_TASKS c <= count
      /\ Z.of_nat (wave_size P c (at_generate count emails) remote)
         = Z.min (MAX_CONCURRENT_TASKS c) count).
Proof.
  intros HK.
  assert (Z.of_nat (wave_size P c (at_generate count emails) remote)
          = MAX_CONCURRENT_TASKS c) as Hsize
    by (rewrite wave_size_bound; apply Z2Nat.id; assumption).
  split; [exact Hsize|]. intros Hdiv Hreach.
  assert (0 < count /\ (MAX_CONCURRENT_TASKS c | count)) as [Hpos Hc].
  { revert count emails Hreach Hsize. rewrite generate_state_of.
    intros count emails Hreach _. revert count emails Hreach.
    apply (generate_run_invariant P c
             (fun s => forall count emails, s = at_generate count emails ->
                         0 < count /\ (MAX_CONCURRENT_TASKS c | count))
             (fun _ => True)).
    - intros s r Hs _. apply resume_divides; assumption.
    - intros count emails. unfold RichHideMyEmail.generate_enter.
      cbn [snd]. unfold RichHideMyEmail.while_True, RichHideMyEmail.while_count.
      destruct (Z.gtb_spec (COUNT_TO_GENERATE c) 0); cbn; [|discriminate].
      intros [= <- <-]. split; [lia | assumption].
    - apply List.Forall_forall. auto. }
  assert (MAX_CONCURRENT_TASKS c <= count) as Hle.
  { apply Z.divide_pos_le; assumption. }
  split; [exact Hle|]. rewrite Hsize. lia.
Qed.

Lemma wave_size_is_the_bound_witness :
  Z.of_nat (wave_size sample_platform main_py (at_generate 15 []) two_refused)
  = Z.min 5 15.
Proof.
  refine (proj2 (proj2 (wave_size_is_the_bound sample_platform main_py
                          [completes (fun _ => silent)] 15 [] two_refused _)
                   _ _));
    [discriminate | exists 4; reflexivity | vm_compute; reflexivity].
Defined.

(** C8 fails: when the list call answers nothing, the Lister returns without
    logging anything. *)
Lemma failed_fetch_is_not_logged :
  response_failed (list_email silent) = true
  /\ logged (trace (RichHideMyEmail.list sample_platform silent true None)) = []
  /\ ~ failed_fetch_is_logged sample_platform silent true None.
Proof.
  split; [reflexivity|]. split; [reflexivity|].
  intros H. destruct (H eq_refl) as [err_msg []].
Qed.

(** C8, amended.  A Lister run whose list fetch fails writes nothing: the
    files are as they were.  When the answer is empty it returns at once and
    hands nothing to the console; when the answer is an envelope whose
    [success] is false or absent it hands the message that the dual-shape
    rule extracts to the console, and returns, unless the console refuses
    the line, in which case it raises what the console raised. *)
Theorem failed_fetch_leaves_export (P : platform) (self : HideMyEmail)
    (activeFilter : bool) (search : option string)
    (files : gmap string string) :
  response_failed (list_email self) = true ->
  let run := RichHideMyEmail.list P self activeFilter search in
  files_after (trace run) files = files
  /\ (py_bool (list_email self) = false -> run = (list_prologue, Ret tt))
  /\ (forall d,
         list_email self = PDict d -> py_bool (PDict d) = true ->
         run = (list_prologue
                  ++ [console_log
                        (ERR_failed_to_generate (dual_shape_message d))],
                and_then
                  (console_renders P
                     (ERR_failed_to_generate (dual_shape_message d)))
                  (Ret tt)))
  /\ (py_bool (list_email self) = false -> logged (trace run) = [])
  /\ (forall d, list_email self = PDict d -> py_bool (PDict d) = true ->
                logged (trace run)
                = [ERR_failed_to_generate (dual_shape_message d)]).
Proof.
  intros Hf run. unfold run.
  destruct (py_bool (list_email self)) eqn:Ht.
  - unfold response_failed in Hf.
    destruct (list_email self) as [| | | | | |d] eqn:Hl;
      try (rewrite Ht in Hf; discriminate Hf).
    apply Bool.negb_true_iff in Hf.
    rewrite (list_failed P self activeFilter search d Hl Ht Hf).
    split; [reflexivity|]. split; [discriminate|].
    split; [intros d' [= <-] _; reflexivity|].
    split; [discriminate|]. intros d' [= <-] _. reflexivity.
  - rewrite (list_empty P self activeFilter search Ht).
    split; [reflexivity|]. split; [reflexivity|].
    split; [|split; [reflexivity|]];
      intros d Hl Ht'; rewrite Hl in Ht; rewrite Ht in Ht'; discriminate Ht'.
Qed.

Lemma failed_fetch_leaves_export_witness :
  files_after
    (trace (RichHideMyEmail.list sample_platform refusing true None))
    (<["emails.txt" := "kept"]> ∅)
  = <["emails.txt" := "kept"]> ∅
  /\ logged (trace (RichHideMyEmail.list sample_platform refusing true None))
     = [ERR_failed_to_generate (PStr "limit reached")].
Proof.
  pose proof (failed_fetch_leaves_export sample_platform refusing true None
                (<["emails.txt" := "kept"]> ∅) eq_refl)
    as (Hfiles & _ & _ & _ & Hlog).
  split; [exact Hfiles|].
  exact (Hlog _ eq_refl eq_refl).
Defined.

(** * Beyond the claims *)

(** *** The worker and the wave, for any answers *)

(** X1.  Whatever the service answers, a worker hands back an address that
    is not [None] exactly when its create phase yielded that address, its
    reserve call then answered with a success envelope, and the console
    rendered the two lines that show the address. *)
Theorem worker_returns_what_it_reserved (P : platform) (self : HideMyEmail)
    (v : pyval) :
  is_not_None v = true ->
  (result (RichHideMyEmail._generate_one P self) = Ret v
   <-> provisioned self = Some v
       /\ renders P (generated_50 v) = true
       /\ renders P (reserved_100 v) = true).
Proof.
  intros Hnn. split.
  - intros H. pose proof (returns_provisioned P self v H Hnn) as Hp.
    split; [exact Hp|].
    rewrite (provisioned_result P self v Hp) in H. cbn [after_lines] in H.
    unfold renders.
    destruct (console_renders P (generated_50 v)) as [[]|];
      [|discriminate H].
    destruct (console_renders P (reserved_100 v)) as [[]|];
      [|discriminate H].
    split; reflexivity.
  - intros (Hp & H50 & H100). rewrite (provisioned_result P self v Hp).
    cbn [after_lines].
    rewrite (renders_Ret _ _ H50), (renders_Ret _ _ H100). reflexivity.
Qed.

Lemma worker_returns_what_it_reserved_witness :
  result (RichHideMyEmail._generate_one sample_platform obliging)
  = Ret (PStr "a@icloud.com").
Proof.
  apply (worker_returns_what_it_reserved sample_platform obliging
           (PStr "a@icloud.com")); [reflexivity|].
  repeat split.
Defined.

(** X2.  Whatever the service answers, a batch that [_generate] returns
    holds exactly the addresses, other than [None], that were created and
    then reserved, in submission order. *)
Theorem batch_is_what_was_reserved (P : platform)
    (remote : nat -> HideMyEmail) (num : Z) (batch : list pyval) :
  result (RichHideMyEmail._generate P remote num) = Ret batch ->
  batch
  = List.filter is_not_None
      (omap (fun i => provisioned (remote i)) (seq 0 (Z.to_nat num)))
  /\ Forall (fun v => exists i, (i < Z.to_nat num)%nat
                                /\ provisioned (remote i) = Some v) batch.
Proof.
  intros Hb. destruct (generate_returned _ _ _ _ Hb) as (results & Hg & -> & _).
  rewrite (filter_returned _ _ _ _ Hg). split; [reflexivity|].
  apply List.Forall_forall. intros v Hv.
  apply List.filter_In in Hv as [Hv _].
  apply list_elem_of_In, list_elem_of_omap in Hv as (i & Hi & Hp).
  apply list_elem_of_In, List.in_seq in Hi. exists i. split; [lia | assumption].
Qed.

Lemma batch_is_what_was_reserved_witness :
  [PStr "a@icloud.com"; PStr "a@icloud.com"; PStr "a@icloud.com"]
  = List.filter is_not_None
      (omap (fun i => provisioned (two_refused i)) (seq 0 (Z.to_nat 5))).
Proof.
  assert (result (RichHideMyEmail._generate sample_platform two_refused 5)
          = Ret [PStr "a@icloud.com"; PStr "a@icloud.com"; PStr "a@icloud.com"])
    as Hret by (vm_compute; reflexivity).
  exact (proj1 (batch_is_what_was_reserved sample_platform two_refused 5 _
                  Hret)).
Defined.

(** X3.  When one task of a wave raises, [_generate] raises as well and
    returns no batch, although every task of the wave has made its create
    attempt. *)
Theorem wave_raises_with_its_task (P : platform)
    (remote : nat -> HideMyEmail) (num : Z) (i : nat) (e : exn) :
  (i < Z.to_nat num)%nat ->
  result (RichHideMyEmail._generate_one P (remote i)) = Raise e ->
  (exists e', result (RichHideMyEmail._generate P remote num) = Raise e')
  /\ create_attempts
       (concat (tasks_of (trace (RichHideMyEmail._generate P remote num))))
     = Z.to_nat num.
Proof.
  intros Hi He. split.
  - destruct (gather_raises (wave_tasks P remote num)
                (RichHideMyEmail._generate_one P (remote i),
                 [generate_email_time (remote i);
                  reserve_email_time (remote i)]) e) as [e' He'].
    + unfold wave_tasks. apply List.in_map_iff. exists i.
      split; [reflexivity|]. apply List.in_seq. lia.
    + exact He.
    + exists e'. rewrite generate_of_gather. unfold result at 1. cbn [snd].
      rewrite He'. reflexivity.
  - destruct (attempts_concat _ (wave_attempts P remote num)) as [Hc _].
    rewrite Hc, tasks_of_generate, length_imap. unfold wave_tasks.
    rewrite length_map, length_seq. reflexivity.
Qed.

Lemma wave_raises_with_its_task_witness :
  (exists e',
      result (RichHideMyEmail._generate sample_platform
                (fun i => if (i =? 3)%nat then hollow else obliging) 5)
      = Raise e')
  /\ create_attempts
       (concat
          (tasks_of
             (trace (RichHideMyEmail._generate sample_platform
                       (fun i => if (i =? 3)%nat then hollow else obliging)
                       5))))
     = 5%nat.
Proof.
  apply (wave_raises_with_its_task sample_platform
           (fun i => if (i =? 3)%nat then hollow else obliging) 5 3
           (KeyError "result")).
  - vm_compute. lia.
  - vm_compute. reflexivity.
Defined.

(** *** The poll loop, off the shipped constants *)

(** X4.  An exception of one task ends the poll loop: the wave is the last
    thing it does.  It neither logs what the cycle had collected nor sleeps,
    and no later resumption brings it back. *)
Theorem poll_loop_dies_with_a_task (P : platform) (c : settings) (count : Z)
    (emails : list pyval) (remote : nat -> HideMyEmail) (i : nat) (e : exn)
    (rs : list resumption) :
  (i < Z.to_nat (MAX_CONCURRENT_TASKS c))%nat ->
  result (RichHideMyEmail._generate_one P (remote i)) = Raise e ->
  exists e',
    RichHideMyEmail.generate_run P c (at_generate count emails)
      (completes remote :: rs)
    = ([wave_event P c remote], raised e').
Proof.
  intros Hi He.
  destruct (gather_raises (wave_tasks P remote (MAX_CONCURRENT_TASKS c))
              (RichHideMyEmail._generate_one P (remote i),
               [generate_email_time (remote i);
                reserve_email_time (remote i)]) e) as [e' He'].
  { unfold wave_tasks. apply List.in_map_iff. exists i.
    split; [reflexivity|]. apply List.in_seq. lia. }
  { exact He. }
  exists e'. cbn [RichHideMyEmail.generate_run].
  assert (RichHideMyEmail.generate_resume P c (at_generate count emails)
            (completes remote) = ([wave_event P c remote], raised e')) as ->.
  { unfold RichHideMyEmail.generate_resume.
    rewrite generate_of_gather, He'. reflexivity. }
  cbn [fst snd]. rewrite run_raised. reflexivity.
Qed.

Lemma poll_loop_dies_with_a_task_witness :
  exists e',
    RichHideMyEmail.generate_run sample_platform main_py
      (at_generate 10 [PStr "a@icloud.com"])
      [completes (fun i => if (i =? 3)%nat then hollow else obliging);
       completes (fun _ => obliging); KeyboardInterrupt (fun _ => obliging)]
    = ([wave_event sample_platform main_py
          (fun i => if (i =? 3)%nat then hollow else obliging)],
       raised e').
Proof.
  apply (poll_loop_dies_with_a_task sample_platform main_py 10
           [PStr "a@icloud.com"]
           (fun i => if (i =? 3)%nat then hollow else obliging) 3
           (KeyError "result")).
  - vm_compute. lia.
  - vm_compute. reflexivity.
Defined.

Lemma create_attempts_waves (P : platform) (c : settings)
    (remotes : list (nat -> HideMyEmail)) :
  create_attempts (concat (tasks_of (map (wave_event P c) remotes)))
  = (Z.to_nat (MAX_CONCURRENT_TASKS c) * length remotes)%nat.
Proof.
  induction remotes as [|r rs IH]; [cbn; lia|].
  change (map (wave_event P c) (r :: rs))
    with ([wave_event P c r] ++ map (wave_event P c) rs).
  rewrite tasks_of_app, concat_app.
  unfold create_attempts in *. rewrite List.filter_app, length_app, IH.
  rewrite <- (generate_trace P c r).
  destruct (attempts_concat _ (wave_attempts P r (MAX_CONCURRENT_TASKS c)))
    as [Hc _].
  unfold create_attempts in Hc. rewrite Hc, generate_trace.
  rewrite tasks_of_wave_event. cbn [length]. lia.
Qed.

(** X5.  For any positive target and bound, a cycle whose waves come back
    (answers typed as the interface says, lines that the console renders)
    runs the target over the bound, rounded up, waves of a full bound of
    workers each, whatever the waves yield, and then logs and sleeps.  It
    therefore makes at least the target and fewer than target plus bound
    create attempts, and the cycle after a sleep is the same function of the
    answers as the first one. *)
Theorem cycle_runs_ceiling_waves (P : platform) (c : settings)
    (remotes : list (nat -> HideMyEmail)) (wake : nat -> HideMyEmail) :
  0 < MAX_CONCURRENT_TASKS c ->
  0 < COUNT_TO_GENERATE c ->
  length remotes = waves_of_cycle c ->
  Forall (conforming c) remotes ->
  Forall (accepted P c) remotes ->
  let cycle :=
    map (wave_event P c) remotes
      ++ [console_log
            (generated_sleeping (length (collected c remotes))
               (py_round_div (SLEEP_INTERVAL c) 60));
          asyncio_sleep (SLEEP_INTERVAL c)] in
  RichHideMyEmail.generate_run P c (snd (RichHideMyEmail.while_True c))
    (map completes remotes) = (cycle, at_sleep)
  /\ RichHideMyEmail.generate_run P c at_sleep
       (completes wake :: map completes remotes) = (cycle, at_sleep)
  /\ COUNT_TO_GENERATE c
     <= Z.of_nat (create_attempts (concat (tasks_of cycle)))
     < COUNT_TO_GENERATE c + MAX_CONCURRENT_TASKS c.
Proof.
  intros HK HT Hlen Hconf Hacc cycle.
  destruct (waves_of_cycle_bounds c HK HT) as [Hpos Hbounds].
  rewrite <- Hlen in Hpos, Hbounds.
  assert (RichHideMyEmail.while_True c
          = ([], at_generate (COUNT_TO_GENERATE c) [])) as Hstart
    by (unfold RichHideMyEmail.while_True; apply while_count_positive;
        assumption).
  pose proof (run_cycle P c remotes HK HT Hlen Hconf Hacc) as Hrun.
  change (cycle_events P c remotes) with cycle in Hrun.
  assert (Z.of_nat (create_attempts (concat (tasks_of cycle)))
          = MAX_CONCURRENT_TASKS c * Z.of_nat (length remotes)) as Hattempts.
  { unfold cycle. rewrite tasks_of_app. cbn [tasks_of flat_map].
    rewrite app_nil_r. fold (tasks_of (map (wave_event P c) remotes)).
    rewrite create_attempts_waves, Nat2Z.inj_mul, Z2Nat.id by lia.
    reflexivity. }
  split; [|split].
  - rewrite Hstart. exact Hrun.
  - cbn [RichHideMyEmail.generate_run RichHideMyEmail.generate_resume].
    rewrite Hstart. cbn [fst snd]. rewrite Hrun. reflexivity.
  - rewrite Hattempts. lia.
Qed.

Lemma cycle_runs_ceiling_waves_witness :
  RichHideMyEmail.generate_run sample_platform seven_by_five
    (snd (RichHideMyEmail.while_True seven_by_five))
    (map completes [two_refused; fun _ => obliging])
  = (map (wave_event sample_platform seven_by_five)
       [two_refused; fun _ => obliging]
       ++ [console_log (generated_sleeping 8 30); asyncio_sleep 1800],
     at_sleep).
Proof.
  refine (proj1 (cycle_runs_ceiling_waves sample_platform seven_by_five
                   [two_refused; fun _ => obliging] (fun _ => silent)
                   _ _ _ _ _));
    [reflexivity | reflexivity | reflexivity | repeat constructor
    | repeat constructor].
Defined.

Lemma run_idle (P : platform) (c : settings) (rs : list resumption) :
  COUNT_TO_GENERATE c <= 0 ->
  Forall (fun r => is_completes r = true) rs ->
  RichHideMyEmail.generate_run P c at_sleep rs
  = (concat
       (repeat [console_log
                  (generated_sleeping 0 (py_round_div (SLEEP_INTERVAL c) 60));
                asyncio_sleep (SLEEP_INTERVAL c)] (length rs)),
     at_sleep).
Proof.
  intros HT. induction 1 as [|r rs Hr _ IH]; [reflexivity|].
  destruct r as [remote|remote]; [|discriminate].
  cbn [RichHideMyEmail.generate_run RichHideMyEmail.generate_resume].
  unfold RichHideMyEmail.while_True. rewrite while_count_done by assumption.
  cbn [fst snd]. rewrite IH. reflexivity.
Qed.

(** X6.  With a target that is not positive the poll loop never calls the
    service: it logs that it generated 0 and sleeps, once on entry and once
    each time it is woken. *)
Theorem idle_without_target (P : platform) (c : settings)
    (rs : list resumption) :
  COUNT_TO_GENERATE c <= 0 ->
  Forall (fun r => is_completes r = true) rs ->
  RichHideMyEmail.generate P c rs
  = ([console_rule; console_status "Generating iCloud emails..."]
       ++ concat
            (repeat [console_log
                       (generated_sleeping 0
                          (py_round_div (SLEEP_INTERVAL c) 60));
                     asyncio_sleep (SLEEP_INTERVAL c)] (S (length rs))),
     at_sleep).
Proof.
  intros HT Hrs.
  unfold RichHideMyEmail.generate, RichHideMyEmail.generate_enter,
    RichHideMyEmail.while_True.
  rewrite while_count_done by assumption. cbn [fst snd].
  rewrite (run_idle P c rs HT Hrs). cbn [fst snd repeat concat].
  rewrite <- !app_assoc. reflexivity.
Qed.

Lemma idle_without_target_witness :
  RichHideMyEmail.generate sample_platform
    {| MAX_CONCURRENT_TASKS := 5; SLEEP_INTERVAL := 90;
       COUNT_TO_GENERATE := 0 |}
    [completes (fun _ => obliging)]
  = ([console_rule; console_status "Generating iCloud emails...";
      console_log (generated_sleeping 0 2); asyncio_sleep 90;
      console_log (generated_sleeping 0 2); asyncio_sleep 90],
     at_sleep).
Proof.
  apply (idle_without_target sample_platform
           {| MAX_CONCURRENT_TASKS := 5; SLEEP_INTERVAL := 90;
              COUNT_TO_GENERATE := 0 |} [completes (fun _ => obliging)]).
  - discriminate.
  - repeat constructor.
Defined.

Lemma generate_no_task (P : platform) (remote : nat -> HideMyEmail)
    (num : Z) :
  num <= 0 ->
  RichHideMyEmail._generate P remote num = ([asyncio_gather []], Ret []).
Proof.
  intros H. unfold RichHideMyEmail._generate.
  assert (Z.to_nat num = 0%nat) as -> by lia. reflexivity.
Qed.

Lemma run_spin (P : platform) (c : settings) (rs : list resumption) :
  MAX_CONCURRENT_TASKS c <= 0 ->
  Forall (fun r => is_completes r = true) rs ->
  forall count,
    0 < count ->
    RichHideMyEmail.generate_run P c (at_generate count []) rs
    = (repeat (asyncio_gather []) (length rs),
       at_generate (count - MAX_CONCURRENT_TASKS c * Z.of_nat (length rs)) []).
Proof.
  intros HK. induction 1 as [|r rs Hr _ IH]; intros count Hcount.
  - cbn. f_equal. f_equal. lia.
  - destruct r as [remote|remote]; [|discriminate].
    cbn [RichHideMyEmail.generate_run].
    rewrite (resume_wave _ _ _ _ _ _ _ (generate_no_task P remote _ HK)).
    rewrite while_count_positive by lia. cbn [fst snd app].
    rewrite IH by lia. cbn [fst snd length repeat app]. f_equal. f_equal. lia.
Qed.

(** X7.  With a bound that is not positive and a positive target the poll
    loop spins: every wave has no task, the countdown never falls, and the
    loop never logs, never sleeps and never calls the service. *)
Theorem spins_without_bound (P : platform) (c : settings)
    (rs : list resumption) :
  MAX_CONCURRENT_TASKS c <= 0 ->
  0 < COUNT_TO_GENERATE c ->
  Forall (fun r => is_completes r = true) rs ->
  RichHideMyEmail.generate P c rs
  = ([console_rule; console_status "Generating iCloud emails..."]
       ++ repeat (asyncio_gather []) (length rs),
     at_generate
       (COUNT_TO_GENERATE c - MAX_CONCURRENT_TASKS c * Z.of_nat (length rs))
       []).
Proof.
  intros HK HT Hrs.
  unfold RichHideMyEmail.generate, RichHideMyEmail.generate_enter,
    RichHideMyEmail.while_True.
  rewrite while_count_positive by assumption. cbn [fst snd].
  rewrite (run_spin P c rs HK Hrs _ HT). cbn [fst snd].
  rewrite app_nil_r. reflexivity.
Qed.

Lemma spins_without_bound_witness :
  RichHideMyEmail.generate sample_platform
    {| MAX_CONCURRENT_TASKS := 0; SLEEP_INTERVAL := 1800;
       COUNT_TO_GENERATE := 20 |}
    [completes (fun _ => obliging); completes (fun _ => obliging)]
  = ([console_rule; console_status "Generating iCloud emails...";
      asyncio_gather []; asyncio_gather []],
     at_generate 20 []).
Proof.
  apply (spins_without_bound sample_platform
           {| MAX_CONCURRENT_TASKS := 0; SLEEP_INTERVAL := 1800;
              COUNT_TO_GENERATE := 20 |}
           [completes (fun _ => obliging); completes (fun _ => obliging)]).
  - discriminate.
  - reflexivity.
  - repeat constructor.
Defined.

(** *** The Lister, for any answer *)
























Lemma length_filter_partition {A} (f g : A -> bool) (l : list A) :
  (forall a, g a = negb (f a)) ->
  (length (List.filter f l) + length (List.filter g l) = length l)%nat.
Proof.
  intros H. induction l as [|a l IH]; cbn; [reflexivity|].
  rewrite (H a). destruct (f a); cbn; lia.
Qed.

Lemma filter_sublist {A} (f g : A -> bool) (l : list A) :
  (forall a, f a = true -> g a = true) ->
  sublist (List.filter f l) (List.filter g l).
Proof.
  intros H. induction l as [|a l IH]; cbn; [constructor|].
  destruct (f a) eqn:Hf.
  - rewrite (H a Hf). constructor. exact IH.
  - destruct (g a); [constructor|]; exact IH.
Qed.

Lemma sublist_map {A B} (f : A -> B) (l1 l2 : list A) :
  sublist l1 l2 -> sublist (map f l1) (map f l2).
Proof. induction 1; cbn; constructor; assumption. Qed.

(** The rows of the table after a run over records typed as the interface
    says, whether or not the table is then rendered. *)
Lemma list_typed_rows (P : platform) (self : HideMyEmail)
    (activeFilter : bool) (search : option string) (found : string -> bool)
    (d res : gmap string pyval) (records : list pyval) (aliases : list alias) :
  list_email self = PDict d ->
  succeeds d = true ->
  d !! "result" = Some (PDict res) ->
  res !! "hmeEmails" = Some (PList records) ->
  Forall2 (fun email a => as_alias P email = Some a) records aliases ->
  compiled P search = Some found ->
  rows_added (trace (RichHideMyEmail.list P self activeFilter search))
  = map table_row (List.filter (shown activeFilter found) aliases).
Proof.
  intros Hl Hs Hr Hh Hrec Hc.
  rewrite (list_typed P self activeFilter search found d res records aliases)
    by assumption.
  unfold trace at 1. cbn [fst].
  rewrite !rows_added_app, rows_added_rows, rows_added_finish. cbn.
  apply app_nil_r.
Qed.

(** X9.  For records typed as the interface says, every record is shown by
    exactly one of the two active filters when no pattern is given, and a
    pattern only removes rows from what its active filter shows. *)
Theorem tables_partition_the_records (P : platform) (self : HideMyEmail)
    (d res : gmap string pyval) (records : list pyval) (aliases : list alias)
    (activeFilter : bool) (pattern : string) (found : string -> bool) :
  list_email self = PDict d ->
  succeeds d = true ->
  d !! "result" = Some (PDict res) ->
  res !! "hmeEmails" = Some (PList records) ->
  Forall2 (fun email a => as_alias P email = Some a) records aliases ->
  re_compile P pattern = Ret found ->
  (length (rows_added (trace (RichHideMyEmail.list P self true None)))
   + length (rows_added (trace (RichHideMyEmail.list P self false None)))
   = length records)%nat
  /\ sublist
       (rows_added
          (trace (RichHideMyEmail.list P self activeFilter (Some pattern))))
       (rows_added (trace (RichHideMyEmail.list P self activeFilter None))).
Proof.
  intros Hl Hs Hr Hh Hrec Hpat.
  rewrite (list_typed_rows P self true None (fun _ => true) d res records
             aliases) by (try assumption; reflexivity).
  rewrite (list_typed_rows P self false None (fun _ => true) d res records
             aliases) by (try assumption; reflexivity).
  rewrite (list_typed_rows P self activeFilter None (fun _ => true) d res
             records aliases) by (try assumption; reflexivity).
  rewrite (list_typed_rows P self activeFilter (Some pattern) found d res
             records aliases)
    by (try assumption; unfold compiled; rewrite Hpat; reflexivity).
  rewrite !length_map.
  split.
  - rewrite (Forall2_length _ _ _ Hrec).
    apply length_filter_partition. intros a. unfold shown.
    destruct (active a); reflexivity.
  - apply sublist_map. apply filter_sublist.
    intros a. unfold shown. rewrite !Bool.andb_true_iff. tauto.
Qed.

Lemma tables_partition_the_records_witness :
  (length (rows_added (trace (RichHideMyEmail.list sample_platform listing
                                true None)))
   + length (rows_added (trace (RichHideMyEmail.list sample_platform listing
                                  false None)))
   = 3)%nat.
Proof.
  refine (proj1 (tables_partition_the_records sample_platform listing
                   (list_to_map
                      [("success", PBool true);
                       ("result", envelope [("hmeEmails", PList three_records)])])
                   (list_to_map [("hmeEmails", PList three_records)])
                   three_records
                   [ {| label := "shop"; address := "s@icloud.com";
                        createdAt := "2001-09-09 01:46"; active := true |};
                     {| label := "bank"; address := "b@icloud.com";
                        createdAt := "1970-01-01 00:00"; active := false |};
                     {| label := "news"; address := "n@icloud.com";
                        createdAt := "2001-09-09 01:46"; active := false |} ]
                   true "shop" (is_substring "shop")
                   eq_refl eq_refl eq_refl eq_refl _ eq_refl)).
  repeat constructor.
Defined.

(** Runs the body of the loop of the Lister on a record typed as the
    interface says, up to the test of the active filter. *)
Ltac typed_record Ha :=
  let r := fresh "r" in
  let ms := fresh "ms" in
  let Hl := fresh "Hl" in
  let Hh := fresh "Hh" in
  let Hts := fresh "Hts" in
  let Hact := fresh "Hact" in
  let Ht := fresh "Ht" in
  destruct (as_alias_inv _ _ _ Ha) as (r & ms & -> & Hl & Hh & Hts & Hact & Ht);
  cbn [RichHideMyEmail.list_for];
  repeat (cbn -[RichHideMyEmail.list_for]; known_fields);
  unfold lift; rewrite Ht;
  repeat (cbn -[RichHideMyEmail.list_for]; known_fields).

Lemma list_for_prefix (P : platform) (activeFilter : bool)
    (search : option string) (found : string -> bool) :
  compiled P search = Some found ->
  forall (prefix : list pyval) (aliases : list alias),
    Forall2 (fun email a => as_alias P email = Some a) prefix aliases ->
    forall rest email_strings,
      RichHideMyEmail.list_for P activeFilter search (prefix ++ rest)
        email_strings
      = (map table_add_row
           (map table_row (List.filter (shown activeFilter found) aliases))
           ++ fst (RichHideMyEmail.list_for P activeFilter search rest
                     (email_strings ++ map export_row aliases)),
         snd (RichHideMyEmail.list_for P activeFilter search rest
                (email_strings ++ map export_row aliases))).
Proof.
  intros Hsearch prefix aliases H.
  induction H as [|email a prefix aliases Ha _ IH]; intros rest email_strings.
  - cbn. rewrite app_nil_r.
    destruct (RichHideMyEmail.list_for _ _ _ _ _); reflexivity.
  - change ((email :: prefix) ++ rest) with (email :: (prefix ++ rest)).
    typed_record Ha.
    rewrite IH.
    assert (shown activeFilter found a
            = Bool.eqb (active a) activeFilter && found (label a)) as Hshown
      by reflexivity.
    destruct (Bool.eqb (active a) activeFilter) eqn:Hf; cbn in Hshown.
    + unfold compiled in Hsearch. destruct search as [pattern|].
      * unfold re_search.
        destruct (re_compile P pattern) as [found'|]; [|discriminate].
        injection Hsearch as ->.
        destruct (found (label a)) eqn:Hfound; rewrite Hshown; cbn;
          rewrite <- ?app_assoc; reflexivity.
      * injection Hsearch as <-. rewrite Hshown. cbn.
        rewrite <- ?app_assoc. reflexivity.
    + rewrite Hshown. cbn. rewrite <- ?app_assoc. reflexivity.
Qed.

Lemma list_for_unmatched (P : platform) (activeFilter : bool)
    (search : option string) :
  forall (records : list pyval) (aliases : list alias),
    Forall2 (fun email a => as_alias P email = Some a) records aliases ->
    Forall (fun a => Bool.eqb (active a) activeFilter = false) aliases ->
    forall email_strings,
      RichHideMyEmail.list_for P activeFilter search records email_strings
      = ([], Ret (email_strings ++ map export_row aliases)).
Proof.
  intros records aliases H.
  induction H as [|email a records aliases Ha _ IH];
    intros Hun email_strings.
  - cbn. rewrite app_nil_r. reflexivity.
  - apply Forall_cons in Hun as [Hf Hun].
    typed_record Ha. rewrite Hf. cbn -[RichHideMyEmail.list_for].
    rewrite (IH Hun). cbn. rewrite <- app_assoc. reflexivity.
Qed.

Lemma list_for_refused (P : platform) (activeFilter : bool)
    (pattern : string) (e : exn) :
  re_compile P pattern = Raise e ->
  forall (records : list pyval) (aliases : list alias),
    Forall2 (fun email a => as_alias P email = Some a) records aliases ->
    Exists (fun a => active a = activeFilter) aliases ->
    forall email_strings,
      RichHideMyEmail.list_for P activeFilter (Some pattern) records
        email_strings
      = ([], Raise e).
Proof.
  intros Hpat records aliases H.
  induction H as [|email a records aliases Ha _ IH];
    intros Hex email_strings.
  - inversion Hex.
  - typed_record Ha.
    destruct (Bool.eqb (active a) activeFilter) eqn:Hf.
    + unfold re_search. rewrite Hpat. reflexivity.
    + cbn -[RichHideMyEmail.list_for]. rewrite IH; [reflexivity|].
      apply Exists_cons in Hex as [Hhere|Hlater]; [|assumption].
      rewrite Hhere in Hf. destruct activeFilter; discriminate.
Qed.

(** The end of the Lister for an empty table: there is nothing that rich
    could refuse. *)
Lemma list_finish_empty_table (P : platform) (email_strings : list string) :
  let content := String.concat (os_linesep P) email_strings in
  RichHideMyEmail.list_finish P [] email_strings
  = match os_open_w P "emails.txt" with
    | Raise e => ([console_print_table], Raise e)
    | Ret _ =>
        match os_write P content with
        | Raise e =>
            ([console_print_table; file_open_w "emails.txt"], Raise e)
        | Ret _ =>
            ([console_print_table; file_open_w "emails.txt";
              file_write "emails.txt" content;
              console_log written_to_emails_txt], Ret tt)
        end
    end.
Proof.
  intros content. unfold RichHideMyEmail.list_finish, console_print, lift.
  cbn. destruct (os_open_w P "emails.txt") as [[]|e]; [|reflexivity].
  cbn. fold content. destruct (os_write P content) as [[]|e]; reflexivity.
Qed.

(** X10.  A label pattern that is no regular expression is noticed only when
    a record passes the active filter: the Lister then raises what [re]
    raises, before it shows any row and without writing the export; when no
    record passes, the pattern is never looked at, the table is printed
    empty and the export is written in full, as far as the platform lets
    the file be opened and written. *)
Theorem pattern_is_compiled_per_record (P : platform) (self : HideMyEmail)
    (d res : gmap string pyval) (records : list pyval) (aliases : list alias)
    (activeFilter : bool) (pattern : string) (e : exn)
    (files : gmap string string) :
  list_email self = PDict d ->
  succeeds d = true ->
  d !! "result" = Some (PDict res) ->
  res !! "hmeEmails" = Some (PList records) ->
  Forall2 (fun email a => as_alias P email = Some a) records aliases ->
  re_compile P pattern = Raise e ->
  let run := RichHideMyEmail.list P self activeFilter (Some pattern) in
  let content := String.concat (os_linesep P) (map export_row aliases) in
  (Exists (fun a => active a = activeFilter) aliases ->
   run = (list_prologue ++ list_columns, Raise e)
   /\ files_after (trace run) files = files)
  /\ (Forall (fun a => Bool.eqb (active a) activeFilter = false) aliases ->
      run
      = match os_open_w P "emails.txt" with
        | Raise e' =>
            (list_prologue ++ list_columns ++ [console_print_table], Raise e')
        | Ret _ =>
            match os_write P content with
            | Raise e' =>
                (list_prologue ++ list_columns
                   ++ [console_print_table; file_open_w "emails.txt"],
                 Raise e')
            | Ret _ =>
                (list_prologue ++ list_columns
                   ++ [console_print_table; file_open_w "emails.txt";
                       file_write "emails.txt" content;
                       console_log written_to_emails_txt],
                 Ret tt)
            end
        end).
Proof.
  intros Hl Hs Hr Hh Hrec Hpat run content. unfold run.
  rewrite (list_of_for P self activeFilter (Some pattern) d res
             (PList records) records Hl Hs Hr Hh eq_refl).
  split.
  - intros Hex.
    rewrite (list_for_refused P activeFilter pattern e Hpat records aliases
               Hrec Hex).
    rewrite app_nil_r. split; reflexivity.
  - intros Hun.
    rewrite (list_for_unmatched P activeFilter (Some pattern) records aliases
               Hrec Hun).
    cbn [rows_added flat_map app]. rewrite list_finish_empty_table.
    fold content. unfold trace, result.
    destruct (os_open_w P "emails.txt") as [[]|e']; [|reflexivity].
    destruct (os_write P content) as [[]|e']; reflexivity.
Qed.

Lemma pattern_is_compiled_per_record_witness :
  RichHideMyEmail.list strict listing true (Some "(")
  = (list_prologue ++ list_columns, Raise (OtherError "re.error")).
Proof.
  refine (proj1 (proj1 (pattern_is_compiled_per_record strict listing
                   (list_to_map
                      [("success", PBool true);
                       ("result", envelope [("hmeEmails", PList three_records)])])
                   (list_to_map [("hmeEmails", PList three_records)])
                   three_records
                   [ {| label := "shop"; address := "s@icloud.com";
                        createdAt := "2001-09-09 01:46"; active := true |};
                     {| label := "bank"; address := "b@icloud.com";
                        createdAt := "1970-01-01 00:00"; active := false |};
                     {| label := "news"; address := "n@icloud.com";
                        createdAt := "2001-09-09 01:46"; active := false |} ]
                   true "(" (OtherError "re.error") ∅
                   eq_refl eq_refl eq_refl eq_refl _ eq_refl) _)).
  - repeat constructor.
  - constructor. reflexivity.
Defined.

(** X11.  A fetch that succeeds with nothing to go through (an empty list,
    and likewise an empty object or an empty string in its place) still
    prints the table and opens the export, whatever the filter and the
    pattern are: once the file is opened it is left empty, whether or not
    the empty text is then written; when the file cannot be opened the run
    raises and the files are as they were. *)
Theorem empty_fetch_empties_export (P : platform) (self : HideMyEmail)
    (d res : gmap string pyval) (hmeEmails : pyval) (activeFilter : bool)
    (search : option string) (files : gmap string string) :
  list_email self = PDict d ->
  succeeds d = true ->
  d !! "result" = Some (PDict res) ->
  res !! "hmeEmails" = Some hmeEmails ->
  py_iter hmeEmails = ret [] ->
  let run := RichHideMyEmail.list P self activeFilter search in
  run
  = match os_open_w P "emails.txt" with
    | Raise e =>
        (list_prologue ++ list_columns ++ [console_print_table], Raise e)
    | Ret _ =>
        match os_write P "" with
        | Raise e =>
            (list_prologue ++ list_columns
               ++ [console_print_table; file_open_w "emails.txt"],
             Raise e)
        | Ret _ =>
            (list_prologue ++ list_columns
               ++ [console_print_table; file_open_w "emails.txt";
                   file_write "emails.txt" "";
                   console_log written_to_emails_txt],
             Ret tt)
        end
    end
  /\ (os_open_w P "emails.txt" = Ret tt ->
      files_after (trace run) files !! "emails.txt" = Some "")
  /\ (forall e, os_open_w P "emails.txt" = Raise e ->
                files_after (trace run) files = files).
Proof.
  intros Hl Hs Hr Hh Hiter run. unfold run.
  rewrite (list_of_for P self activeFilter search d res hmeEmails []
             Hl Hs Hr Hh Hiter).
  cbn [RichHideMyEmail.list_for ret rows_added flat_map app].
  rewrite list_finish_empty_table. cbn [map String.concat].
  unfold trace, result.
  destruct (os_open_w P "emails.txt") as [[]|e'].
  - destruct (os_write P "") as [[]|e'];
      (split; [reflexivity|]); (split; [|discriminate]);
      intros _; cbn; rewrite ?insert_insert_eq; apply lookup_insert_eq.
  - split; [reflexivity|]. split; [discriminate|]. intros e _. reflexivity.
Qed.

Lemma empty_fetch_empties_export_witness :
  let nothing :=
    {| generate_email := PNone; reserve_email := fun _ => PNone;
       list_email :=
         envelope [("success", PBool true);
                   ("result", envelope [("hmeEmails", PDict ∅)])];
       generate_email_time := 1; reserve_email_time := 1 |} in
  files_after
    (trace (RichHideMyEmail.list sample_platform nothing true (Some "shop")))
    (<["emails.txt" := "kept"]> ∅) !! "emails.txt"
  = Some ""
  /\ files_after
       (trace (RichHideMyEmail.list read_only nothing true (Some "shop")))
       (<["emails.txt" := "kept"]> ∅)
     = <["emails.txt" := "kept"]> ∅.
Proof.
  intros nothing. split.
  - refine (proj1 (proj2 (empty_fetch_empties_export sample_platform nothing
                     (list_to_map
                        [("success", PBool true);
                         ("result", envelope [("hmeEmails", PDict ∅)])])
                     (list_to_map [("hmeEmails", PDict ∅)])
                     (PDict ∅) true (Some "shop") _ _ _ _ _ _)) _);
      reflexivity.
  - refine (proj2 (proj2 (empty_fetch_empties_export read_only nothing
                     (list_to_map
                        [("success", PBool true);
                         ("result", envelope [("hmeEmails", PDict ∅)])])
                     (list_to_map [("hmeEmails", PDict ∅)])
                     (PDict ∅) true (Some "shop") _ _ _ _ _ _))
              (OtherError "PermissionError") _);
      reflexivity.
Defined.

Lemma list_stops_at (P : platform) (self : HideMyEmail)
    (d res : gmap string pyval) (prefix : list pyval) (aliases : list alias)
    (bad : pyval) (rest : list pyval) (activeFilter : bool)
    (search : option string) (found : string -> bool) (e : exn) :
  list_email self = PDict d ->
  succeeds d = true ->
  d !! "result" = Some (PDict res) ->
  res !! "hmeEmails" = Some (PList (prefix ++ bad :: rest)) ->
  Forall2 (fun email a => as_alias P email = Some a) prefix aliases ->
  compiled P search = Some found ->
  (forall email_strings,
      RichHideMyEmail.list_for P activeFilter search (bad :: rest) email_strings
      = ([], Raise e)) ->
  RichHideMyEmail.list P self activeFilter search
  = (list_prologue ++ list_columns
       ++ map table_add_row
            (map table_row (List.filter (shown activeFilter found) aliases)),
     Raise e).
Proof.
  intros Hl Hs Hr Hh Hrec Hsearch Hbad.
  rewrite (list_of_for P self activeFilter search d res
             (PList (prefix ++ bad :: rest)) (prefix ++ bad :: rest)
             Hl Hs Hr Hh eq_refl).
  rewrite (list_for_prefix P activeFilter search found Hsearch prefix aliases
             Hrec).
  rewrite Hbad. cbn [fst snd]. rewrite app_nil_r. reflexivity.
Qed.

(** X12.  A record that lacks a field stops the Lister with a [KeyError]
    for the first field it misses, in the order [isActive],
    [createTimestamp], [label], [hme], and a timestamp the platform refuses
    stops it with what the platform raises.  The rows of the records before
    it are in the table by then; the table is not printed and the export is
    not opened, so that the files are as they were. *)
Theorem record_without_field (P : platform) (self : HideMyEmail)
    (d res r : gmap string pyval) (prefix rest : list pyval)
    (aliases : list alias) (activeFilter : bool) (search : option string)
    (found : string -> bool) (files : gmap string string) :
  list_email self = PDict d ->
  succeeds d = true ->
  d !! "result" = Some (PDict res) ->
  res !! "hmeEmails" = Some (PList (prefix ++ PDict r :: rest)) ->
  Forall2 (fun email a => as_alias P email = Some a) prefix aliases ->
  compiled P search = Some found ->
  let run := RichHideMyEmail.list P self activeFilter search in
  let shown_before :=
    list_prologue ++ list_columns
      ++ map table_add_row
           (map table_row (List.filter (shown activeFilter found) aliases)) in
  (r !! "isActive" = None -> run = (shown_before, Raise (KeyError "isActive")))
  /\ (forall a,
         r !! "isActive" = Some a -> r !! "createTimestamp" = None ->
         run = (shown_before, Raise (KeyError "createTimestamp")))
  /\ (forall a ms e,
         r !! "isActive" = Some a -> r !! "createTimestamp" = Some (PInt ms) ->
         fromtimestamp_strftime P (inject_Z ms / 1000)%Q = Raise e ->
         run = (shown_before, Raise e))
  /\ (forall a ms t,
         r !! "isActive" = Some a -> r !! "createTimestamp" = Some (PInt ms) ->
         fromtimestamp_strftime P (inject_Z ms / 1000)%Q = Ret t ->
         r !! "label" = None ->
         run = (shown_before, Raise (KeyError "label")))
  /\ (forall a ms t l,
         r !! "isActive" = Some a -> r !! "createTimestamp" = Some (PInt ms) ->
         fromtimestamp_strftime P (inject_Z ms / 1000)%Q = Ret t ->
         r !! "label" = Some l -> r !! "hme" = None ->
         run = (shown_before, Raise (KeyError "hme")))
  /\ files_after shown_before files = files.
Proof.
  intros Hl Hs Hr Hh Hrec Hsearch run shown_before.
  unfold run, shown_before.
  split; [|split; [|split; [|split; [|split]]]].
  - intros Ha.
    apply (list_stops_at P self d res prefix aliases (PDict r) rest);
      try assumption.
    intros acc. cbn [RichHideMyEmail.list_for].
    repeat (cbn -[RichHideMyEmail.list_for]; known_fields). reflexivity.
  - intros a Ha Hts.
    apply (list_stops_at P self d res prefix aliases (PDict r) rest);
      try assumption.
    intros acc. cbn [RichHideMyEmail.list_for].
    repeat (cbn -[RichHideMyEmail.list_for]; known_fields). reflexivity.
  - intros a ms e Ha Hts Ht.
    apply (list_stops_at P self d res prefix aliases (PDict r) rest);
      try assumption.
    intros acc. cbn [RichHideMyEmail.list_for].
    repeat (cbn -[RichHideMyEmail.list_for]; known_fields).
    unfold lift. rewrite Ht. reflexivity.
  - intros a ms t Ha Hts Ht Hlabel.
    apply (list_stops_at P self d res prefix aliases (PDict r) rest);
      try assumption.
    intros acc. cbn [RichHideMyEmail.list_for].
    repeat (cbn -[RichHideMyEmail.list_for]; known_fields).
    unfold lift. rewrite Ht.
    repeat (cbn -[RichHideMyEmail.list_for]; known_fields). reflexivity.
  - intros a ms t l Ha Hts Ht Hlabel Hhme.
    apply (list_stops_at P self d res prefix aliases (PDict r) rest);
      try assumption.
    intros acc. cbn [RichHideMyEmail.list_for].
    repeat (cbn -[RichHideMyEmail.list_for]; known_fields).
    unfold lift. rewrite Ht.
    repeat (cbn -[RichHideMyEmail.list_for]; known_fields). reflexivity.
  - rewrite !files_after_app, files_after_rows. reflexivity.
Qed.

Lemma record_without_field_witness :
  let torn :=
    lists [record "shop" "s@icloud.com" 1000000000 true;
           envelope [("label", PStr "bank"); ("isActive", PBool true)]] in
  RichHideMyEmail.list sample_platform torn true None
  = (list_prologue ++ list_columns
       ++ [table_add_row [PStr "shop"; PStr "s@icloud.com";
                          PStr "2001-09-09 01:46"; PStr "Active"]],
     Raise (KeyError "createTimestamp")).
Proof.
  intros torn.
  refine (proj1 (proj2 (record_without_field sample_platform torn
                   (list_to_map
                      [("success", PBool true);
                       ("result",
                        envelope
                          [("hmeEmails",
                            PList [record "shop" "s@icloud.com" 1000000000 true;
                                   envelope [("label", PStr "bank");
                                             ("isActive", PBool true)]])])])
                   (list_to_map
                      [("hmeEmails",
                        PList [record "shop" "s@icloud.com" 1000000000 true;
                               envelope [("label", PStr "bank");
                                         ("isActive", PBool true)]])])
                   (list_to_map [("label", PStr "bank");
                                 ("isActive", PBool true)])
                   [record "shop" "s@icloud.com" 1000000000 true] []
                   [ {| label := "shop"; address := "s@icloud.com";
                        createdAt := "2001-09-09 01:46"; active := true |} ]
                   true None (fun _ => true) ∅
                   eq_refl eq_refl eq_refl eq_refl _ eq_refl))
            (PBool true) eq_refl eq_refl).
  repeat constructor.
Defined.

(** *** Construction *)

Lemma filter_commented (comments : list string) :
  Forall commented comments ->
  List.filter (fun line => negb (String.prefix "//" line)) comments = [].
Proof.
  induction 1 as [|line f Hline _ IH]; [reflexivity|].
  cbn. rewrite Hline. exact IH.
Qed.

(** X13.  When the cookie file has a line that is not commented out, the
    cookie is the first such line as it stands in the file, whatever comes
    after it, and construction logs nothing. *)
Theorem first_line_is_the_cookie (comments rest : list string)
    (line : string) :
  Forall commented comments ->
  String.prefix "//" line = false ->
  RichHideMyEmail.__init__ (Some (comments ++ line :: rest))
  = ([], Ret (Some line)).
Proof.
  intros Hc Hline. unfold RichHideMyEmail.__init__.
  rewrite List.filter_app, (filter_commented _ Hc). cbn. rewrite Hline.
  reflexivity.
Qed.

Lemma first_line_is_the_cookie_witness :
  RichHideMyEmail.__init__
    (Some ["// paste the cookie below" ++ newline; newline;
           "X-APPLE-WEBAUTH-USER=v" ++ newline])%string
  = ([], Ret (Some newline)).
Proof.
  apply (first_line_is_the_cookie ["// paste the cookie below" ++ newline]%string
           ["X-APPLE-WEBAUTH-USER=v" ++ newline]%string newline).
  - repeat constructor.
  - reflexivity.
Defined.

(** X14.  With a cookie file in which every line is commented out (or that
    is empty), each of the three functions of the module ends with the
    [IndexError] of the construction before anything else happens: nothing
    is printed, nothing is asked, and the service is not called. *)
Theorem entry_points_need_a_cookie (f : list string) (P : platform)
    (self : HideMyEmail) (c : settings) (answer : prompt_answer)
    (rs : list resumption) (activeFilter : bool) (search : option string) :
  Forall commented f ->
  Main.generate (Some f) P c rs = ([], raised IndexError)
  /\ Main.ask_action (Some f) P self c answer rs
     = ([], ask_done (Raise IndexError))
  /\ Main.list (Some f) P self activeFilter search = ([], Raise IndexError).
Proof.
  intros Hf.
  assert (RichHideMyEmail.__init__ (Some f) = ([], Raise IndexError)) as Hinit.
  { unfold RichHideMyEmail.__init__. rewrite (filter_commented _ Hf).
    reflexivity. }
  unfold Main.generate, Main.ask_action, Main.list. rewrite Hinit.
  repeat split.
Qed.

Lemma entry_points_need_a_cookie_witness :
  Main.list (Some ["// no cookie yet"]) sample_platform listing true None
  = ([], Raise IndexError).
Proof.
  refine (proj2 (proj2 (entry_points_need_a_cookie ["// no cookie yet"]
                          sample_platform listing main_py interrupts []
                          true None _))).
  repeat constructor.
Defined.

(** *** Answers that are no envelope *)

(** X15.  An answer that is a true boolean or a number other than zero makes
    the code raise a [TypeError] at the first [in]: the worker right after
    its create call, or after its reserve call (which it makes once the
    console has rendered the line of the address), and the Lister after its
    fetch, in each case without logging anything about it. *)
Theorem scalar_answer_raises (P : platform) (self : HideMyEmail) (v : pyval) :
  is_scalar v = true ->
  py_bool v = true ->
  (generate_email self = v ->
   RichHideMyEmail._generate_one P self
   = ([generate_email_call], Raise TypeError))
  /\ (forall email,
         created self = Some email -> reserve_email self email = v ->
         RichHideMyEmail._generate_one P self
         = match console_renders P (generated_50 email) with
           | Ret _ =>
               ([generate_email_call; console_log (generated_50 email);
                 reserve_email_call email], Raise TypeError)
           | Raise e =>
               ([generate_email_call; console_log (generated_50 email)],
                Raise e)
           end)
  /\ (forall activeFilter search,
         list_email self = v ->
         RichHideMyEmail.list P self activeFilter search
         = (list_prologue, Raise TypeError)).
Proof.
  intros Hscalar Htrue. split; [|split].
  - intros Hg. unfold RichHideMyEmail._generate_one, await_generate_email.
    rewrite Hg. cbn -[py_bool]. rewrite Htrue.
    destruct v; try discriminate; reflexivity.
  - intros email Hc Hr.
    destruct (console_renders P (generated_50 email)) as [[]|e] eqn:Hlog;
      [|apply generate_one_unshown; assumption].
    destruct (created_inv _ _ Hc) as (d & res & Hg & Hs & Hres & Hh).
    pose proof (succeeds_truthy _ Hs) as Ht.
    unfold RichHideMyEmail._generate_one, await_generate_email,
      await_reserve_email, log.
    rewrite Hg. unfold bind at 1. cbv beta iota. rewrite Ht.
    unfold succeeds in Hs. unfold py_in at 1, py_getitem at 1.
    destruct (d !! "success") as [flag|] eqn:Es; [|discriminate].
    cbn -[py_bool]. rewrite Hs. cbn -[py_bool]. rewrite Hres.
    cbn -[py_bool]. rewrite Hh. cbn -[py_bool]. rewrite Hlog.
    cbn -[py_bool]. rewrite Hr, Htrue.
    destruct v; try discriminate; reflexivity.
  - intros activeFilter search Hl.
    unfold RichHideMyEmail.list, await_list_email.
    rewrite Hl. cbn -[py_bool]. rewrite Htrue.
    destruct v; try discriminate; reflexivity.
Qed.

Lemma scalar_answer_raises_witness :
  RichHideMyEmail._generate_one sample_platform
    {| generate_email := PInt 429; reserve_email := fun _ => PNone;
       list_email := PNone;
       generate_email_time := 1; reserve_email_time := 1 |}
  = ([generate_email_call], Raise TypeError).
Proof.
  refine (proj1 (scalar_answer_raises sample_platform
                   {| generate_email := PInt 429;
                      reserve_email := fun _ => PNone;
                      list_email := PNone;
                      generate_email_time := 1;
                      reserve_email_time := 1 |} (PInt 429) _ _) _);
    reflexivity.
Defined.

(** *** The menu *)

Lemma run_suspended (P : platform) (c : settings) (rs : list resumption)
    (s : generate_state) :
  suspended s = true ->
  Forall (fun r => exists remote, r = completes remote
                                  /\ conforming c remote
                                  /\ accepted P c remote) rs ->
  suspended (snd (RichHideMyEmail.generate_run P c s rs)) = true.
Proof.
  intros Hs Hrs.
  apply (generate_run_invariant P c (fun s => suspended s = true)
           (fun r => exists remote, r = completes remote
                                    /\ conforming c remote
                                    /\ accepted P c remote));
    try assumption.
  intros s' r Hs' Hr. apply resume_suspended; assumption.
Qed.

(** X16.  Chosen from the menu, the poll loop keeps [ask_action] waiting as
    long as its waves come back (answers typed as the interface says, lines
    that the console renders).  A [KeyboardInterrupt] that is raised in
    [generate] as it runs on after such a wave, or after its sleep, makes
    [ask_action] return the empty list, and nothing that is scheduled after
    it happens. *)
Theorem menu_generate_ends_by_interrupt (P : platform) (self : HideMyEmail)
    (c : settings) (pre post : list resumption)
    (remote : nat -> HideMyEmail) :
  Forall (fun r => exists remote, r = completes remote
                                  /\ conforming c remote
                                  /\ accepted P c remote) pre ->
  conforming c remote ->
  accepted P c remote ->
  (exists s,
      snd (RichHideMyEmail.ask_action P self c (answers "1") pre)
      = awaiting_generate s
      /\ suspended s = true)
  /\ snd (RichHideMyEmail.ask_action P self c (answers "1")
            (pre ++ KeyboardInterrupt remote :: post))
     = ask_done (Ret (PList []))
  /\ fst (RichHideMyEmail.ask_action P self c (answers "1")
            (pre ++ KeyboardInterrupt remote :: post))
     = console_rule
         :: fst (RichHideMyEmail.generate P c pre)
         ++ match snd (RichHideMyEmail.generate P c pre) with
            | at_generate _ _ => [wave_event P c remote]
            | _ => []
            end.
Proof.
  intros Hpre Hconf Hacc.
  pose proof (run_suspended P c pre _ (enter_suspended c) Hpre) as Hs.
  split; [|split].
  - exists (snd (RichHideMyEmail.generate P c pre)).
    rewrite generate_state_of. split; [|exact Hs].
    unfold RichHideMyEmail.ask_action. cbn [String.eqb Ascii.eqb Bool.eqb].
    cbn [snd]. rewrite generate_state_of.
    destruct (snd (RichHideMyEmail.generate_run P c _ pre));
      try discriminate; reflexivity.
  - unfold RichHideMyEmail.ask_action. cbn [String.eqb Ascii.eqb Bool.eqb].
    unfold RichHideMyEmail.generate. rewrite run_app.
    cbn [RichHideMyEmail.generate_run fst snd].
    destruct (snd (RichHideMyEmail.generate_run P c
                     (snd (RichHideMyEmail.generate_enter c)) pre))
      as [count emails| |v|e] eqn:Hstate; try discriminate Hs;
      cbn [RichHideMyEmail.generate_resume];
      rewrite ?(generate_conforming P c remote Hconf Hacc); cbn [fst snd];
      rewrite run_returned; reflexivity.
  - unfold RichHideMyEmail.ask_action. cbn [String.eqb Ascii.eqb Bool.eqb].
    unfold RichHideMyEmail.generate. rewrite run_app.
    cbn [RichHideMyEmail.generate_run fst snd].
    destruct (snd (RichHideMyEmail.generate_run P c
                     (snd (RichHideMyEmail.generate_enter c)) pre))
      as [count emails| |v|e] eqn:Hstate; try discriminate Hs;
      cbn [RichHideMyEmail.generate_resume];
      rewrite ?(generate_conforming P c remote Hconf Hacc); cbn [fst snd];
      rewrite run_returned; cbn [fst snd]; rewrite ?app_nil_r;
      rewrite <- ?app_assoc; reflexivity.
Qed.

Lemma menu_generate_ends_by_interrupt_witness :
  snd (RichHideMyEmail.ask_action sample_platform silent main_py (answers "1")
         ([completes two_refused]
            ++ KeyboardInterrupt two_refused :: [completes two_refused]))
  = ask_done (Ret (PList [])).
Proof.
  refine (proj1 (proj2 (menu_generate_ends_by_interrupt sample_platform silent
                          main_py [completes two_refused]
                          [completes two_refused] two_refused _ _ _))).
  - constructor; [|constructor].
    exists two_refused. split; [reflexivity | split; repeat constructor].
  - repeat constructor.
  - repeat constructor.
Defined.


